(** * Single-item processing store (jsapp/js/components/processing/singleProcessingStore.ts)

    A shallow embedding of the Reflux store that coordinates the transcript,
    the translations and the drafts of one question of one submission, and of
    the [handleApiFail] helper of the fetch wrapper (js/api).

    The store is a JavaScript object mutated by callbacks.  Here every method
    is a function from the store to the new store and the list of effects it
    emitted, in order: network calls handed to the actions layer, subscriber
    notifications ([this.trigger]), toasts, timers.  What the store reads from
    its collaborators at the time of a call (router, asset store) is gathered
    in an environment record. *)

From Stdlib Require Import ZArith Ascii String List Bool Lia DecimalString.
From stdpp Require Import base option strings list gmap.

Local Open Scope string_scope.
Local Open Scope list_scope.

(** ** JavaScript values used by the store *)

(** [Boolean(s)] for a string: only the empty string is falsy. *)
Definition truthy (s : string) : bool := negb (String.eqb s "").

(** [Boolean(x)] for [x : string | undefined]. *)
Definition truthy_opt (o : option string) : bool :=
  match o with
  | Some s => truthy s
  | None => false
  end.

(** [a === b] for two values of type [string | undefined]. *)
Definition strict_eq (a b : option string) : bool := bool_decide (a = b).

(** [a || b] where [a : string | undefined] and [b : string]. *)
Definition or_else (a : option string) (b : string) : string :=
  match a with
  | Some s => if truthy s then s else b
  | None => b
  end.

(** [a || b] where both sides are [string | undefined]. *)
Definition or_opt (a b : option string) : option string :=
  if truthy_opt a then a else b.

(** [s.includes(sub)]. *)
Fixpoint str_includes (sub s : string) : bool :=
  String.prefix sub s ||
  match s with
  | EmptyString => false
  | String _ rest => str_includes sub rest
  end.

(** [arr.includes(x)] on an array of strings. *)
Definition includes (x : string) (arr : list string) : bool :=
  existsb (String.eqb x) arr.

(** The names that every plain object inherits from [Object.prototype]. *)
Definition objectPrototypeMembers : list string :=
  ["constructor"; "__defineGetter__"; "__defineSetter__"; "hasOwnProperty";
   "__lookupGetter__"; "__lookupSetter__"; "isPrototypeOf";
   "propertyIsEnumerable"; "toString"; "valueOf"; "__proto__";
   "toLocaleString"].

(** What [obj[key]] is for a plain object [obj] and any string [key]: the
    value of an own property, or the member of that name that the object
    inherits (a function, or the prototype itself), or [undefined]. *)
Inductive Member (A : Type) : Type :=
| Own : A -> Member A
| Inherited : string -> Member A
| NoMember : Member A.
Arguments Own {A} _.
Arguments Inherited {A} _.
Arguments NoMember {A}.

(** [obj[key]], where [own] holds the own properties of [obj]. *)
Definition member {A} (own : gmap string A) (key : string) : Member A :=
  match own !! key with
  | Some value => Own value
  | None =>
      if includes key objectPrototypeMembers then Inherited key else NoMember
  end.

(** [Boolean(obj[key])] for an object of strings: an inherited member is an
    object or a function, which is truthy. *)
Definition truthy_member (m : Member string) : bool :=
  match m with
  | Own value => truthy value
  | Inherited _ => true
  | NoMember => false
  end.

(** A value of type [T | null | undefined] ([regionCode?: LanguageCode | null]). *)
Inductive Nullable (A : Type) : Type :=
| Undefined : Nullable A
| Null : Nullable A
| Defined : A -> Nullable A.
Arguments Undefined {A}.
Arguments Null {A}.
Arguments Defined {A} _.

(** [x === n] where [x] is a string and [n : string | null | undefined]. *)
Definition eq_nullable (x : string) (n : Nullable string) : bool :=
  match n with
  | Defined y => String.eqb x y
  | _ => false
  end.

(** [x === o] where [x] is a string and [o : string | undefined]. *)
Definition eq_optional (x : string) (o : option string) : bool :=
  match o with
  | Some y => String.eqb x y
  | None => false
  end.

(** The number-to-string conversion of a template literal, for an integer. *)
Definition number_to_string (n : Z) : string :=
  NilZero.string_of_int (Z.to_int n).

(** ** Data model *)

Definition LanguageCode := string.

Inductive ProcessingTabName := TabTranscript | TabTranslations | TabAnalysis.

(** [enum StaticDisplays]: at run time its members are these strings. *)
Module StaticDisplays.
Definition Data : string := "Data".
Definition Audio : string := "Audio".
Definition Transcript : string := "Transcript".
End StaticDisplays.

(** [DisplaysList = Array<LanguageCode | StaticDisplays>]. *)
Definition DisplaysList := list string.

(** [SidebarDisplays]: one list per tab. *)
Module SidebarDisplays.
Record t := mk {
  transcript : DisplaysList;
  translations : DisplaysList;
  analysis : DisplaysList;
}.
Definition get (tab : ProcessingTabName) (d : t) : DisplaysList :=
  match tab with
  | TabTranscript => transcript d
  | TabTranslations => translations d
  | TabAnalysis => analysis d
  end.
Definition set (tab : ProcessingTabName) (l : DisplaysList) (d : t) : t :=
  match tab with
  | TabTranscript => mk l (translations d) (analysis d)
  | TabTranslations => mk (transcript d) l (analysis d)
  | TabAnalysis => mk (transcript d) (translations d) l
  end.
End SidebarDisplays.

(** [DefaultDisplays.get(tab) || []]. *)
Definition DefaultDisplays (tab : ProcessingTabName) : DisplaysList :=
  match tab with
  | TabTranscript => [StaticDisplays.Audio; StaticDisplays.Data]
  | TabTranslations =>
      [StaticDisplays.Audio; StaticDisplays.Data; StaticDisplays.Transcript]
  | TabAnalysis =>
      [StaticDisplays.Audio; StaticDisplays.Data; StaticDisplays.Transcript]
  end.

(** [interface Transx]: shared by transcript and translations. *)
Module Transx.
Record t := mk {
  value : string;
  languageCode : LanguageCode;
  dateCreated : string;
  dateModified : string;
}.
End Transx.

(** [interface TransxDraft]. *)
Module TransxDraft.
Record t := mk {
  value : option string;
  languageCode : option LanguageCode;
  regionCode : Nullable LanguageCode;
}.
Definition set_value (v : string) (d : t) : t :=
  mk (Some v) (languageCode d) (regionCode d).
End TransxDraft.

(** The result of an automatic service ([googlets], [googletx]).  Its type is
    declared with the processing actions; the store reads these two fields. *)
Module GoogleResponse.
Record t := mk {
  value : string;
  languageCode : LanguageCode;
}.
End GoogleResponse.

(** One question's entry of a [ProcessingDataResponse].  The [translation]
    object is kept as its keys in [Object.keys] order, each with its value. *)
Module QuestionData.
Record t := mk {
  transcript : option Transx.t;
  translation : option (list (LanguageCode * Transx.t));
  googlets : option GoogleResponse.t;
  googletx : option GoogleResponse.t;
}.
End QuestionData.

(** [ProcessingDataResponse]: question path to processing data. *)
Abbreviation ProcessingDataResponse := (gmap string QuestionData.t).

(** [SubmissionResponse]: the store reads the keys of a submission and the two
    identifiers [meta/rootUuid] and [_uuid]. *)
Abbreviation SubmissionResponse := (gmap string string).

Module EditId.
Record t := mk {
  editId : option string;
  hasResponse : bool;
}.
End EditId.

(** [interface SubmissionsEditIds]. *)
Abbreviation SubmissionsEditIds := (gmap string (list EditId.t)).

(** [interface AutoTranscriptionEvent]. *)
Module AutoTranscriptionEvent.
Record t := mk {
  response : ProcessingDataResponse;
  submissionEditId : string;
}.
End AutoTranscriptionEvent.

(** [interface FailResponse] (js/dataInterface), as the two failure handlers
    read it. *)
Module ResponseJSON.
Record t := mk {
  detail : option string;
  error : option string;
}.
End ResponseJSON.

Module FailResponse.
Record t := mk {
  status : Z;
  statusText : string;
  responseText : option string;
  responseJSON : option ResponseJSON.t;
}.
End FailResponse.

(** [interface SingleProcessingStoreData]. *)
Module Data.
Record t := mk {
  transcript : option Transx.t;
  transcriptDraft : option TransxDraft.t;
  translations : list Transx.t;
  translationDraft : option TransxDraft.t;
  source : option string;
  submissionData : option SubmissionResponse;
  submissionsEditIds : option SubmissionsEditIds;
  isPristine : bool;
  isFetchingData : bool;
  isPollingForTranscript : bool;
}.

Definition set_transcript x (d : t) :=
  mk x (transcriptDraft d) (translations d) (translationDraft d) (source d)
     (submissionData d) (submissionsEditIds d) (isPristine d)
     (isFetchingData d) (isPollingForTranscript d).
Definition set_transcriptDraft x (d : t) :=
  mk (transcript d) x (translations d) (translationDraft d) (source d)
     (submissionData d) (submissionsEditIds d) (isPristine d)
     (isFetchingData d) (isPollingForTranscript d).
Definition set_translations x (d : t) :=
  mk (transcript d) (transcriptDraft d) x (translationDraft d) (source d)
     (submissionData d) (submissionsEditIds d) (isPristine d)
     (isFetchingData d) (isPollingForTranscript d).
Definition set_translationDraft x (d : t) :=
  mk (transcript d) (transcriptDraft d) (translations d) x (source d)
     (submissionData d) (submissionsEditIds d) (isPristine d)
     (isFetchingData d) (isPollingForTranscript d).
Definition set_source x (d : t) :=
  mk (transcript d) (transcriptDraft d) (translations d) (translationDraft d)
     x (submissionData d) (submissionsEditIds d) (isPristine d)
     (isFetchingData d) (isPollingForTranscript d).
Definition set_submissionData x (d : t) :=
  mk (transcript d) (transcriptDraft d) (translations d) (translationDraft d)
     (source d) x (submissionsEditIds d) (isPristine d)
     (isFetchingData d) (isPollingForTranscript d).
Definition set_submissionsEditIds x (d : t) :=
  mk (transcript d) (transcriptDraft d) (translations d) (translationDraft d)
     (source d) (submissionData d) x (isPristine d)
     (isFetchingData d) (isPollingForTranscript d).
Definition set_isPristine x (d : t) :=
  mk (transcript d) (transcriptDraft d) (translations d) (translationDraft d)
     (source d) (submissionData d) (submissionsEditIds d) x
     (isFetchingData d) (isPollingForTranscript d).
Definition set_isFetchingData x (d : t) :=
  mk (transcript d) (transcriptDraft d) (translations d) (translationDraft d)
     (source d) (submissionData d) (submissionsEditIds d) (isPristine d)
     x (isPollingForTranscript d).
Definition set_isPollingForTranscript x (d : t) :=
  mk (transcript d) (transcriptDraft d) (translations d) (translationDraft d)
     (source d) (submissionData d) (submissionsEditIds d) (isPristine d)
     (isFetchingData d) x.
End Data.

(** The handle passed to [getProcessingData.started]: calling it aborts the
    request it was made for. *)
Definition AbortHandle := nat.

(** The fields of [class SingleProcessingStore]. *)
Module Store.
Record t := mk {
  abortFetchData : option AbortHandle;
  previousPath : option string;
  areEditIdsLoaded : bool;
  isSubmissionLoaded : bool;
  isProcessingDataLoaded : bool;
  displays : SidebarDisplays.t;
  analysisTabHasUnsavedWork : bool;
  data : Data.t;
}.

Definition set_abortFetchData x (s : t) :=
  mk x (previousPath s) (areEditIdsLoaded s) (isSubmissionLoaded s)
     (isProcessingDataLoaded s) (displays s) (analysisTabHasUnsavedWork s)
     (data s).
Definition set_previousPath x (s : t) :=
  mk (abortFetchData s) x (areEditIdsLoaded s) (isSubmissionLoaded s)
     (isProcessingDataLoaded s) (displays s) (analysisTabHasUnsavedWork s)
     (data s).
Definition set_areEditIdsLoaded x (s : t) :=
  mk (abortFetchData s) (previousPath s) x (isSubmissionLoaded s)
     (isProcessingDataLoaded s) (displays s) (analysisTabHasUnsavedWork s)
     (data s).
Definition set_isSubmissionLoaded x (s : t) :=
  mk (abortFetchData s) (previousPath s) (areEditIdsLoaded s) x
     (isProcessingDataLoaded s) (displays s) (analysisTabHasUnsavedWork s)
     (data s).
Definition set_isProcessingDataLoaded x (s : t) :=
  mk (abortFetchData s) (previousPath s) (areEditIdsLoaded s)
     (isSubmissionLoaded s) x (displays s) (analysisTabHasUnsavedWork s)
     (data s).
Definition set_displays x (s : t) :=
  mk (abortFetchData s) (previousPath s) (areEditIdsLoaded s)
     (isSubmissionLoaded s) (isProcessingDataLoaded s) x
     (analysisTabHasUnsavedWork s) (data s).
Definition set_analysisTabHasUnsavedWork x (s : t) :=
  mk (abortFetchData s) (previousPath s) (areEditIdsLoaded s)
     (isSubmissionLoaded s) (isProcessingDataLoaded s) (displays s) x
     (data s).
Definition upd_data (f : Data.t -> Data.t) (s : t) :=
  mk (abortFetchData s) (previousPath s) (areEditIdsLoaded s)
     (isSubmissionLoaded s) (isProcessingDataLoaded s) (displays s)
     (analysisTabHasUnsavedWork s) (f (data s)).
End Store.

(** [ProcessingPathParts]: what [getProcessingPathParts] extracts from a
    pathname.  A part that the pathname lacks is [undefined]. *)
Module PathParts.
Record t := mk {
  assetUid : option string;
  qpath : option string;
  submissionEditId : option string;
  tab : option string;
}.
End PathParts.

(** What the store reads from the router and the asset store during one call. *)
Module Env.
Record t := mk {
  (** [getSingleProcessingRouteParameters()] *)
  currentAssetUid : string;
  currentQuestionQpath : string;
  currentSubmissionEditId : string;
  (** [isAnySingleProcessingRoute(uid, qpath, submissionEditId)] *)
  isAnySingleProcessingRoute : bool;
  (** [Boolean(assetStore.getAsset(uid))] *)
  isAssetLoaded : bool;
  (** [isAssetProcessingActivated(uid)] *)
  isAssetProcessingActivated : bool;
  (** [getAssetProcessingRows(uid)] *)
  processingRows : option (list string);
  (** [getSurveyFlatPaths(asset.content.survey)], when the asset has a survey *)
  surveyFlatPaths : option (gmap string string);
  (** [getRowNameByQpath(asset.content, qpath)] *)
  getRowNameByQpath : string -> option string;
}.
End Env.

(** ** Effects *)

Inductive TriggerPayload := TData | TDisplays.

Inductive ConfirmCallback := CbDeleteTranscriptDraft | CbDeleteTranslationDraft.

Inductive Effect :=
| Trigger (payload : TriggerPayload)
| InvokeAbort (h : AbortHandle)
| RouterSubscribe
| WhenLoaded (uid : string)
| CallActivateAsset (uid : string)
| CallGetSubmissionByUuid (uid editId : string)
| CallGetProcessingSubmissions (uid : string) (paths : list (Member string))
| CallGetProcessingData (uid editId : string)
| CallSetTranscript (uid qpath editId : string) (lang : LanguageCode) (v : string)
| CallDeleteTranscript (uid qpath editId : string)
| CallRequestAutoTranscription (uid qpath editId : string)
    (lang : option LanguageCode) (region : Nullable LanguageCode)
| CallSetTranslation (uid qpath editId : string) (lang : LanguageCode) (v : string)
| CallDeleteTranslation (uid qpath editId : string) (lang : LanguageCode)
| CallRequestAutoTranslation (uid qpath editId : string) (lang : string)
| AlertifyNotify (text kind : string)
| DestroyConfirm (cb : ConfirmCallback) (question label : string)
| SetTimeout (event : AutoTranscriptionEvent.t) (ms : Z)
| NotifyError (message : option string)
| RavenCapture (message : option string).

(** The effects that are requests to the back end. *)
Definition isNetworkCall (e : Effect) : bool :=
  match e with
  | CallActivateAsset _ | CallGetSubmissionByUuid _ _
  | CallGetProcessingSubmissions _ _ | CallGetProcessingData _ _
  | CallSetTranscript _ _ _ _ _ | CallDeleteTranscript _ _ _
  | CallRequestAutoTranscription _ _ _ _ _ | CallSetTranslation _ _ _ _ _
  | CallDeleteTranslation _ _ _ _ | CallRequestAutoTranslation _ _ _ _ => true
  | _ => false
  end.

Definition isPayloadFetch (e : Effect) : bool :=
  match e with CallGetProcessingData _ _ => true | _ => false end.

Definition isSubmissionFetch (e : Effect) : bool :=
  match e with CallGetSubmissionByUuid _ _ => true | _ => false end.


Definition isAbort (e : Effect) : bool :=
  match e with InvokeAbort _ => true | _ => false end.

Definition isUserNotification (e : Effect) : bool :=
  match e with AlertifyNotify _ _ | NotifyError _ => true | _ => false end.

(** What the reducer of the analysis questions is told. *)
Inductive AnalysisAction {Json : Type} :=
| UpdateResponse
| UpdateResponseCompleted (apiResponse : option Json) (qpath : string)
| UpdateResponseFailed.
Arguments AnalysisAction : clear implicits.

(** What [updateResponseAndReducer] does, in order: actions dispatched to
    the reducer, a toast of [notify], and the toasts and captures of the
    fetch wrapper. *)
Inductive AnalysisEffect {Json : Type} :=
| Dispatch (action : AnalysisAction Json)
| Notify (text kind : string)
| Api (e : Effect).
Arguments AnalysisEffect : clear implicits.

(** A method of the store: the store after the call and what it emitted. *)
Definition Action := Store.t -> Store.t * list Effect.

Definition skip : Action := fun s => (s, []).
Definition emit (e : Effect) : Action := fun s => (s, [e]).
Definition modify (f : Store.t -> Store.t) : Action := fun s => (f s, []).
Definition seq (a b : Action) : Action := fun s =>
  let '(s1, l1) := a s in
  let '(s2, l2) := b s1 in
  (s2, l1 ++ l2).
Definition when (c : bool) (a : Action) : Action := if c then a else skip.
Definition trigger (p : TriggerPayload) : Action := emit (Trigger p).

Infix ">>" := seq (at level 62, right associativity).

(** Run [a] when the test holds of the store at that point. *)
Definition whenS (c : Store.t -> bool) (a : Action) : Action := fun s =>
  if c s then a s else (s, []).

(** An assignment to a field of [this.data]. *)
Definition set_data (f : Data.t -> Data.t) : Action := modify (Store.upd_data f).

(** ** Plain JavaScript objects read with [Object.keys] and [obj[key]] *)

Definition object_keys {A} (o : list (string * A)) : list string := map fst o.

Fixpoint object_get {A} (k : string) (o : list (string * A)) : option A :=
  match o with
  | [] => None
  | (k', v) :: rest => if String.eqb k k' then Some v else object_get k rest
  end.

(** [Object.keys(result).includes(p)], where [p] may be [undefined]. *)
Definition hasKey (result : SubmissionResponse) (p : option string) : bool :=
  match p with
  | Some k => bool_decide (is_Some (result !! k))
  | None => false
  end.

(** ** The fetch wrapper (js/api) *)

(** [type FetchHttpMethod]. *)
Inductive FetchHttpMethod := GET | PUT | POST | PATCH | DELETE.

(** An optional property of an object literal: left out, written with the
    value [undefined], or written with a value.  [Object.assign] copies the
    last two, and skips the first. *)
Inductive Optional (A : Type) : Type :=
| Absent : Optional A
| PassedUndefined : Optional A
| Passed : A -> Optional A.

Arguments Absent {A}.
Arguments PassedUndefined {A}.
Arguments Passed {A} _.

(** [interface FetchDataOptions]. *)
Module FetchDataOptions.
Record t := mk {
  notifyAboutError : Optional bool;
  errorMessageDisplay : Optional string;
  prependRootUrl : Optional bool;
  includeHeaders : Optional bool;
}.
End FetchDataOptions.

(** The property of [options?: FetchDataOptions] that [Object.assign] sees:
    none when there is no options object. *)
Definition ownOf {A} (options : option FetchDataOptions.t)
    (field : FetchDataOptions.t -> Optional A) : Optional A :=
  match options with
  | Some o => field o
  | None => Absent
  end.

(** [options?.field]. *)
Definition optionOf {A} (options : option FetchDataOptions.t)
    (field : FetchDataOptions.t -> Optional A) : option A :=
  match ownOf options field with
  | Passed value => Some value
  | PassedUndefined => None
  | Absent => None
  end.

(** The arguments of [fetch(url, fetchOptions)].  The [headers] object is kept
    as its properties in the order they are assigned. *)
Module Request.
Record t := mk {
  url : string;
  method : FetchHttpMethod;
  headers : list (string * string);
  body : option string;
}.
End Request.

(** What the wrapper reads of the [Response] that [fetch] resolves to.  The
    headers are kept under their lower-case names, as a [Headers] object
    looks them up. *)
Module HttpResponse.
Record t := mk {
  ok : bool;
  status : Z;
  statusText : string;
  headers : list (string * string);
  text : string;
}.
End HttpResponse.

(** What the wrapper reads of the page: the root URL of the application, the
    token that [csrftoken=(\w{64})] captures in the cookies (if it matches),
    [window.navigator.onLine], and whether [window.Raven] is there. *)
Module Page.
Record t := mk {
  ROOT_URL : string;
  csrfToken : option string;
  onLine : bool;
  hasRaven : bool;
}.
End Page.

Definition JSON_HEADER : string := "application/json".

(** [Boolean(b)] for [b : boolean | undefined]. *)
Definition truthy_bool (b : option bool) : bool :=
  match b with
  | Some b => b
  | None => false
  end.

(** ** Analysis questions (processing/analysis) *)

(** The response to an analysis question: [string | string[]]. *)
Inductive AnalysisResponse :=
| RText (text : string)
| RList (items : list string).

(** The value of a stored response: [string | string[] | number], over the
    type of the numbers. *)
Inductive AnalysisVal {Number : Type} :=
| VText (text : string)
| VList (items : list string)
| VNumber (n : Number).

Arguments AnalysisVal : clear implicits.

(** [interface AnalysisQuestionSchema], over the types of the labels, the
    options and the choices, which the functions only copy. *)
Module AnalysisQuestionSchema.
Record t {Labels Options Choices : Type} := mk {
  uuid : string;
  type : string;
  labels : Labels;
  options : option Options;
  choices : option Choices;
  scope : string;
  qpath : string;
}.
Arguments t : clear implicits.
Arguments mk {Labels Options Choices}.
End AnalysisQuestionSchema.

(** [additionalFields] of an internal question, as the functions read and
    build it. *)
Module AdditionalFields.
Record t {Choices : Type} := mk {
  choices : option Choices;
}.
Arguments t : clear implicits.
Arguments mk {Choices}.
End AdditionalFields.

(** [interface AnalysisQuestionInternal]. *)
Module AnalysisQuestionInternal.
Record t {Labels Options Choices : Type} := mk {
  qpath : string;
  uuid : string;
  type : string;
  labels : Labels;
  options : option Options;
  response : AnalysisResponse;
  additionalFields : option (AdditionalFields.t Choices);
}.
Arguments t : clear implicits.
Arguments mk {Labels Options Choices}.
Definition set_response {Labels Options Choices}
    (r : AnalysisResponse) (q : t Labels Options Choices)
  : t Labels Options Choices :=
  mk (qpath q) (uuid q) (type q) (labels q) (options q) r (additionalFields q).
End AnalysisQuestionInternal.

(** One stored response of a [SubmissionProcessingDataResponse]. *)
Module QualResponse.
Record t {Number : Type} := mk {
  uuid : string;
  val : AnalysisVal Number;
}.
Arguments t : clear implicits.
Arguments mk {Number}.
End QualResponse.

(** One question's entry of a [SubmissionProcessingDataResponse]. *)
Module QualData.
Record t {Number : Type} := mk {
  qual : option (list (QualResponse.t Number));
}.
Arguments t : clear implicits.
Arguments mk {Number}.
End QualData.

(** What [parseInt(String(response))] is taken of, for a [qual_integer]
    question, or the response as it is. *)
Inductive ActualResponse :=
| AsIs (response : AnalysisResponse)
| ParsedInt (response : AnalysisResponse).


(** ** Instances used by the examples

    A resolver for pathnames of the shape
    [/forms/<uid>/data/processing/<qpath>/<submissionEditId>/<tab>]: it reads
    the segments 2, 5, 6 and 7 of the pathname split at the slashes. *)

Fixpoint split_on (sep : Ascii.ascii) (s : string) : list string :=
  match s with
  | EmptyString => [""]
  | String c rest =>
      if Ascii.eqb c sep then "" :: split_on sep rest
      else
        match split_on sep rest with
        | [] => [String c ""]
        | segment :: segments => String c segment :: segments
        end
  end.

Definition samplePathParts (path : string) : PathParts.t :=
  let pathArray := split_on "/"%char path in
  PathParts.mk (pathArray !! 2%nat) (pathArray !! 5%nat)
               (pathArray !! 6%nat) (pathArray !! 7%nat).

(** An environment for the route of asset [uid], question [qpath] and
    submission [editId], with the asset loaded and processing activated. *)
Definition sampleEnv (uid qpath editId : string) : Env.t :=
  Env.mk uid qpath editId true true true (Some [qpath]) (Some ∅) (fun _ => None).

Definition sampleTransx (value languageCode : string) : Transx.t :=
  Transx.mk value languageCode "2023-01-01" "2023-01-02".

(** A store that has seen the transcript tab of submission [s1] of question
    [q1], with a payload fetch in flight, a saved transcript and a change
    already made. *)
Definition storeOnS1 : Store.t :=
  Store.mk (Some 7%nat) (Some "/forms/a1/data/processing/q1/s1/transcript")
           true true true
           (SidebarDisplays.mk ["Audio"; "Data"; "pl"] ["Audio"] [])
           false
           (Data.mk (Some (sampleTransx "hello" "en"))
                    (Some (TransxDraft.mk (Some "hi") (Some "en") Undefined))
                    [sampleTransx "bonjour" "fr"]
                    (Some (TransxDraft.mk (Some "salut") (Some "fr") Null))
                    (Some "en") (Some ∅) (Some ∅) false true false).

(** The translation object of a payload in which the French translation is
    there and the Polish one is blank. *)
Definition translationsWithBlank : list (LanguageCode * Transx.t) :=
  [("fr", sampleTransx "bonjour" "fr"); ("pl", Transx.mk "" "" "" "")].

(** A payload for question [q1]: a transcript and the translations above. *)
Definition payloadWithBlank : ProcessingDataResponse :=
  {[ "q1" := QuestionData.mk (Some (sampleTransx "hello" "en"))
                             (Some translationsWithBlank) None None ]}.

(** A failure without a body and with an empty status text. *)
Definition bareFailure : FailResponse.t := FailResponse.mk 500 "" None None.

(** The transcript payload that completes a [setTranscript] of question
    [q1]. *)
Definition savedTranscriptPayload : ProcessingDataResponse :=
  {[ "q1" := QuestionData.mk (Some (sampleTransx "hi" "en")) None None None ]}.

(** A completed automatic transcription in Spanish for submission [s1]. *)
Definition spanishTranscription : AutoTranscriptionEvent.t :=
  AutoTranscriptionEvent.mk
    {[ "q1" := QuestionData.mk None None
                 (Some (GoogleResponse.mk "hola" "es")) None ]}
    "s1".

(** A store that polls for the transcript of a draft in Mexican Spanish whose
    region code is plain Spanish. *)
Definition storePollingSpanish : Store.t :=
  Store.mk None (Some "/forms/a1/data/processing/q1/s1/transcript")
           true true true
           (SidebarDisplays.mk ["Audio"; "Data"] ["Audio"] [])
           false
           (Data.mk None
                    (Some (TransxDraft.mk None (Some "es-MX") (Defined "es")))
                    [] None None (Some ∅) (Some ∅) true false true).

(** An environment in which the asset is loaded and processing is not
    activated for it. *)
Definition inactiveEnv : Env.t :=
  Env.mk "a1" "q1" "s1" true true false None None (fun _ => None).

(** An environment with a survey: the row of question [q1] is named [Q1] and
    has the flat path [group/Q1]; the row of [q2] has no name. *)
Definition surveyEnv : Env.t :=
  Env.mk "a1" "q1" "s1" true true true (Some ["q1"; "q2"])
         (Some {[ "Q1" := "group/Q1" ]})
         (fun qpath => if String.eqb qpath "q1" then Some "Q1" else None).

(** An environment on the route of a question path that is the name of an
    inherited member, with a survey and without processing rows. *)
Definition inheritedNameEnv : Env.t :=
  Env.mk "a1" "constructor" "s1" true true true None (Some ∅) (fun _ => None).

(** An environment with a survey in which the row of [q1] is named [Q1] and
    has the flat path [group/Q1], and the row of [q2] is named [constructor]
    and has no flat path. *)
Definition inheritedRowEnv : Env.t :=
  Env.mk "a1" "q1" "s1" true true true (Some ["q1"; "q2"])
         (Some {[ "Q1" := "group/Q1" ]})
         (fun qpath =>
            if String.eqb qpath "q1" then Some "Q1" else Some "constructor").

(** Two submissions: one edited, with an answer to [Q1]; one without. *)
Definition sampleSubmissions : list SubmissionResponse :=
  [ <["meta/rootUuid" := "r1"]> (<["_uuid" := "u1"]> {[ "group/Q1" := "a.mp3" ]});
    {[ "_uuid" := "u2" ]} ].

Definition samplePage : Page.t :=
  Page.mk "https://kf.example.org" (Some "token") true true.

(** A network that answers every request with a server error without a
    body. *)
Definition serverError (request : Request.t) : HttpResponse.t :=
  HttpResponse.mk false 500 "Internal Server Error" [] "".

(** A network that answers every request with a page of HTML. *)
Definition htmlPage (request : Request.t) : HttpResponse.t :=
  HttpResponse.mk true 200 "OK" [("content-type", "text/html")] "<p>ok</p>".

(** JSON values kept as their text: a text is JSON when it starts with a
    brace, and a failure body has neither detail nor error. *)
Definition parseBraces (text : string) : option string :=
  if String.prefix "{" text then Some text else None.

Definition noDetail (json : string) : ResponseJSON.t := ResponseJSON.mk None None.

Definition payloadText (submission qpath uuid type : string)
    (response : ActualResponse) : string :=
  "{" +:+ submission +:+ "," +:+ qpath +:+ "," +:+ uuid +:+ "}".

(** A failure with a plain text. *)
Definition badRequest : FailResponse.t :=
  FailResponse.mk 400 "Bad Request" (Some "Invalid value") None.

(** A schema of two questions, one of them with choices. *)
Definition sampleSchema
  : list (AnalysisQuestionSchema.t string unit (list string)) :=
  [ AnalysisQuestionSchema.mk "u1" "qual_text" "Notes" None None
      "by_question#survey" "q1";
    AnalysisQuestionSchema.mk "u2" "qual_select_one" "Topic" (Some tt)
      (Some ["a"; "b"]) "by_question#survey" "q1" ].

(** Two internal questions with a response each. *)
Definition sampleInternal
  : list (AnalysisQuestionInternal.t string unit (list string)) :=
  [ AnalysisQuestionInternal.mk "q1" "u1" "qual_text" "Notes" None
      (RText "clear speech") None;
    AnalysisQuestionInternal.mk "q1" "u2" "qual_integer" "Speakers" None
      (RText "2") None ].

(** A new definition for a question that is not in the list. *)
Definition otherQuestion : AnalysisQuestionInternal.t string unit (list string) :=
  AnalysisQuestionInternal.mk "q1" "u9" "qual_text" "Mood" None (RText "") None.

(** ** The store *)

Section Coordinator.

(** [t()], the translation of a user-visible message. *)
Variable t : string -> string.

(** [getProcessingPathParts] (processing utilities): the parts of a
    pathname. *)
Variable getProcessingPathParts : string -> PathParts.t.

(** The text of the first [errormsg] element of an HTML document, as
    [handleApiFail] plucks it with [DOMParser]. *)
Variable pluckErrormsg : string -> option string.

(** The store as its class body initialises it. *)
Definition getInitialDisplays : SidebarDisplays.t :=
  SidebarDisplays.mk (DefaultDisplays TabTranscript)
                     (DefaultDisplays TabTranslations)
                     (DefaultDisplays TabAnalysis).

Definition initialData : Data.t :=
  Data.mk None None [] None None None None true false false.

Definition initialStore : Store.t :=
  Store.mk None None false false false getInitialDisplays false initialData.

(** *** Getters *)

Definition getTranscript (s : Store.t) : option Transx.t :=
  Data.transcript (Store.data s).

Definition getTranscriptDraft (s : Store.t) : option TransxDraft.t :=
  Data.transcriptDraft (Store.data s).

Definition getTranslations (s : Store.t) : list Transx.t :=
  Data.translations (Store.data s).

Definition getTranslation (languageCode : option LanguageCode) (s : Store.t)
  : option Transx.t :=
  find (fun translation =>
          strict_eq (Some (Transx.languageCode translation)) languageCode)
       (Data.translations (Store.data s)).

Definition getTranslationDraft (s : Store.t) : option TransxDraft.t :=
  Data.translationDraft (Store.data s).

Definition getSubmissionData (s : Store.t) : option SubmissionResponse :=
  Data.submissionData (Store.data s).

Definition getSubmissionsEditIds (s : Store.t) : option SubmissionsEditIds :=
  Data.submissionsEditIds (Store.data s).

Definition getCurrentQuestionSubmissionsEditIds (env : Env.t) (s : Store.t)
  : Member (list EditId.t) :=
  match Data.submissionsEditIds (Store.data s) with
  | Some ids => member ids (Env.currentQuestionQpath env)
  | None => NoMember
  end.

Definition getSources (s : Store.t) : list string :=
  let sources :=
    match Data.transcript (Store.data s) with
    | Some tr =>
        if truthy (Transx.languageCode tr) then [Transx.languageCode tr] else []
    | None => []
    end in
  fold_left
    (fun sources translation =>
       if negb (strict_eq (Some (Transx.languageCode translation))
                  (Data.translationDraft (Store.data s)
                     ≫= TransxDraft.languageCode))
       then sources ++ [Transx.languageCode translation]
       else sources)
    (Data.translations (Store.data s)) sources.

Definition hasUnsavedTranscriptDraftValue (s : Store.t) : bool :=
  let draft := getTranscriptDraft s in
  negb (strict_eq (draft ≫= TransxDraft.value) None) &&
  negb (strict_eq (draft ≫= TransxDraft.value)
          (Transx.value <$> getTranscript s)).

Definition hasUnsavedTranslationDraftValue (s : Store.t) : bool :=
  let draft := getTranslationDraft s in
  negb (strict_eq (draft ≫= TransxDraft.value) None) &&
  negb (strict_eq (draft ≫= TransxDraft.value)
          (Transx.value <$>
             getTranslation (draft ≫= TransxDraft.languageCode) s)).

Definition hasAnyUnsavedWork (s : Store.t) : bool :=
  hasUnsavedTranscriptDraftValue s ||
  hasUnsavedTranslationDraftValue s ||
  Store.analysisTabHasUnsavedWork s.

Definition isReady (env : Env.t) (s : Store.t) : bool :=
  Env.isAssetProcessingActivated env &&
  Store.areEditIdsLoaded s &&
  Store.isSubmissionLoaded s &&
  Store.isProcessingDataLoaded s.

Definition getAvailableDisplays (tabName : ProcessingTabName) (s : Store.t)
  : DisplaysList :=
  let outcome := [StaticDisplays.Audio; StaticDisplays.Data] in
  let outcome :=
    match tabName with
    | TabTranscript => outcome
    | _ => outcome ++ [StaticDisplays.Transcript]
    end in
  fold_left (fun outcome translation =>
               outcome ++ [Transx.languageCode translation])
            (getTranslations s) outcome.

Definition getDisplays (tabName : option ProcessingTabName) (s : Store.t)
  : DisplaysList :=
  match tabName with
  | Some tab => SidebarDisplays.get tab (Store.displays s)
  | None => []
  end.

(** *** Methods *)

Definition resetProcessingData : Action :=
  modify (Store.set_isProcessingDataLoaded false) >>
  set_data (Data.set_isPollingForTranscript false) >>
  set_data (Data.set_transcript None) >>
  set_data (Data.set_transcriptDraft None) >>
  set_data (Data.set_translations []) >>
  set_data (Data.set_translationDraft None) >>
  set_data (Data.set_source None) >>
  set_data (Data.set_isPristine true).

Definition setNotPristine : Action :=
  whenS (fun s => Data.isPristine (Store.data s))
        (set_data (Data.set_isPristine false) >> trigger TData).

Definition setAnalysisTabHasUnsavedChanges (hasUnsavedWork : bool) : Action :=
  modify (Store.set_analysisTabHasUnsavedWork hasUnsavedWork) >>
  when hasUnsavedWork setNotPristine >>
  trigger TData.

Definition activateAsset (env : Env.t) : Action :=
  emit (CallActivateAsset (Env.currentAssetUid env)).

Definition fetchSubmissionData (env : Env.t) : Action :=
  modify (Store.set_isSubmissionLoaded false) >>
  set_data (Data.set_submissionData None) >>
  trigger TData >>
  emit (CallGetSubmissionByUuid (Env.currentAssetUid env)
                                (Env.currentSubmissionEditId env)).

(** The regular paths of the processing rows, as [fetchEditIds] collects
    them.  [flatPaths[rowName]] is read on a plain object, so that for a row
    named like an inherited member it is that member, which is pushed. *)
Definition processingRowsPaths (env : Env.t) : list (Member string) :=
  match Env.surveyFlatPaths env with
  | Some flatPaths =>
      match Env.processingRows env with
      | Some rows =>
          fold_left
            (fun paths qpath =>
               match Env.getRowNameByQpath env qpath with
               | Some rowName =>
                   if truthy rowName && truthy_member (member flatPaths rowName)
                   then paths ++ [member flatPaths rowName]
                   else paths
               | None => paths
               end)
            rows []
      | None => []
      end
  | None => []
  end.

Definition fetchEditIds (env : Env.t) : Action :=
  modify (Store.set_areEditIdsLoaded false) >>
  set_data (Data.set_submissionsEditIds None) >>
  trigger TData >>
  emit (CallGetProcessingSubmissions (Env.currentAssetUid env)
                                     (processingRowsPaths env)).

Definition fetchProcessingData (env : Env.t) : Action :=
  (fun s =>
     match Store.abortFetchData s with
     | Some abort => emit (InvokeAbort abort) s
     | None => skip s
     end) >>
  resetProcessingData >>
  emit (CallGetProcessingData (Env.currentAssetUid env)
                              (Env.currentSubmissionEditId env)).

Definition fetchAllInitialDataForAsset (env : Env.t) : Action :=
  if negb (Env.isAssetLoaded env) then skip
  else if negb (Env.isAssetProcessingActivated env) then activateAsset env
  else fetchSubmissionData env >> fetchEditIds env >> fetchProcessingData env.

Definition onAssetLoad (env : Env.t) (assetUid : string) : Action :=
  when (Env.isAnySingleProcessingRoute env &&
        String.eqb (Env.currentAssetUid env) assetUid)
       (if negb (Env.isAssetProcessingActivated env) then activateAsset env
        else fetchAllInitialDataForAsset env).

Definition onActivateAssetCompleted (env : Env.t) : Action :=
  fetchAllInitialDataForAsset env.

Definition startupStore (env : Env.t) : Action :=
  when (Env.isAnySingleProcessingRoute env)
       (if Env.isAssetLoaded env then fetchAllInitialDataForAsset env
        else emit (WhenLoaded (Env.currentAssetUid env))).

Definition init (env : Env.t) : Action :=
  resetProcessingData >> emit RouterSubscribe >> startupStore env.

(** The parts of the previous path: [undefined] unless [this.previousPath]
    is truthy. *)
Definition previousPathPartsOf (s : Store.t) : option PathParts.t :=
  match Store.previousPath s with
  | Some p => if truthy p then Some (getProcessingPathParts p) else None
  | None => None
  end.

(** Case 1 of [onRouteChange]: another tab of the same question and
    submission. *)
Definition isTabChangeOnly (prev : option PathParts.t) (new : PathParts.t)
  : bool :=
  match prev with
  | Some prev =>
      strict_eq (PathParts.assetUid prev) (PathParts.assetUid new) &&
      strict_eq (PathParts.qpath prev) (PathParts.qpath new) &&
      strict_eq (PathParts.submissionEditId prev)
                (PathParts.submissionEditId new) &&
      negb (strict_eq (PathParts.tab prev) (PathParts.tab new))
  | None => false
  end.

(** Case 2 of [onRouteChange]: same asset, another question or submission. *)
Definition isContextChange (prev : option PathParts.t) (new : PathParts.t)
  : bool :=
  match prev with
  | Some prev =>
      strict_eq (PathParts.assetUid prev) (PathParts.assetUid new) &&
      (negb (strict_eq (PathParts.qpath prev) (PathParts.qpath new)) ||
       negb (strict_eq (PathParts.submissionEditId prev)
                       (PathParts.submissionEditId new)))
  | None => false
  end.

Definition onRouteChange (env : Env.t) (pathname : string) : Action := fun s =>
  if strict_eq (Store.previousPath s) (Some pathname) then (s, [])
  else
    let previousPathParts := previousPathPartsOf s in
    let newPathParts := getProcessingPathParts pathname in
    (when (strict_eq (previousPathParts ≫= PathParts.tab) (Some "analysis"))
          (setAnalysisTabHasUnsavedChanges false) >>
     when (isTabChangeOnly previousPathParts newPathParts)
          (set_data (Data.set_transcriptDraft None) >>
           set_data (Data.set_translationDraft None) >>
           set_data (Data.set_source None)) >>
     when (isContextChange previousPathParts newPathParts)
          (fetchProcessingData env >> fetchSubmissionData env) >>
     when (negb (bool_decide (is_Some previousPathParts)) &&
           Env.isAnySingleProcessingRoute env)
          (fetchAllInitialDataForAsset env >>
           modify (Store.set_displays getInitialDisplays)) >>
     modify (Store.set_previousPath (Some pathname))) s.

Definition onGetSubmissionByUuidCompleted (response : SubmissionResponse)
  : Action :=
  modify (Store.set_isSubmissionLoaded true) >>
  set_data (Data.set_submissionData (Some response)) >>
  trigger TData.

Definition onGetSubmissionByUuidFailed : Action :=
  modify (Store.set_isSubmissionLoaded true) >>
  trigger TData.

(** The index built by [onGetProcessingSubmissionsCompleted] from
    [response.results]. *)
Definition buildSubmissionsEditIds (env : Env.t)
    (results : list SubmissionResponse) : SubmissionsEditIds :=
  match Env.surveyFlatPaths env with
  | Some flatPaths =>
      match Env.processingRows env with
      | Some rows =>
          let emptyLists : SubmissionsEditIds :=
            fold_left (fun ids qpath => <[qpath := []]> ids) rows ∅ in
          fold_left
            (fun ids result =>
               fold_left
                 (fun ids qpath =>
                    let rowName := Env.getRowNameByQpath env qpath in
                    if truthy_opt rowName then
                      let uuid :=
                        match result !! "meta/rootUuid" with
                        | Some u => Some u
                        | None => result !! "_uuid"
                        end in
                      alter (fun l =>
                               l ++ [EditId.mk uuid
                                       (hasKey result
                                          (rowName ≫= fun n => flatPaths !! n))])
                            qpath ids
                    else ids)
                 rows ids)
            results emptyLists
      | None => ∅
      end
  | None => ∅
  end.

Definition onGetProcessingSubmissionsCompleted (env : Env.t)
    (results : list SubmissionResponse) : Action :=
  modify (Store.set_areEditIdsLoaded true) >>
  set_data (Data.set_submissionsEditIds
              (Some (buildSubmissionsEditIds env results))) >>
  trigger TData.

Definition onGetProcessingSubmissionsFailed : Action :=
  modify (Store.set_areEditIdsLoaded true) >>
  trigger TData.

Definition onFetchProcessingDataStarted (abort : AbortHandle) : Action :=
  modify (Store.set_abortFetchData (Some abort)) >>
  set_data (Data.set_isFetchingData true) >>
  trigger TData.

(** [cleanupDisplays]: for every tab the active list is filtered against the
    available one, with a callback that returns nothing, and the array that
    [filter] returns is dropped; [this.displays] is not assigned. *)
Definition cleanupDisplays : Action :=
  (fun s =>
     let allTabs := [TabTranscript; TabTranslations; TabAnalysis] in
     let filtered :=
       map (fun tab =>
              let availableDisplays := getAvailableDisplays tab s in
              List.filter (fun display =>
                        let included := includes display availableDisplays in
                        false)
                     (SidebarDisplays.get tab (Store.displays s)))
           allTabs in
     (s, [])) >>
  trigger TDisplays.

(** Is the transcript of a response kept?  Both its value and its language
    code have to be truthy. *)
Definition isUsableTranscript (transcriptResponse : option Transx.t) : bool :=
  match transcriptResponse with
  | Some tr => truthy (Transx.value tr) && truthy (Transx.languageCode tr)
  | None => false
  end.

(** The array built from the [translation] object of a response.  A key
    listed by [Object.keys] always has a value, so the last branch is not
    taken. *)
Definition translationsArrayOf
    (translationsResponse : list (LanguageCode * Transx.t)) : list Transx.t :=
  fold_left
    (fun translationsArray languageCode =>
       match object_get languageCode translationsResponse with
       | Some translation =>
           if truthy (Transx.languageCode translation) then
             translationsArray ++
               [Transx.mk (Transx.value translation)
                          (Transx.languageCode translation)
                          (Transx.dateCreated translation)
                          (Transx.dateModified translation)]
           else translationsArray
       | None => translationsArray
       end)
    (object_keys translationsResponse) [].

Definition onFetchProcessingDataCompleted (env : Env.t)
    (response : ProcessingDataResponse) : Action :=
  let transcriptResponse :=
    response !! Env.currentQuestionQpath env ≫= QuestionData.transcript in
  set_data (Data.set_transcript None) >>
  when (isUsableTranscript transcriptResponse)
       (set_data (Data.set_transcript transcriptResponse)) >>
  let translationsResponse :=
    response !! Env.currentQuestionQpath env ≫= QuestionData.translation in
  let translationsArray :=
    match translationsResponse with
    | Some obj => translationsArrayOf obj
    | None => []
    end in
  set_data (Data.set_translations translationsArray) >>
  modify (Store.set_abortFetchData None) >>
  modify (Store.set_isProcessingDataLoaded true) >>
  set_data (Data.set_isFetchingData false) >>
  cleanupDisplays >>
  trigger TData.

(** The text [onAnyCallFailed] shows: the first assignment is overwritten on
    both branches. *)
Definition errorTextOf (response : FailResponse.t + string) : string :=
  let errorText := t "Something went wrong" in
  let errorText :=
    match response with
    | inr text => text
    | inl r =>
        or_else
          (or_opt (FailResponse.responseJSON r ≫= ResponseJSON.detail)
                  (FailResponse.responseJSON r ≫= ResponseJSON.error))
          (FailResponse.statusText r)
    end in
  errorText.

Definition onAnyCallFailed (response : FailResponse.t + string) : Action :=
  emit (AlertifyNotify (errorTextOf response) "error") >>
  modify (Store.set_abortFetchData None) >>
  set_data (Data.set_isFetchingData false) >>
  set_data (Data.set_isPollingForTranscript false) >>
  trigger TData.

Definition onSetTranscriptCompleted (env : Env.t)
    (response : ProcessingDataResponse) : Action :=
  let transcriptResponse :=
    response !! Env.currentQuestionQpath env ≫= QuestionData.transcript in
  set_data (Data.set_isFetchingData false) >>
  when (bool_decide (is_Some transcriptResponse))
       (set_data (Data.set_transcript transcriptResponse)) >>
  set_data (Data.set_transcriptDraft None) >>
  setNotPristine >>
  trigger TData.

Definition onDeleteTranscriptCompleted : Action :=
  set_data (Data.set_isFetchingData false) >>
  set_data (Data.set_transcript None) >>
  setNotPristine >>
  trigger TData.

(** Does an automatic result match a draft on the language or on the region
    code? *)
Definition matchesDraft (r : GoogleResponse.t) (draft : TransxDraft.t) : bool :=
  eq_optional (GoogleResponse.languageCode r) (TransxDraft.languageCode draft) ||
  eq_nullable (GoogleResponse.languageCode r) (TransxDraft.regionCode draft).

Definition isAutoTranscriptionEventApplicable (env : Env.t)
    (event : AutoTranscriptionEvent.t) (s : Store.t) : bool :=
  let googleTsResponse :=
    AutoTranscriptionEvent.response event !! Env.currentQuestionQpath env
      ≫= QuestionData.googlets in
  String.eqb (AutoTranscriptionEvent.submissionEditId event)
             (Env.currentSubmissionEditId env) &&
  match googleTsResponse, Data.transcriptDraft (Store.data s) with
  | Some r, Some draft => matchesDraft r draft
  | _, _ => false
  end.

Definition onRequestAutoTranscriptionCompleted (env : Env.t)
    (event : AutoTranscriptionEvent.t) : Action := fun s =>
  if negb (truthy (Env.currentQuestionQpath env)) ||
     negb (Data.isPollingForTranscript (Store.data s)) ||
     negb (bool_decide (is_Some (Data.transcriptDraft (Store.data s))))
  then (s, [])
  else
    let googleTsResponse :=
      AutoTranscriptionEvent.response event !! Env.currentQuestionQpath env
        ≫= QuestionData.googlets in
    ((match googleTsResponse with
      | Some r =>
          whenS (isAutoTranscriptionEventApplicable env event)
                (set_data (Data.set_isPollingForTranscript false) >>
                 set_data (fun d =>
                   Data.set_transcriptDraft
                     (TransxDraft.set_value (GoogleResponse.value r)
                        <$> Data.transcriptDraft d) d))
      | None => skip
      end) >>
     setNotPristine >>
     trigger TData) s.

Definition requestAutoTranscription (env : Env.t) : Action :=
  set_data (Data.set_isPollingForTranscript true) >>
  (fun s =>
     let draft := Data.transcriptDraft (Store.data s) in
     emit (CallRequestAutoTranscription
             (Env.currentAssetUid env) (Env.currentQuestionQpath env)
             (Env.currentSubmissionEditId env)
             (draft ≫= TransxDraft.languageCode)
             (match draft with
              | Some d => TransxDraft.regionCode d
              | None => Undefined
              end)) s) >>
  trigger TData.

(** [onRequestAutoTranscriptionInProgress] only arms a timer. *)
Definition onRequestAutoTranscriptionInProgress
    (event : AutoTranscriptionEvent.t) : Action :=
  emit (SetTimeout event 5000).

(** The callback of that timer, run when it fires. *)
Definition onAutoTranscriptionTimeout (env : Env.t)
    (event : AutoTranscriptionEvent.t) : Action := fun s =>
  if isAutoTranscriptionEventApplicable env event s
  then (set_data (Data.set_isPollingForTranscript true) >>
        requestAutoTranscription env) s
  else set_data (Data.set_isPollingForTranscript false) s.

Definition onSetTranslationCompleted (newTranslations : list Transx.t)
  : Action :=
  set_data (Data.set_isFetchingData false) >>
  set_data (Data.set_translations newTranslations) >>
  set_data (Data.set_translationDraft None) >>
  set_data (Data.set_source None) >>
  setNotPristine >>
  trigger TData.

Definition onRequestAutoTranslationCompleted (env : Env.t)
    (response : ProcessingDataResponse) : Action :=
  let googleTxResponse :=
    response !! Env.currentQuestionQpath env ≫= QuestionData.googletx in
  set_data (Data.set_isFetchingData false) >>
  (fun s =>
     match googleTxResponse, Data.translationDraft (Store.data s) with
     | Some r, Some draft =>
         when (matchesDraft r draft)
              (set_data (Data.set_translationDraft
                           (Some (TransxDraft.set_value
                                    (GoogleResponse.value r) draft)))) s
     | _, _ => skip s
     end) >>
  setNotPristine >>
  trigger TData.

(** *** The public API *)

Definition setSource (languageCode : LanguageCode) : Action :=
  set_data (Data.set_source (Some languageCode)) >> trigger TData.

Definition setTranscript (env : Env.t) (languageCode : LanguageCode)
    (value : string) : Action :=
  set_data (Data.set_isFetchingData true) >>
  emit (CallSetTranscript (Env.currentAssetUid env)
          (Env.currentQuestionQpath env) (Env.currentSubmissionEditId env)
          languageCode value) >>
  trigger TData.

Definition deleteTranscript (env : Env.t) : Action :=
  set_data (Data.set_isFetchingData true) >>
  emit (CallDeleteTranscript (Env.currentAssetUid env)
          (Env.currentQuestionQpath env) (Env.currentSubmissionEditId env)) >>
  trigger TData.

Definition setTranscriptDraft (newTranscriptDraft : TransxDraft.t) : Action :=
  set_data (Data.set_transcriptDraft (Some newTranscriptDraft)) >>
  trigger TData.

Definition deleteTranscriptDraft : Action :=
  set_data (Data.set_transcriptDraft None) >> trigger TData.

Definition safelyDeleteTranscriptDraft : Action := fun s =>
  if hasUnsavedTranscriptDraftValue s
  then emit (DestroyConfirm CbDeleteTranscriptDraft
               (t "Discard unsaved changes?") (t "Discard")) s
  else deleteTranscriptDraft s.

Definition setTranslation (env : Env.t) (languageCode : LanguageCode)
    (value : string) : Action :=
  set_data (Data.set_isFetchingData true) >>
  emit (CallSetTranslation (Env.currentAssetUid env)
          (Env.currentQuestionQpath env) (Env.currentSubmissionEditId env)
          languageCode value) >>
  trigger TData.

Definition deleteTranslation (env : Env.t) (languageCode : LanguageCode)
  : Action :=
  set_data (Data.set_isFetchingData true) >>
  emit (CallDeleteTranslation (Env.currentAssetUid env)
          (Env.currentQuestionQpath env) (Env.currentSubmissionEditId env)
          languageCode) >>
  trigger TData.

Definition requestAutoTranslation (env : Env.t) (languageCode : string)
  : Action :=
  set_data (Data.set_isFetchingData true) >>
  emit (CallRequestAutoTranslation (Env.currentAssetUid env)
          (Env.currentQuestionQpath env) (Env.currentSubmissionEditId env)
          languageCode) >>
  trigger TData.

Definition setTranslationDraft (newTranslationDraft : TransxDraft.t) : Action :=
  set_data (Data.set_translationDraft (Some newTranslationDraft)) >>
  trigger TData.

Definition deleteTranslationDraft : Action :=
  set_data (Data.set_translationDraft None) >>
  set_data (Data.set_source None) >>
  trigger TData.

Definition safelyDeleteTranslationDraft : Action := fun s =>
  if hasUnsavedTranslationDraftValue s
  then emit (DestroyConfirm CbDeleteTranslationDraft
               (t "Discard unsaved changes?") (t "Discard")) s
  else deleteTranslationDraft s.

Definition setDisplays (tabName : ProcessingTabName) (displays : DisplaysList)
  : Action :=
  modify (fun s =>
            Store.set_displays
              (SidebarDisplays.set tabName displays (Store.displays s)) s) >>
  trigger TDisplays.

Definition resetDisplays (tabName : ProcessingTabName) : Action :=
  modify (fun s =>
            Store.set_displays
              (SidebarDisplays.set tabName (DefaultDisplays tabName)
                 (Store.displays s)) s) >>
  trigger TDisplays.

(** *** Events

    Everything that can run a method of the store: the listeners that [init]
    registers, the timer armed by the polling, the confirmation of a
    discard, and the calls of the rendering layer. *)
Inductive Event :=
| EvInit
| EvRouteChange (pathname : string)
| EvAssetLoad (assetUid : string)
| EvActivateAssetCompleted
| EvGetSubmissionByUuidCompleted (response : SubmissionResponse)
| EvGetSubmissionByUuidFailed
| EvGetProcessingSubmissionsCompleted (results : list SubmissionResponse)
| EvGetProcessingSubmissionsFailed
| EvGetProcessingDataStarted (abort : AbortHandle)
| EvGetProcessingDataCompleted (response : ProcessingDataResponse)
| EvDeleteTranslationCompleted (response : ProcessingDataResponse)
| EvCallFailed (response : FailResponse.t + string)
| EvSetTranscriptCompleted (response : ProcessingDataResponse)
| EvDeleteTranscriptCompleted
| EvRequestAutoTranscriptionCompleted (event : AutoTranscriptionEvent.t)
| EvRequestAutoTranscriptionInProgress (event : AutoTranscriptionEvent.t)
| EvAutoTranscriptionTimeout (event : AutoTranscriptionEvent.t)
| EvSetTranslationCompleted (newTranslations : list Transx.t)
| EvRequestAutoTranslationCompleted (response : ProcessingDataResponse)
| EvConfirmed (cb : ConfirmCallback)
| EvSetSource (languageCode : LanguageCode)
| EvSetTranscript (languageCode : LanguageCode) (value : string)
| EvDeleteTranscript
| EvRequestAutoTranscription
| EvSetTranscriptDraft (draft : TransxDraft.t)
| EvDeleteTranscriptDraft
| EvSafelyDeleteTranscriptDraft
| EvSetTranslation (languageCode : LanguageCode) (value : string)
| EvDeleteTranslation (languageCode : LanguageCode)
| EvRequestAutoTranslation (languageCode : string)
| EvSetTranslationDraft (draft : TransxDraft.t)
| EvDeleteTranslationDraft
| EvSafelyDeleteTranslationDraft
| EvSetDisplays (tabName : ProcessingTabName) (displays : DisplaysList)
| EvResetDisplays (tabName : ProcessingTabName)
| EvCleanupDisplays
| EvSetAnalysisTabHasUnsavedChanges (hasUnsavedWork : bool)
| EvSetNotPristine.

Definition handle (env : Env.t) (ev : Event) : Action :=
  match ev with
  | EvInit => init env
  | EvRouteChange pathname => onRouteChange env pathname
  | EvAssetLoad assetUid => onAssetLoad env assetUid
  | EvActivateAssetCompleted => onActivateAssetCompleted env
  | EvGetSubmissionByUuidCompleted r => onGetSubmissionByUuidCompleted r
  | EvGetSubmissionByUuidFailed => onGetSubmissionByUuidFailed
  | EvGetProcessingSubmissionsCompleted rs =>
      onGetProcessingSubmissionsCompleted env rs
  | EvGetProcessingSubmissionsFailed => onGetProcessingSubmissionsFailed
  | EvGetProcessingDataStarted abort => onFetchProcessingDataStarted abort
  | EvGetProcessingDataCompleted r => onFetchProcessingDataCompleted env r
  | EvDeleteTranslationCompleted r => onFetchProcessingDataCompleted env r
  | EvCallFailed r => onAnyCallFailed r
  | EvSetTranscriptCompleted r => onSetTranscriptCompleted env r
  | EvDeleteTranscriptCompleted => onDeleteTranscriptCompleted
  | EvRequestAutoTranscriptionCompleted e =>
      onRequestAutoTranscriptionCompleted env e
  | EvRequestAutoTranscriptionInProgress e =>
      onRequestAutoTranscriptionInProgress e
  | EvAutoTranscriptionTimeout e => onAutoTranscriptionTimeout env e
  | EvSetTranslationCompleted l => onSetTranslationCompleted l
  | EvRequestAutoTranslationCompleted r =>
      onRequestAutoTranslationCompleted env r
  | EvConfirmed CbDeleteTranscriptDraft => deleteTranscriptDraft
  | EvConfirmed CbDeleteTranslationDraft => deleteTranslationDraft
  | EvSetSource l => setSource l
  | EvSetTranscript l v => setTranscript env l v
  | EvDeleteTranscript => deleteTranscript env
  | EvRequestAutoTranscription => requestAutoTranscription env
  | EvSetTranscriptDraft d => setTranscriptDraft d
  | EvDeleteTranscriptDraft => deleteTranscriptDraft
  | EvSafelyDeleteTranscriptDraft => safelyDeleteTranscriptDraft
  | EvSetTranslation l v => setTranslation env l v
  | EvDeleteTranslation l => deleteTranslation env l
  | EvRequestAutoTranslation l => requestAutoTranslation env l
  | EvSetTranslationDraft d => setTranslationDraft d
  | EvDeleteTranslationDraft => deleteTranslationDraft
  | EvSafelyDeleteTranslationDraft => safelyDeleteTranslationDraft
  | EvSetDisplays tab l => setDisplays tab l
  | EvResetDisplays tab => resetDisplays tab
  | EvCleanupDisplays => cleanupDisplays
  | EvSetAnalysisTabHasUnsavedChanges b => setAnalysisTabHasUnsavedChanges b
  | EvSetNotPristine => setNotPristine
  end.

(** A run of the store: each event is handled to completion, with what the
    collaborators answer at that time, before the next one. *)
Fixpoint run (evs : list (Env.t * Event)) (s : Store.t)
  : Store.t * list Effect :=
  match evs with
  | [] => (s, [])
  | (env, ev) :: rest =>
      let '(s1, l1) := handle env ev s in
      let '(s2, l2) := run rest s1 in
      (s2, l1 ++ l2)
  end.

(** ** [handleApiFail] (js/api) *)

Definition blankLine : string :=
  String (Ascii.ascii_of_nat 10) (String (Ascii.ascii_of_nat 10) "").

(** [onLine] is [window.navigator.onLine]; [hasRaven] tells whether
    [window.Raven] is there. *)
Definition handleApiFail (onLine hasRaven : bool) (response : FailResponse.t)
    (toastMessage : option string) : list Effect :=
  if (FailResponse.status response =? 0)%Z &&
     String.eqb (FailResponse.statusText response) "abort"
  then []
  else
    let message := FailResponse.responseText response in
    let message :=
      match message with
      | Some m =>
          if str_includes "</html>" m && str_includes "</body>" m
          then pluckErrormsg m
          else message
      | None => message
      end in
    let htmlMessage := message in
    let message :=
      if truthy_opt toastMessage || negb (truthy_opt message) then
        let message := or_else toastMessage (t "An error occurred") in
        if negb (FailResponse.status response =? 0)%Z ||
           truthy (FailResponse.statusText response)
        then Some (message +:+ blankLine +:+
                     number_to_string (FailResponse.status response) +:+
                     " " +:+ FailResponse.statusText response)
        else if negb onLine
             then Some (message +:+ blankLine +:+
                          t "Your connection is offline")
             else Some message
      else message in
    NotifyError message ::
    (if hasRaven then [RavenCapture (or_opt htmlMessage message)] else []).

(** The failure object of a request that was aborted on purpose. *)
Definition abortedResponse : FailResponse.t :=
  FailResponse.mk 0 "abort" None None.

(** ** [fetchData] and its wrappers (js/api) *)

(** [type Json], with the truthiness of a value, [JSON.stringify],
    [JSON.parse] (nothing for a text that is not JSON; [response.json()]
    parses the same text) and the body of a failure as [FailResponse]
    declares it. *)
Variable Json : Type.
Variable isTruthy : Json -> bool.
Variable stringify : Json -> string.
Variable parseJSON : string -> option Json.
Variable responseJSONOf : Json -> ResponseJSON.t.

(** How a call of [fetchData] ends: rejected with a failure, rejected by
    [response.json()] on a body that is not JSON, or resolved - with the
    parsed body, or with the empty object when there is nothing to parse,
    and with the headers of the response when they are asked for. *)
Inductive FetchResult :=
| Rejected (failResponse : FailResponse.t)
| RejectedNotJson
| Resolved (headers : option (list (string * string))) (body : option Json).

(** [Object.assign({}, defaults, options)] for one option, read as the
    condition it is used as: a property of [options] replaces the default,
    also when its value is [undefined], which is falsy. *)
Definition optionOr (default : bool)
    (options : option FetchDataOptions.t)
    (field : FetchDataOptions.t -> Optional bool) : bool :=
  match ownOf options field with
  | Passed b => b
  | PassedUndefined => false
  | Absent => default
  end.

(** [Boolean(data)] for [data?: Json]. *)
Definition hasData (data : option Json) : bool :=
  match data with
  | Some d => isTruthy d
  | None => false
  end.

(** [method === 'DELETE']. *)
Definition isDelete (method : FetchHttpMethod) : bool :=
  match method with DELETE => true | _ => false end.

(** [contentType && contentType.indexOf('application/json') !== -1]. *)
Definition isJsonContent (contentType : option string) : bool :=
  match contentType with
  | Some c => truthy c && str_includes JSON_HEADER c
  | None => false
  end.

(** The request that [fetchData] hands to [fetch]. *)
Definition requestOf (page : Page.t) (path : string) (method : FetchHttpMethod)
    (data : option Json) (options : option FetchDataOptions.t) : Request.t :=
  let prependRootUrl := optionOr true options FetchDataOptions.prependRootUrl in
  let headers := [("Accept", JSON_HEADER)] in
  let headers :=
    if isDelete method || hasData data then
      let headers :=
        match Page.csrfToken page with
        | Some token => headers ++ [("X-CSRFToken", token)]
        | None => headers
        end in
      headers ++ [("Content-Type", JSON_HEADER)]
    else headers in
  let url := if prependRootUrl then Page.ROOT_URL page +:+ path else path in
  Request.mk url method headers
             (match data with
              | Some d => if isTruthy d then Some (stringify d) else None
              | None => None
              end).

(** [response.status === 401 || ... || response.status >= 500]. *)
Definition isNotifiedStatus (status : Z) : bool :=
  (status =? 401)%Z || (status =? 403)%Z || (status =? 404)%Z ||
  (500 <=? status)%Z.

(** [fetchData]: [fetch] is the answer of the network to a request.  The
    result comes with the toasts and captures of [handleApiFail]. *)
Definition fetchData (page : Page.t) (fetch : Request.t -> HttpResponse.t)
    (path : string) (method : FetchHttpMethod) (data : option Json)
    (options : option FetchDataOptions.t) : FetchResult * list Effect :=
  let notifyAboutError :=
    optionOr true options FetchDataOptions.notifyAboutError in
  let response := fetch (requestOf page path method data options) in
  let contentType := object_get "content-type" (HttpResponse.headers response) in
  if negb (HttpResponse.ok response) then
    let failResponse :=
      FailResponse.mk (HttpResponse.status response)
                      (HttpResponse.statusText response) None None in
    let failResponse :=
      if isJsonContent contentType then
        FailResponse.mk (HttpResponse.status response)
                        (HttpResponse.statusText response)
                        (Some (HttpResponse.text response))
                        (responseJSONOf <$> parseJSON (HttpResponse.text response))
      else failResponse in
    (Rejected failResponse,
     if notifyAboutError && isNotifiedStatus (HttpResponse.status response)
     then handleApiFail (Page.onLine page) (Page.hasRaven page) failResponse
            (optionOf options FetchDataOptions.errorMessageDisplay)
     else [])
  else if isJsonContent contentType then
    match parseJSON (HttpResponse.text response) with
    | Some json =>
        if truthy_bool (optionOf options FetchDataOptions.includeHeaders)
        then (Resolved (Some (HttpResponse.headers response)) (Some json), [])
        else (Resolved None (Some json), [])
    | None => (RejectedNotJson, [])
    end
  else (Resolved None None, []).

Definition fetchGet (page : Page.t) (fetch : Request.t -> HttpResponse.t)
    (path : string) (options : option FetchDataOptions.t) :=
  fetchData page fetch path GET None options.

Definition fetchPost (page : Page.t) (fetch : Request.t -> HttpResponse.t)
    (path : string) (data : Json) (options : option FetchDataOptions.t) :=
  fetchData page fetch path POST (Some data) options.

(** [Object.assign({}, options, {prependRootUrl: false})]. *)
Definition withoutRootUrl (options : option FetchDataOptions.t)
  : option FetchDataOptions.t :=
  Some (FetchDataOptions.mk
          (ownOf options FetchDataOptions.notifyAboutError)
          (ownOf options FetchDataOptions.errorMessageDisplay)
          (Passed false)
          (ownOf options FetchDataOptions.includeHeaders)).

Definition fetchPostUrl (page : Page.t) (fetch : Request.t -> HttpResponse.t)
    (url : string) (data : Json) (options : option FetchDataOptions.t) :=
  fetchData page fetch url POST (Some data) (withoutRootUrl options).

Definition fetchPatch (page : Page.t) (fetch : Request.t -> HttpResponse.t)
    (path : string) (data : Json) (options : option FetchDataOptions.t) :=
  fetchData page fetch path PATCH (Some data) options.

Definition fetchPut (page : Page.t) (fetch : Request.t -> HttpResponse.t)
    (path : string) (data : Json) (options : option FetchDataOptions.t) :=
  fetchData page fetch path PUT (Some data) options.

Definition fetchDelete (page : Page.t) (fetch : Request.t -> HttpResponse.t)
    (path : string) (data : option Json) (options : option FetchDataOptions.t) :=
  fetchData page fetch path DELETE data options.

(** ** Analysis questions (processing/analysis/utils) *)

(** The types of the labels, the options and the choices of a question. *)
Variable AnalysisLabels AnalysisOptions AnalysisChoices : Type.

(** [NO_FEATURE_ERROR], declared with the processing actions. *)
Variable NO_FEATURE_ERROR : string.

(** The object that [updateResponse] posts, as [Json]: the submission, the
    question path, and under it the uuid, the type and the value of the one
    response. *)
Variable updatePayload :
  string -> string -> string -> string -> ActualResponse -> Json.

Definition Schema :=
  AnalysisQuestionSchema.t AnalysisLabels AnalysisOptions AnalysisChoices.

Definition Internal :=
  AnalysisQuestionInternal.t AnalysisLabels AnalysisOptions AnalysisChoices.

Definition convertQuestionsFromInternalToSchema (questions : list Internal)
  : list Schema :=
  map (fun question =>
         AnalysisQuestionSchema.mk
           (AnalysisQuestionInternal.uuid question)
           (AnalysisQuestionInternal.type question)
           (AnalysisQuestionInternal.labels question)
           (AnalysisQuestionInternal.options question)
           (AnalysisQuestionInternal.additionalFields question
              ≫= AdditionalFields.choices)
           "by_question#survey"
           (AnalysisQuestionInternal.qpath question))
      questions.

Definition convertQuestionsFromSchemaToInternal (questions : list Schema)
  : list Internal :=
  map (fun question =>
         let output :=
           AnalysisQuestionInternal.mk
             (AnalysisQuestionSchema.qpath question)
             (AnalysisQuestionSchema.uuid question)
             (AnalysisQuestionSchema.type question)
             (AnalysisQuestionSchema.labels question)
             (AnalysisQuestionSchema.options question)
             (RText "")
             None in
         match AnalysisQuestionSchema.choices question with
         | Some choices =>
             AnalysisQuestionInternal.mk
               (AnalysisQuestionInternal.qpath output)
               (AnalysisQuestionInternal.uuid output)
               (AnalysisQuestionInternal.type output)
               (AnalysisQuestionInternal.labels output)
               (AnalysisQuestionInternal.options output)
               (AnalysisQuestionInternal.response output)
               (Some (AdditionalFields.mk (Some choices)))
         | None => output
         end)
      questions.

(** The numbers of JavaScript, and [String(val)] for a number. *)
Variable JsNumber : Type.
Variable numberToString : JsNumber -> string.

(** The response stored for a value: [String(val)] for a number, the value
    itself otherwise. *)
Definition responseOfVal (val : AnalysisVal JsNumber) : AnalysisResponse :=
  match val with
  | VNumber n => RText (numberToString n)
  | VText text => RText text
  | VList items => RList items
  end.

Definition applyUpdateResponseToInternalQuestions (qpath : string)
    (updateResp : gmap string (QualData.t JsNumber))
    (questions : list Internal)
  : list Internal :=
  let analysisResponses :=
    match updateResp !! qpath ≫= QualData.qual with
    | Some responses => responses
    | None => []
    end in
  map (fun question =>
         let foundResponse :=
           find (fun analResp =>
                   String.eqb (AnalysisQuestionInternal.uuid question)
                              (QualResponse.uuid analResp))
                analysisResponses in
         match foundResponse with
         | Some found =>
             AnalysisQuestionInternal.set_response
               (responseOfVal (QualResponse.val found)) question
         | None => question
         end)
      questions.

Definition updateSingleQuestionPreservingResponse
    (questionToUpdate : Internal) (questions : list Internal)
  : list Internal :=
  map (fun question =>
         if String.eqb (AnalysisQuestionInternal.uuid question)
                       (AnalysisQuestionInternal.uuid questionToUpdate)
         then AnalysisQuestionInternal.set_response
                (AnalysisQuestionInternal.response question) questionToUpdate
         else question)
      questions.

(** [getQuestionsFromSchema]: [qual_survey] is
    [advancedFeatures?.qual?.qual_survey]. *)
Definition getQuestionsFromSchema (qual_survey : option (list Schema))
  : list Internal :=
  convertQuestionsFromSchemaToInternal
    (match qual_survey with
     | Some questions => questions
     | None => []
     end).

(** The failure that [handleApiFail] sees in an error that is not a
    [FailResponse]: no status, no status text, no response text. *)
Definition notAFailResponse : FailResponse.t := FailResponse.mk 0 "" None None.

(** [updateResponse]: one POST to the processing URL. *)
Definition updateResponse (page : Page.t) (fetch : Request.t -> HttpResponse.t)
    (processingUrl submissionUid qpath analysisQuestionUuid
       analysisQuestionType : string)
    (newResponse : ActualResponse) : FetchResult * list Effect :=
  fetchPostUrl page fetch processingUrl
    (updatePayload submissionUid qpath analysisQuestionUuid
       analysisQuestionType newResponse)
    None.

(** [updateResponseAndReducer]: [processingUrl] is
    [getAssetProcessingUrl(singleProcessingStore.currentAssetUid)]. *)
Definition updateResponseAndReducer (page : Page.t)
    (fetch : Request.t -> HttpResponse.t) (env : Env.t)
    (processingUrl : option string)
    (surveyQuestionQpath analysisQuestionUUid analysisQuestionType : string)
    (response : AnalysisResponse) : list (AnalysisEffect Json) :=
  match processingUrl with
  | Some url =>
      if truthy url then
        let actualResponse :=
          if String.eqb analysisQuestionType "qual_integer"
          then ParsedInt response else AsIs response in
        let '(result, toasts) :=
          updateResponse page fetch url (Env.currentSubmissionEditId env)
            surveyQuestionQpath analysisQuestionUUid analysisQuestionType
            actualResponse in
        [Dispatch UpdateResponse] ++ map Api toasts ++
        match result with
        | Resolved _ body =>
            [Dispatch (UpdateResponseCompleted body surveyQuestionQpath)]
        | Rejected failResponse =>
            map Api (handleApiFail (Page.onLine page) (Page.hasRaven page)
                       failResponse None) ++
            [Dispatch UpdateResponseFailed]
        | RejectedNotJson =>
            map Api (handleApiFail (Page.onLine page) (Page.hasRaven page)
                       notAFailResponse None) ++
            [Dispatch UpdateResponseFailed]
        end
      else [Notify NO_FEATURE_ERROR "error"]
  | None => [Notify NO_FEATURE_ERROR "error"]
  end.

(** ** Vocabulary of the properties *)



(** The automatic transcription result that an event carries for the current
    question. *)
Definition googleTsOf (env : Env.t) (event : AutoTranscriptionEvent.t)
  : option GoogleResponse.t :=
  AutoTranscriptionEvent.response event !! Env.currentQuestionQpath env
    ≫= QuestionData.googlets.

(** The events of a session that opens the view and in which both the
    submission fetch and the edit-id fetch fail. *)
Definition failedFetches (env : Env.t) (pathname : string)
  : list (Env.t * Event) :=
  [(env, EvRouteChange pathname);
   (env, EvGetSubmissionByUuidFailed);
   (env, EvGetProcessingSubmissionsFailed);
   (env, EvGetProcessingDataCompleted ∅)].

(** Is the payload requested among these effects? *)
Definition hasPayloadFetch (l : list Effect) : bool := existsb isPayloadFetch l.

(** An action keeps a store not pristine unless it requests the payload. *)
Definition keepsNotPristine (a : Action) : Prop :=
  forall s,
    Data.isPristine (Store.data s) = false ->
    Data.isPristine (Store.data (a s).1) = false \/
    hasPayloadFetch (a s).2 = true.

(** The events after which a change has been made: a completed
    [setTranscript], [deleteTranscript] or [setTranslation], and an edit in
    the analysis tab. *)
Definition marksChange (ev : Event) : bool :=
  match ev with
  | EvSetTranscriptCompleted _ | EvDeleteTranscriptCompleted
  | EvSetTranslationCompleted _ | EvSetAnalysisTabHasUnsavedChanges true => true
  | _ => false
  end.

(** Events of a session that stays on submission [s1]: a draft is typed, the
    translations tab is opened, a submission fetch fails. *)
Definition quietEvents : list (Env.t * Event) :=
  [(sampleEnv "a1" "q1" "s1",
    EvSetTranscriptDraft (TransxDraft.mk (Some "hey") (Some "en") Undefined));
   (sampleEnv "a1" "q1" "s1",
    EvRouteChange "/forms/a1/data/processing/q1/s1/translations");
   (sampleEnv "a1" "q1" "s1", EvGetSubmissionByUuidFailed)].

(** The requests that a navigation inside the application may send: the
    payload and the submission. *)
Definition isContextFetch (e : Effect) : bool :=
  negb (isNetworkCall e) || isPayloadFetch e || isSubmissionFetch e.

(** The events that start the store up: its initialisation, the load of an
    asset and the completion of an activation. *)
Definition isStartupEvent (ev : Event) : bool :=
  match ev with
  | EvInit | EvAssetLoad _ | EvActivateAssetCompleted => true
  | _ => false
  end.

(** The automatic translation that a response carries for the current
    question. *)
Definition googleTxOf (env : Env.t) (response : ProcessingDataResponse)
  : option GoogleResponse.t :=
  response !! Env.currentQuestionQpath env ≫= QuestionData.googletx.

(** An automatic transcription event still applies: it was requested for the
    current submission, it has a result for the current question, and the
    language of the result is the language or the region of the transcript
    draft. *)
Definition StillApplies (env : Env.t) (event : AutoTranscriptionEvent.t)
    (s : Store.t) : Prop :=
  AutoTranscriptionEvent.submissionEditId event
    = Env.currentSubmissionEditId env /\
  exists r draft,
    googleTsOf env event = Some r /\
    Data.transcriptDraft (Store.data s) = Some draft /\
    (TransxDraft.languageCode draft = Some (GoogleResponse.languageCode r) \/
     TransxDraft.regionCode draft = Defined (GoogleResponse.languageCode r)).

(** The edit id of a submission: its [meta/rootUuid], or its [_uuid] when it
    has none. *)
Definition editIdOf (result : SubmissionResponse) : option string :=
  match result !! "meta/rootUuid" with
  | Some u => Some u
  | None => result !! "_uuid"
  end.

(** The entry of a submission in the list of a question whose row is named
    [rowName]. *)
Definition indexEntry (flatPaths : gmap string string)
    (rowName : option string) (result : SubmissionResponse) : EditId.t :=
  EditId.mk (editIdOf result)
            (hasKey result (rowName ≫= fun n => flatPaths !! n)).

(** The displays that are available on every tab, before the translations. *)
Definition staticDisplaysOf (tab : ProcessingTabName) : DisplaysList :=
  match tab with
  | TabTranscript => [StaticDisplays.Audio; StaticDisplays.Data]
  | _ => [StaticDisplays.Audio; StaticDisplays.Data; StaticDisplays.Transcript]
  end.

(** The failure is the one of a request aborted on purpose. *)
Definition isAborted (response : FailResponse.t) : Prop :=
  FailResponse.status response = 0%Z /\
  FailResponse.statusText response = "abort".

(** The statuses for which [fetchData] shows a toast. *)
Definition NotifiedStatus (status : Z) : Prop :=
  status = 401%Z \/ status = 403%Z \/ status = 404%Z \/ (500 <= status)%Z.

Definition isRavenCapture (e : Effect) : bool :=
  match e with RavenCapture _ => true | _ => false end.

(** The response text is an HTML document for [handleApiFail]. *)
Definition isHtml (text : string) : bool :=
  str_includes "</html>" text && str_includes "</body>" text.

(** A toast among the effects of [updateResponseAndReducer]. *)
Definition isAnalysisToast (e : AnalysisEffect Json) : bool :=
  match e with
  | Notify _ _ => true
  | Api e => isUserNotification e
  | Dispatch _ => false
  end.

(** The request that [updateResponseAndReducer] posts. *)
Definition updateRequest (page : Page.t) (env : Env.t)
    (url qpath uuid type : string) (response : AnalysisResponse) : Request.t :=
  requestOf page url POST
    (Some (updatePayload (Env.currentSubmissionEditId env) qpath uuid type
             (if String.eqb type "qual_integer"
              then ParsedInt response else AsIs response)))
    (withoutRootUrl None).

(** A value is the persisted one for a language code: it is the value of the
    first translation of the list that has this code. *)
Definition PersistedValue (code : option LanguageCode)
    (translations : list Transx.t) (v : string) : Prop :=
  exists before tr after,
    translations = before ++ tr :: after /\
    Forall (fun other => Some (Transx.languageCode other) <> code) before /\
    Some (Transx.languageCode tr) = code /\
    Transx.value tr = v.


(** ** Properties *)

Lemma strict_eq_true (a b : option string) : strict_eq a b = true <-> a = b.
Proof. unfold strict_eq. apply bool_decide_eq_true. Qed.

Lemma strict_eq_false (a b : option string) : strict_eq a b = false <-> a <> b.
Proof. unfold strict_eq. apply bool_decide_eq_false. Qed.

Lemma strict_eq_refl (a : option string) : strict_eq a a = true.
Proof. by apply strict_eq_true. Qed.



Lemma eq_optional_true (x : string) (o : option string) :
  eq_optional x o = true <-> o = Some x.
Proof.
  destruct o as [y|]; simpl; [|by split].
  rewrite String.eqb_eq. split; [by intros -> | by intros [= ->]].
Qed.

Lemma eq_nullable_true (x : string) (n : Nullable string) :
  eq_nullable x n = true <-> n = Defined x.
Proof.
  destruct n as [| |y]; simpl; [by split | by split |].
  rewrite String.eqb_eq. split; [by intros -> | by intros [= ->]].
Qed.

Lemma matchesDraft_true (r : GoogleResponse.t) (draft : TransxDraft.t) :
  matchesDraft r draft = true <->
  TransxDraft.languageCode draft = Some (GoogleResponse.languageCode r) \/
  TransxDraft.regionCode draft = Defined (GoogleResponse.languageCode r).
Proof.
  unfold matchesDraft.
  by rewrite orb_true_iff, eq_optional_true, eq_nullable_true.
Qed.

(** C2. When a completed automatic transcription is delivered, either the
    transcript draft and the polling flag are left as they were, or the
    event's submission edit id is the current one, the result's language code
    is the draft's language code or its region code, and then the draft has
    the result's value and the polling flag is off. *)
Theorem onRequestAutoTranscriptionCompleted_only_if_applicable
    (env : Env.t) (event : AutoTranscriptionEvent.t) (s : Store.t) :
  let s' := (onRequestAutoTranscriptionCompleted env event s).1 in
  (Data.transcriptDraft (Store.data s') = Data.transcriptDraft (Store.data s) /\
   Data.isPollingForTranscript (Store.data s')
     = Data.isPollingForTranscript (Store.data s)) \/
  (exists r draft,
      googleTsOf env event = Some r /\
      Data.transcriptDraft (Store.data s) = Some draft /\
      AutoTranscriptionEvent.submissionEditId event
        = Env.currentSubmissionEditId env /\
      (TransxDraft.languageCode draft = Some (GoogleResponse.languageCode r) \/
       TransxDraft.regionCode draft = Defined (GoogleResponse.languageCode r)) /\
      Data.transcriptDraft (Store.data s')
        = Some (TransxDraft.set_value (GoogleResponse.value r) draft) /\
      Data.isPollingForTranscript (Store.data s') = false).
Proof.
  unfold onRequestAutoTranscriptionCompleted, googleTsOf.
  destruct s as [abort pp l1 l2 l3 disp an d].
  destruct d as [tr draft trs tdraft src sub ids pristine fetching polling].
  simpl.
  destruct (truthy (Env.currentQuestionQpath env)); simpl; [|by left].
  destruct polling; simpl; [|by left].
  destruct draft as [draft|]; simpl; [|by left].
  destruct (AutoTranscriptionEvent.response event !! Env.currentQuestionQpath env
              ≫= QuestionData.googlets) as [r|] eqn:Hr; simpl.
  - unfold whenS, isAutoTranscriptionEventApplicable, seq. simpl.
    rewrite Hr.
    destruct (String.eqb (AutoTranscriptionEvent.submissionEditId event)
                (Env.currentSubmissionEditId env)) eqn:Hid; simpl.
    + destruct (matchesDraft r draft) eqn:Hm; simpl.
      * right. exists r, draft.
        apply String.eqb_eq in Hid. apply matchesDraft_true in Hm.
        destruct pristine; simpl; by repeat split.
      * left. destruct pristine; by simpl.
    + left. destruct pristine; by simpl.
  - left. unfold seq, setNotPristine, whenS. simpl. destruct pristine; by simpl.
Qed.

(** Under the guard of the handler (a current question, polling on, a draft),
    an applicable result is written. *)
Lemma onRequestAutoTranscriptionCompleted_applies
    (env : Env.t) (event : AutoTranscriptionEvent.t) (s : Store.t)
    (r : GoogleResponse.t) (draft : TransxDraft.t) :
  truthy (Env.currentQuestionQpath env) = true ->
  Data.isPollingForTranscript (Store.data s) = true ->
  Data.transcriptDraft (Store.data s) = Some draft ->
  googleTsOf env event = Some r ->
  AutoTranscriptionEvent.submissionEditId event
    = Env.currentSubmissionEditId env ->
  (TransxDraft.languageCode draft = Some (GoogleResponse.languageCode r) \/
   TransxDraft.regionCode draft = Defined (GoogleResponse.languageCode r)) ->
  let s' := (onRequestAutoTranscriptionCompleted env event s).1 in
  Data.transcriptDraft (Store.data s')
    = Some (TransxDraft.set_value (GoogleResponse.value r) draft) /\
  Data.isPollingForTranscript (Store.data s') = false.
Proof.
  intros Hq Hpoll Hdraft Hr Hid Hm.
  unfold onRequestAutoTranscriptionCompleted, googleTsOf in *.
  rewrite Hq, Hpoll, Hdraft. simpl. rewrite Hr.
  unfold whenS, isAutoTranscriptionEventApplicable, seq. simpl.
  rewrite Hr, Hdraft.
  apply String.eqb_eq in Hid. apply matchesDraft_true in Hm.
  rewrite Hid, Hm. simpl.
  destruct s as [abort pp l1 l2 l3 disp an d].
  destruct d as [tr dr trs tdraft src sub ids pristine fetching polling].
  simpl in *. subst. destruct pristine; by simpl.
Qed.

Lemma object_get_first {A} (k : string) (v : A) (o : list (string * A)) :
  object_get k ((k, v) :: o) = Some v.
Proof. simpl. by rewrite String.eqb_refl. Qed.

Lemma object_get_later {A} (k k' : string) (v : A) (o : list (string * A)) :
  k <> k' -> object_get k ((k', v) :: o) = object_get k o.
Proof. intros H. simpl. apply String.eqb_neq in H. by rewrite H. Qed.

Lemma Transx_copy (tr : Transx.t) :
  Transx.mk (Transx.value tr) (Transx.languageCode tr)
            (Transx.dateCreated tr) (Transx.dateModified tr) = tr.
Proof. by destruct tr. Qed.

(** One round of the loop of [translationsArrayOf]; [whole] is the object the
    keys are looked up in. *)
Lemma translations_loop (whole rest : list (LanguageCode * Transx.t))
    (acc : list Transx.t) :
  (forall k v, (k, v) ∈ rest -> object_get k whole = Some v) ->
  fold_left
    (fun translationsArray languageCode =>
       match object_get languageCode whole with
       | Some translation =>
           if truthy (Transx.languageCode translation) then
             translationsArray ++
               [Transx.mk (Transx.value translation)
                          (Transx.languageCode translation)
                          (Transx.dateCreated translation)
                          (Transx.dateModified translation)]
           else translationsArray
       | None => translationsArray
       end)
    (object_keys rest) acc
  = acc ++ List.filter (fun tr => truthy (Transx.languageCode tr))
                       (map snd rest).
Proof.
  revert acc. induction rest as [|[k v] rest IH]; intros acc Hget; simpl.
  - by rewrite app_nil_r.
  - rewrite (Hget k v) by apply list_elem_of_here.
    assert (Hrest : forall k' v', (k', v') ∈ rest ->
                                  object_get k' whole = Some v').
    { intros k' v' Hin. apply Hget. by apply list_elem_of_further. }
    destruct (truthy (Transx.languageCode v)); rewrite IH by done.
    + by rewrite Transx_copy, <- app_assoc.
    + done.
Qed.

Lemma object_get_unique {A} (o : list (string * A)) (k : string) (v : A) :
  NoDup (object_keys o) -> (k, v) ∈ o -> object_get k o = Some v.
Proof.
  induction o as [|[k' v'] o IH]; intros Hnd Hin.
  - by apply elem_of_nil in Hin.
  - simpl in Hnd. apply NoDup_cons in Hnd as [Hnotin Hnd].
    apply elem_of_cons in Hin as [[= -> ->] | Hin].
    + apply object_get_first.
    + rewrite object_get_later; [by apply IH|].
      intros ->. apply Hnotin. unfold object_keys.
      apply list_elem_of_fmap. by exists (k', v).
Qed.

(** The translations kept from a response: the values of its keys, in key
    order, that have a truthy language code. *)
Lemma translationsArrayOf_spec (obj : list (LanguageCode * Transx.t)) :
  NoDup (object_keys obj) ->
  translationsArrayOf obj
  = List.filter (fun tr => truthy (Transx.languageCode tr)) (map snd obj).
Proof.
  intros Hnd. unfold translationsArrayOf.
  rewrite translations_loop; [done|].
  intros k v Hin. by apply object_get_unique.
Qed.

Lemma truthy_true (x : string) : truthy x = true <-> x <> "".
Proof.
  unfold truthy. rewrite negb_true_iff. apply String.eqb_neq.
Qed.

(** C3, as the code has it. When a payload fetch completes, the persisted
    transcript is the response's transcript for the current question if that
    has a non-empty value and a non-empty language code, and undefined
    otherwise; the persisted translations are, in key order, the translations
    of the response's translation object that have a non-empty language code
    (a key whose translation has an empty language code gets no entry); the
    payload-loaded flag is true; and [cleanupDisplays] has run: its
    notification is emitted before the final one, and the displays are the
    ones it leaves.  The hypothesis says that the keys of the translation
    object are distinct, as the keys of an object are. *)
Theorem onFetchProcessingDataCompleted_merge
    (env : Env.t) (response : ProcessingDataResponse) (s : Store.t) :
  (forall obj,
      response !! Env.currentQuestionQpath env ≫= QuestionData.translation
        = Some obj ->
      NoDup (object_keys obj)) ->
  let s' := (onFetchProcessingDataCompleted env response s).1 in
  let effects := (onFetchProcessingDataCompleted env response s).2 in
  (forall tr,
      Data.transcript (Store.data s') = Some tr <->
      response !! Env.currentQuestionQpath env ≫= QuestionData.transcript
        = Some tr /\
      Transx.value tr <> "" /\ Transx.languageCode tr <> "") /\
  Data.translations (Store.data s') =
    match response !! Env.currentQuestionQpath env ≫= QuestionData.translation with
    | Some obj =>
        List.filter (fun tr => truthy (Transx.languageCode tr)) (map snd obj)
    | None => []
    end /\
  Store.isProcessingDataLoaded s' = true /\
  effects = (cleanupDisplays s).2 ++ [Trigger TData] /\
  Store.displays s' = Store.displays (cleanupDisplays s).1.
Proof.
  intros Hkeys. unfold onFetchProcessingDataCompleted.
  destruct (response !! Env.currentQuestionQpath env ≫= QuestionData.translation)
    as [obj|] eqn:Hobj.
  - rewrite translationsArrayOf_spec by by apply Hkeys.
    destruct (response !! Env.currentQuestionQpath env ≫= QuestionData.transcript)
      as [tr0|]; simpl.
    + destruct (truthy (Transx.value tr0)) eqn:Hv;
        destruct (truthy (Transx.languageCode tr0)) eqn:Hl; simpl;
        (split; [|done]); intros tr; split;
        try (intros [= <-]; by rewrite <- !truthy_true);
        try (intros ([= <-] & Hv' & Hl'); apply truthy_true in Hv', Hl';
             congruence);
        try done.
    + split; [|done]. intros tr. split; [done | by intros [? _]].
  - destruct (response !! Env.currentQuestionQpath env ≫= QuestionData.transcript)
      as [tr0|]; simpl.
    + destruct (truthy (Transx.value tr0)) eqn:Hv;
        destruct (truthy (Transx.languageCode tr0)) eqn:Hl; simpl;
        (split; [|done]); intros tr; split;
        try (intros [= <-]; by rewrite <- !truthy_true);
        try (intros ([= <-] & Hv' & Hl'); apply truthy_true in Hv', Hl';
             congruence);
        try done.
    + split; [|done]. intros tr. split; [done | by intros [? _]].
Qed.

(** [cleanupDisplays] changes nothing in the store: whatever the active and
    the available lists are, it only notifies the subscribers. *)
Lemma cleanupDisplays_unchanged (s : Store.t) :
  cleanupDisplays s = (s, [Trigger TDisplays]).
Proof. reflexivity. Qed.

(** The transcript draft is unsaved exactly when it has a value that is not
    the value of the persisted transcript. *)
Lemma hasUnsavedTranscriptDraftValue_iff (s : Store.t) :
  hasUnsavedTranscriptDraftValue s = true <->
  exists draft v,
    getTranscriptDraft s = Some draft /\
    TransxDraft.value draft = Some v /\
    Transx.value <$> getTranscript s <> Some v.
Proof.
  unfold hasUnsavedTranscriptDraftValue.
  rewrite andb_true_iff, !negb_true_iff, !strict_eq_false.
  destruct (getTranscriptDraft s) as [draft|]; simpl.
  - destruct (TransxDraft.value draft) as [v|] eqn:Hv.
    + split.
      * intros [_ H]. exists draft, v. repeat split; [done|]. congruence.
      * intros (d & v' & [= <-] & Hv' & H). split; [done|]. congruence.
    + split; [by intros [? _] | intros (d & v' & [= <-] & Hv' & _); congruence].
  - split; [by intros [? _] | by intros (d & v' & ? & _)].
Qed.

(** The same for the translation draft, against the persisted translation of
    the draft's language code. *)
Lemma hasUnsavedTranslationDraftValue_iff (s : Store.t) :
  hasUnsavedTranslationDraftValue s = true <->
  exists draft v,
    getTranslationDraft s = Some draft /\
    TransxDraft.value draft = Some v /\
    Transx.value <$> getTranslation (TransxDraft.languageCode draft) s
      <> Some v.
Proof.
  unfold hasUnsavedTranslationDraftValue.
  rewrite andb_true_iff, !negb_true_iff, !strict_eq_false.
  destruct (getTranslationDraft s) as [draft|]; simpl.
  - destruct (TransxDraft.value draft) as [v|] eqn:Hv.
    + split.
      * intros [_ H]. exists draft, v. repeat split; [done|]. congruence.
      * intros (d & v' & [= <-] & Hv' & H). split; [done|]. congruence.
    + split; [by intros [? _] | intros (d & v' & [= <-] & Hv' & _); congruence].
  - split; [by intros [? _] | by intros (d & v' & ? & _)].
Qed.

(** The translation the store returns for a language code is the first
    persisted one with that code. *)
Lemma getTranslation_Some (code : option LanguageCode) (s : Store.t)
    (tr : Transx.t) :
  getTranslation code s = Some tr ->
  In tr (getTranslations s) /\ code = Some (Transx.languageCode tr).
Proof.
  unfold getTranslation, getTranslations. intros H.
  apply find_some in H as [Hin Heq]. apply strict_eq_true in Heq. by split.
Qed.

(** The value that counts as persisted for a language code is the value of
    the translation that [getTranslation] finds. *)
Lemma getTranslation_persisted (code : option LanguageCode) (s : Store.t)
    (v : string) :
  Transx.value <$> getTranslation code s = Some v <->
  PersistedValue code (Data.translations (Store.data s)) v.
Proof.
  unfold getTranslation, PersistedValue.
  induction (Data.translations (Store.data s)) as [|x l IH]; simpl.
  - split; [done | intros (b & tr & a & Heq & _); by destruct b].
  - destruct (strict_eq (Some (Transx.languageCode x)) code) eqn:Hx.
    + apply strict_eq_true in Hx. simpl. split.
      * intros [= <-]. exists [], x, l. by repeat split.
      * intros (b & tr & a & Heq & Hall & Hc & Hv).
        destruct b as [|y b]; simpl in Heq; injection Heq as Hhead Htail;
          subst.
        -- done.
        -- apply Forall_cons in Hall as [Hy _]. by destruct Hy.
    + apply strict_eq_false in Hx. rewrite IH. split.
      * intros (b & tr & a & -> & Hall & Hc & Hv).
        exists (x :: b), tr, a. repeat split; [by constructor | done | done].
      * intros (b & tr & a & Heq & Hall & Hc & Hv).
        destruct b as [|y b]; simpl in Heq; injection Heq as Hhead Htail;
          subst.
        -- by destruct Hx.
        -- apply Forall_cons in Hall as [_ Hall]. by exists b, tr, a.
Qed.

(** C6, as the code has it. The transcript draft counts as unsaved exactly
    when it exists with a defined value that is not the value of the
    persisted transcript; the translation draft, exactly when it exists with
    a defined value that is not the value of the first persisted translation
    with the draft's language code.  Neither counts as unsaved right after a
    completed [setTranscript] (resp. [setTranslation]) or after the draft is
    deleted; a completed deletion of the transcript leaves the draft as it
    is. *)
Theorem hasUnsavedDraftValue_spec (s : Store.t) :
  (hasUnsavedTranscriptDraftValue s = true <->
   exists draft v,
     Data.transcriptDraft (Store.data s) = Some draft /\
     TransxDraft.value draft = Some v /\
     forall tr, Data.transcript (Store.data s) = Some tr ->
                Transx.value tr <> v) /\
  (hasUnsavedTranslationDraftValue s = true <->
   exists draft v,
     Data.translationDraft (Store.data s) = Some draft /\
     TransxDraft.value draft = Some v /\
     ~ PersistedValue (TransxDraft.languageCode draft)
         (Data.translations (Store.data s)) v) /\
  (forall env response,
      hasUnsavedTranscriptDraftValue
        (onSetTranscriptCompleted env response s).1 = false) /\
  (forall newTranslations,
      hasUnsavedTranslationDraftValue
        (onSetTranslationCompleted newTranslations s).1 = false) /\
  hasUnsavedTranscriptDraftValue (deleteTranscriptDraft s).1 = false /\
  hasUnsavedTranslationDraftValue (deleteTranslationDraft s).1 = false /\
  Data.transcriptDraft (Store.data (onDeleteTranscriptCompleted s).1)
    = Data.transcriptDraft (Store.data s).
Proof.
  split; [|split].
  - rewrite hasUnsavedTranscriptDraftValue_iff.
    unfold getTranscriptDraft, getTranscript.
    split; intros (draft & v & Hdraft & Hv & Hdiff); exists draft, v;
      (split; [done|]); (split; [done|]).
    + intros tr Htr Heq. apply Hdiff. by rewrite Htr, <- Heq.
    + destruct (Data.transcript (Store.data s)) as [tr|]; [|done].
      intros [= Heq]. by apply (Hdiff tr).
  - rewrite hasUnsavedTranslationDraftValue_iff. unfold getTranslationDraft.
    split; intros (draft & v & Hdraft & Hv & Hdiff); exists draft, v;
      (split; [done|]); (split; [done|]).
    + intros Hp. by apply Hdiff, getTranslation_persisted.
    + intros Hp. by apply Hdiff, getTranslation_persisted.
  - destruct s as [abort pp l1 l2 l3 disp an d].
    destruct d as [tr draft trs tdraft src sub ids pristine fetching polling].
    repeat split.
    + intros env response. unfold onSetTranscriptCompleted.
      destruct (response !! Env.currentQuestionQpath env
                  ≫= QuestionData.transcript);
        destruct pristine; reflexivity.
    + intros newTranslations. destruct pristine; reflexivity.
    + destruct pristine; reflexivity.
Qed.

(** What [onAnyCallFailed] leaves alone and what it clears. *)
Lemma onAnyCallFailed_frame (response : FailResponse.t + string) (s : Store.t) :
  let s' := (onAnyCallFailed response s).1 in
  Data.isFetchingData (Store.data s') = false /\
  Data.isPollingForTranscript (Store.data s') = false /\
  Data.transcript (Store.data s') = Data.transcript (Store.data s) /\
  Data.translations (Store.data s') = Data.translations (Store.data s) /\
  Data.submissionData (Store.data s') = Data.submissionData (Store.data s) /\
  Data.submissionsEditIds (Store.data s')
    = Data.submissionsEditIds (Store.data s).
Proof. by destruct s as [? ? ? ? ? ? ? []]. Qed.

(** Without a detail and without an error in the body, the text shown is the
    status text of the response, whatever it is. *)
Lemma errorTextOf_no_detail (r : FailResponse.t) :
  FailResponse.responseJSON r = None ->
  errorTextOf (inl r) = FailResponse.statusText r.
Proof. unfold errorTextOf. by intros ->. Qed.

(** On a request aborted on purpose, [handleApiFail] does nothing. *)
Lemma handleApiFail_aborted (onLine hasRaven : bool) (toast : option string) :
  handleApiFail onLine hasRaven abortedResponse toast = [].
Proof. reflexivity. Qed.

(** ... while the store shows its status text. *)
Lemma onAnyCallFailed_aborted (s : Store.t) :
  (onAnyCallFailed (inl abortedResponse) s).2
  = [AlertifyNotify "abort" "error"; Trigger TData].
Proof. reflexivity. Qed.

(** C10. A failed submission fetch and a failed edit-id fetch set their loaded
    flag and leave the data as it is; and a store that is ready can have
    neither the submission data nor the edit-id index: it is so after the
    view is opened and both fetches fail. *)
Theorem isReady_without_data :
  (forall s,
      Store.isSubmissionLoaded (onGetSubmissionByUuidFailed s).1 = true /\
      Data.submissionData (Store.data (onGetSubmissionByUuidFailed s).1)
        = Data.submissionData (Store.data s)) /\
  (forall s,
      Store.areEditIdsLoaded (onGetProcessingSubmissionsFailed s).1 = true /\
      Data.submissionsEditIds
        (Store.data (onGetProcessingSubmissionsFailed s).1)
        = Data.submissionsEditIds (Store.data s)) /\
  (forall pathname,
      let env := sampleEnv "a1" "q1" "s1" in
      let s := (run (failedFetches env pathname) initialStore).1 in
      isReady env s = true /\
      Data.submissionData (Store.data s) = None /\
      Data.submissionsEditIds (Store.data s) = None).
Proof.
  split; [by intros [? ? ? ? ? ? ? []]|].
  split; [by intros [? ? ? ? ? ? ? []]|].
  intros pathname. by vm_compute.
Qed.

(** *** The pristine flag *)

Lemma keeps_skip : keepsNotPristine skip.
Proof. intros s H. by left. Qed.

Lemma keeps_emit (e : Effect) : keepsNotPristine (emit e).
Proof. intros s H. by left. Qed.

Lemma keeps_trigger (payload : TriggerPayload) : keepsNotPristine (trigger payload).
Proof. apply keeps_emit. Qed.

Lemma keeps_modify (f : Store.t -> Store.t) :
  (forall s, Data.isPristine (Store.data s) = false ->
             Data.isPristine (Store.data (f s)) = false) ->
  keepsNotPristine (modify f).
Proof. intros Hf s H. left. by apply Hf. Qed.

Lemma keeps_set_data (f : Data.t -> Data.t) :
  (forall d, Data.isPristine d = false -> Data.isPristine (f d) = false) ->
  keepsNotPristine (set_data f).
Proof. intros Hf s H. left. destruct s. by apply Hf. Qed.

Lemma keeps_seq (a b : Action) :
  keepsNotPristine a -> keepsNotPristine b -> keepsNotPristine (a >> b).
Proof.
  intros Ha Hb s H. unfold seq. specialize (Ha s H).
  destruct (a s) as [s1 l1] eqn:Has. simpl in Ha.
  specialize (Hb s1). destruct (b s1) as [s2 l2]. simpl in *.
  unfold hasPayloadFetch in *. rewrite existsb_app, orb_true_iff.
  destruct Ha as [Ha | Ha]; [|by right; left].
  destruct (Hb Ha) as [Hb' | Hb']; [by left | by right; right].
Qed.

Lemma keeps_when (c : bool) (a : Action) :
  keepsNotPristine a -> keepsNotPristine (when c a).
Proof. destruct c; [done | intros _; apply keeps_skip]. Qed.

Lemma keeps_whenS (c : Store.t -> bool) (a : Action) :
  keepsNotPristine a -> keepsNotPristine (whenS c a).
Proof.
  intros Ha s H. unfold whenS. destruct (c s); [by apply Ha | by left].
Qed.

Lemma keeps_if (c : bool) (a b : Action) :
  keepsNotPristine a -> keepsNotPristine b ->
  keepsNotPristine (if c then a else b).
Proof. by destruct c. Qed.

Lemma keeps_payload_fetch (a : Action) :
  (forall s, hasPayloadFetch (a s).2 = true) -> keepsNotPristine a.
Proof. intros Ha s _. right. apply Ha. Qed.

Create HintDb pristine discriminated.
#[local] Hint Constants Opaque : pristine.
#[local] Hint Resolve keeps_skip keeps_emit keeps_trigger keeps_seq keeps_when
  keeps_whenS keeps_if : pristine.

(** Assignments that do not set the flag to true keep it. *)
Ltac keep_assignment :=
  first [ apply keeps_set_data; intros [] ?; assumption || reflexivity
        | apply keeps_modify; intros [] ?; assumption ].

#[local] Hint Extern 1 (keepsNotPristine (set_data _)) =>
  keep_assignment : pristine.
#[local] Hint Extern 1 (keepsNotPristine (modify _)) =>
  keep_assignment : pristine.

Ltac keep := auto 30 with pristine nocore.

Lemma keeps_setNotPristine : keepsNotPristine setNotPristine.
Proof. unfold setNotPristine. keep. Qed.
#[local] Hint Resolve keeps_setNotPristine : pristine.

Lemma keeps_setAnalysisTabHasUnsavedChanges (b : bool) :
  keepsNotPristine (setAnalysisTabHasUnsavedChanges b).
Proof. unfold setAnalysisTabHasUnsavedChanges. keep. Qed.
#[local] Hint Resolve keeps_setAnalysisTabHasUnsavedChanges : pristine.

Lemma fetchProcessingData_fetches (env : Env.t) (s : Store.t) :
  hasPayloadFetch (fetchProcessingData env s).2 = true.
Proof.
  unfold fetchProcessingData, seq. destruct (Store.abortFetchData s); reflexivity.
Qed.

Lemma keeps_fetchProcessingData (env : Env.t) :
  keepsNotPristine (fetchProcessingData env).
Proof. apply keeps_payload_fetch, fetchProcessingData_fetches. Qed.
#[local] Hint Resolve keeps_fetchProcessingData : pristine.

Lemma keeps_fetchSubmissionData (env : Env.t) :
  keepsNotPristine (fetchSubmissionData env).
Proof. unfold fetchSubmissionData. keep. Qed.
#[local] Hint Resolve keeps_fetchSubmissionData : pristine.

Lemma keeps_fetchEditIds (env : Env.t) : keepsNotPristine (fetchEditIds env).
Proof. unfold fetchEditIds. keep. Qed.
#[local] Hint Resolve keeps_fetchEditIds : pristine.

Lemma keeps_fetchAllInitialDataForAsset (env : Env.t) :
  keepsNotPristine (fetchAllInitialDataForAsset env).
Proof. unfold fetchAllInitialDataForAsset, activateAsset. keep. Qed.
#[local] Hint Resolve keeps_fetchAllInitialDataForAsset : pristine.

(** A handler written as a function of the store: once its tests on the
    store are decided, what remains is an action applied to the store. *)
Lemma keeps_apply (a : Action) (s : Store.t) :
  keepsNotPristine a ->
  Data.isPristine (Store.data s) = false ->
  Data.isPristine (Store.data (a s).1) = false \/
  hasPayloadFetch (a s).2 = true.
Proof. intros Ha. apply Ha. Qed.

Lemma keeps_onRouteChange (env : Env.t) (pathname : string) :
  keepsNotPristine (onRouteChange env pathname).
Proof.
  intros s H. unfold onRouteChange.
  destruct (strict_eq (Store.previousPath s) (Some pathname)); [by left|].
  apply keeps_apply; [keep | done].
Qed.

Lemma keeps_onAssetLoad (env : Env.t) (assetUid : string) :
  keepsNotPristine (onAssetLoad env assetUid).
Proof. unfold onAssetLoad, activateAsset. keep. Qed.

Lemma keeps_unchanged (a : Action) :
  (forall s, (a s).1 = s) -> keepsNotPristine a.
Proof. intros Ha s H. left. by rewrite Ha. Qed.

Lemma keeps_cleanupDisplays : keepsNotPristine cleanupDisplays.
Proof. by apply keeps_unchanged. Qed.
#[local] Hint Resolve keeps_cleanupDisplays : pristine.

Lemma keeps_onFetchProcessingDataCompleted (env : Env.t)
    (response : ProcessingDataResponse) :
  keepsNotPristine (onFetchProcessingDataCompleted env response).
Proof. unfold onFetchProcessingDataCompleted. cbv zeta. keep. Qed.

Lemma keeps_onRequestAutoTranscriptionCompleted (env : Env.t)
    (event : AutoTranscriptionEvent.t) :
  keepsNotPristine (onRequestAutoTranscriptionCompleted env event).
Proof.
  intros s H. unfold onRequestAutoTranscriptionCompleted.
  destruct (_ || _); [by left|].
  apply keeps_apply; [|done].
  destruct (_ ≫= _); keep.
Qed.

Lemma keeps_requestAutoTranscription (env : Env.t) :
  keepsNotPristine (requestAutoTranscription env).
Proof.
  unfold requestAutoTranscription.
  apply keeps_seq; [keep|]. apply keeps_seq; [|keep].
  by apply keeps_unchanged.
Qed.
#[local] Hint Resolve keeps_requestAutoTranscription : pristine.

Lemma keeps_onAutoTranscriptionTimeout (env : Env.t)
    (event : AutoTranscriptionEvent.t) :
  keepsNotPristine (onAutoTranscriptionTimeout env event).
Proof.
  intros s H. unfold onAutoTranscriptionTimeout.
  destruct (isAutoTranscriptionEventApplicable env event s);
    apply keeps_apply; [keep | done | keep | done].
Qed.

Lemma keeps_onRequestAutoTranslationCompleted (env : Env.t)
    (response : ProcessingDataResponse) :
  keepsNotPristine (onRequestAutoTranslationCompleted env response).
Proof.
  unfold onRequestAutoTranslationCompleted. cbv zeta.
  apply keeps_seq; [keep|]. apply keeps_seq; [|keep]. intros s H.
  destruct (_ ≫= _); [|by left].
  destruct (Data.translationDraft (Store.data s)); [|by left].
  apply keeps_apply; [keep | done].
Qed.

Lemma keeps_safelyDeleteTranscriptDraft :
  keepsNotPristine safelyDeleteTranscriptDraft.
Proof.
  intros s H. unfold safelyDeleteTranscriptDraft, deleteTranscriptDraft.
  destruct (hasUnsavedTranscriptDraftValue s);
    apply keeps_apply; [keep | done | keep | done].
Qed.

Lemma keeps_safelyDeleteTranslationDraft :
  keepsNotPristine safelyDeleteTranslationDraft.
Proof.
  intros s H. unfold safelyDeleteTranslationDraft, deleteTranslationDraft.
  destruct (hasUnsavedTranslationDraftValue s);
    apply keeps_apply; [keep | done | keep | done].
Qed.

(** Every event but the initialisation of the store keeps it not pristine,
    unless handling it requests the payload. *)
Lemma keeps_handle (env : Env.t) (ev : Event) :
  ev <> EvInit -> keepsNotPristine (handle env ev).
Proof.
  intros Hinit. destruct ev; simpl; try done.
  - apply keeps_onRouteChange.
  - apply keeps_onAssetLoad.
  - unfold onActivateAssetCompleted. keep.
  - unfold onGetSubmissionByUuidCompleted. keep.
  - unfold onGetSubmissionByUuidFailed. keep.
  - unfold onGetProcessingSubmissionsCompleted. keep.
  - unfold onGetProcessingSubmissionsFailed. keep.
  - unfold onFetchProcessingDataStarted. keep.
  - apply keeps_onFetchProcessingDataCompleted.
  - apply keeps_onFetchProcessingDataCompleted.
  - unfold onAnyCallFailed. keep.
  - unfold onSetTranscriptCompleted. keep.
  - unfold onDeleteTranscriptCompleted. keep.
  - apply keeps_onRequestAutoTranscriptionCompleted.
  - unfold onRequestAutoTranscriptionInProgress. keep.
  - apply keeps_onAutoTranscriptionTimeout.
  - unfold onSetTranslationCompleted. keep.
  - apply keeps_onRequestAutoTranslationCompleted.
  - destruct cb; [unfold deleteTranscriptDraft | unfold deleteTranslationDraft];
      keep.
  - unfold setSource. keep.
  - unfold setTranscript. keep.
  - unfold deleteTranscript. keep.
  - apply keeps_requestAutoTranscription.
  - unfold setTranscriptDraft. keep.
  - unfold deleteTranscriptDraft. keep.
  - apply keeps_safelyDeleteTranscriptDraft.
  - unfold setTranslation. keep.
  - unfold deleteTranslation. keep.
  - unfold requestAutoTranslation. keep.
  - unfold setTranslationDraft. keep.
  - unfold deleteTranslationDraft. keep.
  - apply keeps_safelyDeleteTranslationDraft.
  - unfold setDisplays. keep.
  - unfold resetDisplays. keep.
  - apply keeps_cleanupDisplays.
  - apply keeps_setAnalysisTabHasUnsavedChanges.
  - apply keeps_setNotPristine.
Qed.


Lemma marksChange_not_pristine (env : Env.t) (ev : Event) (s : Store.t) :
  marksChange ev = true ->
  Data.isPristine (Store.data (handle env ev s).1) = false.
Proof.
  destruct s as [abort pp l1 l2 l3 disp an d].
  destruct d as [tr draft trs tdraft src sub ids pristine fetching polling].
  destruct ev; try discriminate;
    try (destruct hasUnsavedWork; [|discriminate]); intros _; simpl.
  - unfold onSetTranscriptCompleted.
    destruct (response !! Env.currentQuestionQpath env ≫= QuestionData.transcript);
      by destruct pristine.
  - by destruct pristine.
  - by destruct pristine.
  - by destruct pristine.
Qed.

Lemma keeps_run (evs : list (Env.t * Event)) (s : Store.t) :
  Forall (fun e => e.2 <> EvInit) evs ->
  Data.isPristine (Store.data s) = false ->
  Data.isPristine (Store.data (run evs s).1) = false \/
  hasPayloadFetch (run evs s).2 = true.
Proof.
  revert s. induction evs as [|[env ev] evs IH]; intros s Hinit H; simpl.
  - by left.
  - apply Forall_cons in Hinit as [Hev Hinit]. simpl in Hev.
    pose proof (keeps_handle env ev Hev s H) as Hstep.
    destruct (handle env ev s) as [s1 l1]. simpl in Hstep.
    specialize (IH s1 Hinit). destruct (run evs s1) as [s2 l2]. simpl in *.
    unfold hasPayloadFetch in *. rewrite existsb_app, orb_true_iff.
    destruct Hstep as [Hstep | Hstep]; [|by right; left].
    destruct (IH Hstep) as [IH' | IH']; [by left | by right; right].
Qed.

(** C5, as the code has it. The pristine flag starts true; a completed
    [setTranscript], [deleteTranscript] or [setTranslation] and an edit in the
    analysis tab leave it false; over any sequence of events of a session
    that requests no payload, a flag that is false stays false; and requesting
    the payload, as a change of question or submission does, sets it back to
    true. *)
Theorem pristine_flag_lifecycle (evs : list (Env.t * Event)) (s : Store.t) :
  Forall (fun e => e.2 <> EvInit) evs ->
  hasPayloadFetch (run evs s).2 = false ->
  Data.isPristine (Store.data initialStore) = true /\
  (forall env ev s0,
      marksChange ev = true ->
      Data.isPristine (Store.data (handle env ev s0).1) = false) /\
  (Data.isPristine (Store.data s) = false ->
   Data.isPristine (Store.data (run evs s).1) = false) /\
  (forall env s0,
      Data.isPristine (Store.data (fetchProcessingData env s0).1) = true).
Proof.
  intros Hinit Hfetch. split; [done|].
  split; [apply marksChange_not_pristine|]. split.
  - intros H. destruct (keeps_run evs s Hinit H) as [Hkeep | Hf]; [done|].
    congruence.
  - intros env [abort pp l1 l2 l3 disp an d]. unfold fetchProcessingData, seq.
    simpl. by destruct abort.
Qed.

(** ** Further properties of the store *)

Lemma seq_fst (a b : Action) (s : Store.t) : ((a >> b) s).1 = (b (a s).1).1.
Proof. unfold seq. destruct (a s) as [s1 l1]. simpl. by destruct (b s1). Qed.

Lemma seq_snd (a b : Action) (s : Store.t) :
  ((a >> b) s).2 = (a s).2 ++ (b (a s).1).2.
Proof. unfold seq. destruct (a s) as [s1 l1]. simpl. by destruct (b s1). Qed.

Lemma previousPath_onRouteChange (env : Env.t) (pathname : string) (s : Store.t) :
  Store.previousPath (onRouteChange env pathname s).1 = Some pathname.
Proof.
  unfold onRouteChange.
  destruct (strict_eq (Store.previousPath s) (Some pathname)) eqn:Heq.
  - by apply strict_eq_true in Heq.
  - by rewrite !seq_fst.
Qed.

(** X1. Once a pathname has been handled, handling the same pathname again
    changes nothing and emits nothing, whatever the router and the asset
    store answer by then. *)
Theorem onRouteChange_same_path_again
    (env env' : Env.t) (pathname : string) (s : Store.t) :
  onRouteChange env' pathname (onRouteChange env pathname s).1
  = ((onRouteChange env pathname s).1, []).
Proof.
  pose proof (previousPath_onRouteChange env pathname s) as Hprev.
  unfold onRouteChange at 1. by rewrite Hprev, strict_eq_refl.
Qed.

(** X2. As soon as the store has seen a non-empty pathname, no navigation
    requests the edit-id index or an activation, resets the displays, or
    touches the index it holds: the requests it may send are the payload and
    the submission. *)
Theorem onRouteChange_keeps_index_and_displays
    (env : Env.t) (pathname p : string) (s : Store.t) :
  Store.previousPath s = Some p ->
  truthy p = true ->
  let r := onRouteChange env pathname s in
  forallb isContextFetch r.2 = true /\
  Store.displays r.1 = Store.displays s /\
  Data.submissionsEditIds (Store.data r.1)
    = Data.submissionsEditIds (Store.data s) /\
  Store.areEditIdsLoaded r.1 = Store.areEditIdsLoaded s.
Proof.
  intros Hprev Htruthy. unfold onRouteChange, previousPathPartsOf.
  rewrite Hprev, Htruthy.
  destruct (strict_eq (Some p) (Some pathname)); [done|].
  destruct (isTabChangeOnly (Some (getProcessingPathParts p))
              (getProcessingPathParts pathname));
    destruct (isContextChange (Some (getProcessingPathParts p))
                (getProcessingPathParts pathname));
    destruct s as [abort pp l1 l2 l3 disp an d]; simpl;
    destruct (strict_eq (PathParts.tab (getProcessingPathParts p))
                (Some "analysis"));
    destruct abort; simpl; repeat split; reflexivity.
Qed.

(** X3. Entering a processing route while the store has no previous pathname
    (none yet, or the empty one), with the asset loaded and activated, sends
    exactly three requests - the submission, the edit-id index for the paths
    of the processing rows, the payload - sets the displays to their defaults,
    empties the data and leaves the store not ready. *)
Theorem onRouteChange_view_entry
    (env : Env.t) (pathname : string) (s : Store.t) :
  previousPathPartsOf s = None ->
  Store.previousPath s <> Some pathname ->
  Env.isAnySingleProcessingRoute env = true ->
  Env.isAssetLoaded env = true ->
  Env.isAssetProcessingActivated env = true ->
  let r := onRouteChange env pathname s in
  List.filter isNetworkCall r.2 =
    [CallGetSubmissionByUuid (Env.currentAssetUid env)
                             (Env.currentSubmissionEditId env);
     CallGetProcessingSubmissions (Env.currentAssetUid env)
                                  (processingRowsPaths env);
     CallGetProcessingData (Env.currentAssetUid env)
                           (Env.currentSubmissionEditId env)] /\
  Store.displays r.1 = getInitialDisplays /\
  isReady env r.1 = false /\
  Data.transcript (Store.data r.1) = None /\
  Data.translations (Store.data r.1) = [] /\
  Data.transcriptDraft (Store.data r.1) = None /\
  Data.translationDraft (Store.data r.1) = None /\
  Data.submissionData (Store.data r.1) = None /\
  Data.submissionsEditIds (Store.data r.1) = None /\
  Data.isPristine (Store.data r.1) = true.
Proof.
  intros Hparts Hne Hroute Hloaded Hactive.
  apply strict_eq_false in Hne.
  unfold onRouteChange, fetchAllInitialDataForAsset, isReady.
  rewrite Hne, Hparts, Hroute, Hloaded, Hactive.
  destruct s as [abort pp l1 l2 l3 disp an d]. simpl.
  destruct abort; simpl; rewrite ?andb_false_r; repeat split; reflexivity.
Qed.

(** X4. While processing is not activated for the asset, starting the store
    up (its initialisation, an asset load, a completed activation) sends no
    request for data: at most the activation is requested.  In particular a
    completed activation that finds the loaded asset still not activated
    requests the activation again. *)
Theorem startup_before_activation
    (env : Env.t) (ev : Event) (s : Store.t) :
  isStartupEvent ev = true ->
  Env.isAssetProcessingActivated env = false ->
  (List.filter isNetworkCall (handle env ev s).2 = [] \/
   List.filter isNetworkCall (handle env ev s).2
     = [CallActivateAsset (Env.currentAssetUid env)]) /\
  (Env.isAssetLoaded env = true ->
   (handle env EvActivateAssetCompleted s).2
     = [CallActivateAsset (Env.currentAssetUid env)]).
Proof.
  intros Hev Hactive. split.
  - destruct ev; try discriminate; simpl;
      unfold init, startupStore, onAssetLoad, onActivateAssetCompleted,
        fetchAllInitialDataForAsset, activateAsset;
      rewrite Hactive; simpl.
    + rewrite seq_snd, seq_snd. simpl.
      destruct (Env.isAnySingleProcessingRoute env);
        destruct (Env.isAssetLoaded env); simpl; auto.
    + destruct (Env.isAnySingleProcessingRoute env &&
                String.eqb (Env.currentAssetUid env) assetUid); simpl; auto.
    + destruct (Env.isAssetLoaded env); simpl; auto.
  - intros Hloaded. simpl.
    unfold onActivateAssetCompleted, fetchAllInitialDataForAsset.
    by rewrite Hloaded, Hactive.
Qed.

(** X5. The abort handle of a payload fetch: a fetch that has started is
    aborted by the next payload fetch; once it has completed, or once any
    call has failed, the next payload fetch aborts nothing; and a payload
    fetch keeps the handle it has invoked, so that a second one, before the
    new request has started, invokes it again. *)
Theorem abort_handle_lifecycle
    (env : Env.t) (abort : AbortHandle) (failure : FailResponse.t + string)
    (response : ProcessingDataResponse) (s : Store.t) :
  let started := (onFetchProcessingDataStarted abort s).1 in
  List.filter isAbort (fetchProcessingData env started).2
    = [InvokeAbort abort] /\
  List.filter isAbort
    (fetchProcessingData env
       (onFetchProcessingDataCompleted env response started).1).2 = [] /\
  List.filter isAbort
    (fetchProcessingData env (onAnyCallFailed failure started).1).2 = [] /\
  Store.abortFetchData (fetchProcessingData env s).1 = Store.abortFetchData s /\
  List.filter isAbort
    (fetchProcessingData env (fetchProcessingData env started).1).2
    = [InvokeAbort abort].
Proof.
  destruct s as [ab pp l1 l2 l3 disp an d].
  repeat split; try reflexivity.
  - unfold onFetchProcessingDataCompleted.
    destruct (isUsableTranscript _); reflexivity.
  - simpl. by destruct ab.
Qed.

Lemma flags_onGetSubmissionByUuidCompleted
    (response : SubmissionResponse) (s : Store.t) :
  let s' := (onGetSubmissionByUuidCompleted response s).1 in
  Store.areEditIdsLoaded s' = Store.areEditIdsLoaded s /\
  Store.isSubmissionLoaded s' = true /\
  Store.isProcessingDataLoaded s' = Store.isProcessingDataLoaded s.
Proof. by destruct s. Qed.

Lemma flags_onFetchProcessingDataCompleted
    (env : Env.t) (response : ProcessingDataResponse) (s : Store.t) :
  let s' := (onFetchProcessingDataCompleted env response s).1 in
  Store.areEditIdsLoaded s' = Store.areEditIdsLoaded s /\
  Store.isSubmissionLoaded s' = Store.isSubmissionLoaded s /\
  Store.isProcessingDataLoaded s' = true.
Proof.
  destruct s. unfold onFetchProcessingDataCompleted.
  by destruct (isUsableTranscript _).
Qed.

Lemma flags_context_change (env : Env.t) (s : Store.t) :
  let s' := ((fetchProcessingData env >> fetchSubmissionData env) s).1 in
  Store.areEditIdsLoaded s' = Store.areEditIdsLoaded s /\
  Store.isSubmissionLoaded s' = false /\
  Store.isProcessingDataLoaded s' = false.
Proof. destruct s as [[abort|] ? ? ? ? ? ? ?]; by simpl. Qed.

(** X6. A store that has recorded a non-empty previous pathname is not ready
    after a navigation from that path to another question or submission of
    the same asset, and it stays so while only the submission or only the
    payload has arrived; when both have arrived, in either order, it is ready
    exactly when processing is activated and the edit-id index had been
    loaded before the navigation. *)
Theorem context_change_not_ready_until_loaded
    (env env' envP : Env.t) (pathname p : string) (s : Store.t)
    (submission : SubmissionResponse) (payload : ProcessingDataResponse) :
  Store.previousPath s = Some p ->
  truthy p = true ->
  PathParts.assetUid (getProcessingPathParts p)
    = PathParts.assetUid (getProcessingPathParts pathname) ->
  (PathParts.qpath (getProcessingPathParts p)
     <> PathParts.qpath (getProcessingPathParts pathname) \/
   PathParts.submissionEditId (getProcessingPathParts p)
     <> PathParts.submissionEditId (getProcessingPathParts pathname)) ->
  let s1 := (onRouteChange env pathname s).1 in
  let gotSubmission := (onGetSubmissionByUuidCompleted submission s1).1 in
  let gotPayload := (onFetchProcessingDataCompleted envP payload s1).1 in
  isReady env' s1 = false /\
  isReady env' gotSubmission = false /\
  isReady env' gotPayload = false /\
  isReady env' (onFetchProcessingDataCompleted envP payload gotSubmission).1
    = Env.isAssetProcessingActivated env' && Store.areEditIdsLoaded s /\
  isReady env' (onGetSubmissionByUuidCompleted submission gotPayload).1
    = Env.isAssetProcessingActivated env' && Store.areEditIdsLoaded s.
Proof.
  intros Hprev Htruthy Hasset Hdiff.
  assert (Hne : strict_eq (Store.previousPath s) (Some pathname) = false).
  { apply strict_eq_false. rewrite Hprev. intros [= ->]. by destruct Hdiff. }
  assert (Hctx : isContextChange (Some (getProcessingPathParts p))
                   (getProcessingPathParts pathname) = true).
  { simpl. rewrite Hasset, strict_eq_refl. simpl.
    destruct Hdiff as [H | H]; apply strict_eq_false in H; rewrite H;
      [done | by rewrite orb_true_r]. }
  assert (Htab : isTabChangeOnly (Some (getProcessingPathParts p))
                   (getProcessingPathParts pathname) = false).
  { simpl. destruct Hdiff as [H | H]; apply strict_eq_false in H; rewrite H;
      by rewrite ?andb_false_r. }
  assert (Hflags :
            Store.areEditIdsLoaded (onRouteChange env pathname s).1
              = Store.areEditIdsLoaded s /\
            Store.isSubmissionLoaded (onRouteChange env pathname s).1 = false /\
            Store.isProcessingDataLoaded (onRouteChange env pathname s).1
              = false).
  { unfold onRouteChange, previousPathPartsOf.
    rewrite Hne, Hprev, Htruthy, Hctx, Htab.
    destruct s as [abort pp l1 l2 l3 disp an d]. simpl.
    destruct (strict_eq (PathParts.tab (getProcessingPathParts p))
                (Some "analysis")); destruct abort; by simpl. }
  destruct Hflags as (He & Hs & Hp). cbv zeta.
  generalize dependent (onRouteChange env pathname s).1. intros s1 He Hs Hp.
  pose proof (flags_onGetSubmissionByUuidCompleted submission s1)
    as (He1 & Hs1 & Hp1).
  pose proof (flags_onFetchProcessingDataCompleted envP payload s1)
    as (He2 & Hs2 & Hp2).
  pose proof (flags_onFetchProcessingDataCompleted envP payload
                (onGetSubmissionByUuidCompleted submission s1).1)
    as (He3 & Hs3 & Hp3).
  pose proof (flags_onGetSubmissionByUuidCompleted submission
                (onFetchProcessingDataCompleted envP payload s1).1)
    as (He4 & Hs4 & Hp4).
  unfold isReady.
  rewrite He3, Hs3, Hp3, He4, Hs4, Hp4, He1, Hs1, Hp1, He2, Hs2, Hp2, He, Hs, Hp.
  repeat split; by rewrite ?andb_false_r, ?andb_true_r.
Qed.

(** X7. When an automatic translation arrives, either the translation draft
    is left as it was, or the response has a result for the current question
    whose language is the language or the region of the draft, and then the
    draft has the result's value.  In both cases the fetching flag is off and
    the store is no longer pristine. *)
Theorem onRequestAutoTranslationCompleted_only_if_matching
    (env : Env.t) (response : ProcessingDataResponse) (s : Store.t) :
  let s' := (onRequestAutoTranslationCompleted env response s).1 in
  (Data.translationDraft (Store.data s')
     = Data.translationDraft (Store.data s) \/
   exists r draft,
     googleTxOf env response = Some r /\
     Data.translationDraft (Store.data s) = Some draft /\
     (TransxDraft.languageCode draft = Some (GoogleResponse.languageCode r) \/
      TransxDraft.regionCode draft = Defined (GoogleResponse.languageCode r)) /\
     Data.translationDraft (Store.data s')
       = Some (TransxDraft.set_value (GoogleResponse.value r) draft)) /\
  Data.isFetchingData (Store.data s') = false /\
  Data.isPristine (Store.data s') = false /\
  Data.translations (Store.data s') = Data.translations (Store.data s).
Proof.
  unfold onRequestAutoTranslationCompleted, googleTxOf.
  destruct s as [abort pp l1 l2 l3 disp an d].
  destruct d as [tr draft trs tdraft src sub ids pristine fetching polling].
  destruct (response !! Env.currentQuestionQpath env ≫= QuestionData.googletx)
    as [r|]; [destruct tdraft as [tdraft|]|].
  - unfold seq. simpl.
    destruct (matchesDraft r tdraft) eqn:Hm; simpl.
    + apply matchesDraft_true in Hm. split; [|by destruct pristine].
      right. exists r, tdraft. by destruct pristine.
    + split; [left|]; by destruct pristine.
  - split; [left|]; by destruct pristine.
  - split; [left|]; by destruct pristine.
Qed.

Lemma isAutoTranscriptionEventApplicable_iff
    (env : Env.t) (event : AutoTranscriptionEvent.t) (s : Store.t) :
  isAutoTranscriptionEventApplicable env event s = true <->
  StillApplies env event s.
Proof.
  unfold isAutoTranscriptionEventApplicable, StillApplies, googleTsOf.
  rewrite andb_true_iff, String.eqb_eq.
  destruct (AutoTranscriptionEvent.response event !! Env.currentQuestionQpath env
              ≫= QuestionData.googlets) as [r|];
    destruct (Data.transcriptDraft (Store.data s)) as [draft|].
  - rewrite matchesDraft_true. split.
    + intros [Hid Hm]. split; [done|]. by exists r, draft.
    + intros [Hid (r' & d' & [= <-] & [= <-] & Hm)]. by split.
  - split; [by intros [_ ?] | by intros [_ (r' & d' & _ & ? & _)]].
  - split; [by intros [_ ?] | by intros [_ (r' & d' & ? & _)]].
  - split; [by intros [_ ?] | by intros [_ (r' & d' & ? & _)]].
Qed.

(** X8. When the timer of the polling fires: if the event still applies, the
    automatic transcription is requested again for the current route with the
    language and the region of the draft, and the store is polling; if it
    does not, nothing is requested or notified and the store is not polling.
    The draft is not touched in either case. *)
Theorem onAutoTranscriptionTimeout_requests_iff_applicable
    (env : Env.t) (event : AutoTranscriptionEvent.t) (s : Store.t) :
  let r := onAutoTranscriptionTimeout env event s in
  (StillApplies env event s ->
   (exists draft,
       Data.transcriptDraft (Store.data s) = Some draft /\
       r.2 = [CallRequestAutoTranscription
                (Env.currentAssetUid env) (Env.currentQuestionQpath env)
                (Env.currentSubmissionEditId env)
                (TransxDraft.languageCode draft) (TransxDraft.regionCode draft);
              Trigger TData]) /\
   Data.isPollingForTranscript (Store.data r.1) = true) /\
  (~ StillApplies env event s ->
   r.2 = [] /\ Data.isPollingForTranscript (Store.data r.1) = false) /\
  Data.transcriptDraft (Store.data r.1) = Data.transcriptDraft (Store.data s).
Proof.
  pose proof (isAutoTranscriptionEventApplicable_iff env event s) as Hiff.
  unfold onAutoTranscriptionTimeout.
  destruct (isAutoTranscriptionEventApplicable env event s).
  - assert (Happ : StillApplies env event s) by by apply Hiff.
    destruct Happ as [_ (r0 & draft & _ & Hdraft & _)].
    destruct s as [abort pp l1 l2 l3 disp an d].
    destruct d as [tr dr trs tdraft src sub ids pristine fetching polling].
    simpl in Hdraft. subst dr. split; [|split].
    + intros _. split; [by exists draft | done].
    + intros Hnot. destruct Hnot. by apply Hiff.
    + done.
  - destruct s as [abort pp l1 l2 l3 disp an d].
    destruct d as [tr dr trs tdraft src sub ids pristine fetching polling].
    split; [|split].
    + intros Happ. apply Hiff in Happ. discriminate.
    + done.
    + done.
Qed.

(** X9. Right after a payload fetch has been issued, a completed automatic
    transcription and a polling timer that arrive late change nothing and
    emit nothing, whatever they carry and whatever the route is by then. *)
Theorem late_transcription_events_ignored
    (env env' : Env.t) (event : AutoTranscriptionEvent.t) (s : Store.t) :
  let s1 := (fetchProcessingData env s).1 in
  onRequestAutoTranscriptionCompleted env' event s1 = (s1, []) /\
  onAutoTranscriptionTimeout env' event s1 = (s1, []).
Proof.
  destruct s as [[abort|] pp l1 l2 l3 disp an d]; simpl;
    unfold onRequestAutoTranscriptionCompleted, onAutoTranscriptionTimeout,
      isAutoTranscriptionEventApplicable; simpl;
    rewrite !orb_true_r;
    (split; [reflexivity|]);
    destruct (_ ≫= _); by rewrite ?andb_false_r.
Qed.

(** X10. A completed [setTranscript] whose response has no transcript for the
    current question keeps the persisted transcript it had, and still
    discards the draft and marks the store as changed. *)
Theorem onSetTranscriptCompleted_without_transcript
    (env : Env.t) (response : ProcessingDataResponse) (s : Store.t) :
  response !! Env.currentQuestionQpath env ≫= QuestionData.transcript = None ->
  let s' := (onSetTranscriptCompleted env response s).1 in
  Data.transcript (Store.data s') = Data.transcript (Store.data s) /\
  Data.transcriptDraft (Store.data s') = None /\
  Data.isPristine (Store.data s') = false /\
  Data.isFetchingData (Store.data s') = false.
Proof.
  intros Hnone. unfold onSetTranscriptCompleted. rewrite Hnone.
  destruct s as [abort pp l1 l2 l3 disp an d].
  destruct d as [tr dr trs tdraft src sub ids pristine fetching polling].
  by destruct pristine.
Qed.

(** X11. A completed [deleteTranscript] removes the persisted transcript and
    leaves the transcript draft alone, so afterwards the draft counts as
    unsaved exactly when it has a value. *)
Theorem onDeleteTranscriptCompleted_keeps_draft (s : Store.t) :
  let s' := (onDeleteTranscriptCompleted s).1 in
  Data.transcript (Store.data s') = None /\
  Data.transcriptDraft (Store.data s') = Data.transcriptDraft (Store.data s) /\
  (hasUnsavedTranscriptDraftValue s' = true <->
   exists draft v,
     Data.transcriptDraft (Store.data s) = Some draft /\
     TransxDraft.value draft = Some v).
Proof.
  destruct s as [abort pp l1 l2 l3 disp an d].
  destruct d as [tr dr trs tdraft src sub ids pristine fetching polling].
  assert (Hs : Data.transcript
                 (Store.data
                    (onDeleteTranscriptCompleted
                       (Store.mk abort pp l1 l2 l3 disp an
                          (Data.mk tr dr trs tdraft src sub ids pristine
                             fetching polling))).1) = None /\
               Data.transcriptDraft
                 (Store.data
                    (onDeleteTranscriptCompleted
                       (Store.mk abort pp l1 l2 l3 disp an
                          (Data.mk tr dr trs tdraft src sub ids pristine
                             fetching polling))).1) = dr)
    by (by destruct pristine).
  destruct Hs as [Htr Hdr]. cbv zeta. split; [done|]. split; [done|].
  rewrite hasUnsavedTranscriptDraftValue_iff.
  unfold getTranscriptDraft, getTranscript. rewrite Htr, Hdr. simpl.
  split.
  - intros (draft & v & ? & ? & _). by exists draft, v.
  - intros (draft & v & ? & ?). exists draft, v. by repeat split.
Qed.

(** *** The edit-id index *)

Lemma emptyLists_lookup (rows : list string) (ids : SubmissionsEditIds)
    (q : string) :
  fold_left (fun ids qpath => <[qpath := []]> ids) rows ids !! q
  = if decide (q ∈ rows) then Some [] else ids !! q.
Proof.
  revert ids. induction rows as [|r rows IH]; intros ids; cbn [fold_left].
  - by rewrite decide_False by apply not_elem_of_nil.
  - rewrite IH. destruct (decide (q ∈ rows)) as [Hin | Hnin].
    + by rewrite decide_True by by apply list_elem_of_further.
    + rewrite lookup_insert. destruct (decide (r = q)) as [-> | Hne].
      * by rewrite decide_True by apply list_elem_of_here.
      * rewrite decide_False; [done|].
        intros [-> | Hin]%elem_of_cons; done.
Qed.

Lemma pushEntries_lookup (env : Env.t) (flatPaths : gmap string string)
    (result : SubmissionResponse) (rows : list string)
    (ids : SubmissionsEditIds) (q : string) :
  NoDup rows ->
  fold_left
    (fun ids qpath =>
       let rowName := Env.getRowNameByQpath env qpath in
       if truthy_opt rowName then
         alter (fun l => l ++ [indexEntry flatPaths rowName result]) qpath ids
       else ids)
    rows ids !! q
  = if decide (q ∈ rows) then
      if truthy_opt (Env.getRowNameByQpath env q) then
        (fun l => l ++ [indexEntry flatPaths (Env.getRowNameByQpath env q) result])
          <$> ids !! q
      else ids !! q
    else ids !! q.
Proof.
  revert ids. induction rows as [|r rows IH]; intros ids Hnd; cbn [fold_left].
  - by rewrite decide_False by apply not_elem_of_nil.
  - apply NoDup_cons in Hnd as [Hnotin Hnd]. rewrite IH by done.
    destruct (decide (q = r)) as [-> | Hne].
    + rewrite (decide_False (P := r ∈ rows)) by done.
      rewrite decide_True by apply list_elem_of_here.
      destruct (truthy_opt (Env.getRowNameByQpath env r)); [|done].
      by rewrite lookup_alter_eq.
    + assert (Hother :
                (if truthy_opt (Env.getRowNameByQpath env r) then
                   alter (fun l =>
                            l ++ [indexEntry flatPaths
                                    (Env.getRowNameByQpath env r) result])
                         r ids
                 else ids) !! q = ids !! q).
      { destruct (truthy_opt (Env.getRowNameByQpath env r)); [|done].
        by rewrite lookup_alter_ne. }
      rewrite Hother.
      destruct (decide (q ∈ rows)) as [Hin | Hnin].
      * by rewrite decide_True by by apply list_elem_of_further.
      * rewrite decide_False; [done|].
        intros [-> | Hin]%elem_of_cons; done.
Qed.

Lemma allEntries_lookup (env : Env.t) (flatPaths : gmap string string)
    (rows : list string) (results : list SubmissionResponse)
    (ids : SubmissionsEditIds) (q : string) :
  NoDup rows ->
  fold_left
    (fun ids result =>
       fold_left
         (fun ids qpath =>
            let rowName := Env.getRowNameByQpath env qpath in
            if truthy_opt rowName then
              alter (fun l => l ++ [indexEntry flatPaths rowName result])
                    qpath ids
            else ids)
         rows ids)
    results ids !! q
  = if decide (q ∈ rows) then
      if truthy_opt (Env.getRowNameByQpath env q) then
        (fun l =>
           l ++ map (indexEntry flatPaths (Env.getRowNameByQpath env q)) results)
          <$> ids !! q
      else ids !! q
    else ids !! q.
Proof.
  intros Hnd. revert ids.
  induction results as [|result results IH]; intros ids; simpl.
  - destruct (decide (q ∈ rows)); [|done].
    destruct (truthy_opt _); [|done].
    destruct (ids !! q); simpl; [by rewrite app_nil_r | done].
  - rewrite IH, pushEntries_lookup by done.
    destruct (decide (q ∈ rows)); [|done].
    destruct (truthy_opt _); [|done].
    destruct (ids !! q); simpl; [by rewrite <- app_assoc | done].
Qed.

(** X12. The edit-id index built from the submissions of a project, when the
    asset has a survey and its processing rows are distinct: a question path
    that is not a processing row has no list; a processing row whose row has
    no name has the empty list; and a processing row whose row has a name has
    one entry for every submission, in the order of the response, with the
    [meta/rootUuid] of the submission as edit id ([_uuid] when there is none)
    and [hasResponse] telling whether the flat path of the row is a key of
    the submission. *)
Theorem buildSubmissionsEditIds_lookup
    (env : Env.t) (results : list SubmissionResponse)
    (flatPaths : gmap string string) (rows : list string) (qpath : string) :
  Env.surveyFlatPaths env = Some flatPaths ->
  Env.processingRows env = Some rows ->
  NoDup rows ->
  (qpath ∉ rows -> buildSubmissionsEditIds env results !! qpath = None) /\
  (qpath ∈ rows ->
   truthy_opt (Env.getRowNameByQpath env qpath) = false ->
   buildSubmissionsEditIds env results !! qpath = Some []) /\
  (qpath ∈ rows ->
   truthy_opt (Env.getRowNameByQpath env qpath) = true ->
   buildSubmissionsEditIds env results !! qpath
   = Some (map (indexEntry flatPaths (Env.getRowNameByQpath env qpath))
               results)).
Proof.
  intros Hsurvey Hrows Hnd.
  assert (Hlookup :
            buildSubmissionsEditIds env results !! qpath
            = if decide (qpath ∈ rows) then
                if truthy_opt (Env.getRowNameByQpath env qpath) then
                  Some (map (indexEntry flatPaths
                               (Env.getRowNameByQpath env qpath)) results)
                else Some []
              else None).
  { unfold buildSubmissionsEditIds. rewrite Hsurvey, Hrows.
    rewrite (allEntries_lookup env flatPaths rows results _ qpath Hnd).
    rewrite emptyLists_lookup, lookup_empty.
    destruct (decide (qpath ∈ rows)); [|done].
    by destruct (truthy_opt _). }
  rewrite Hlookup. repeat split.
  - intros Hnin. by rewrite decide_False.
  - intros Hin Hname. by rewrite decide_True, Hname.
  - intros Hin Hname. by rewrite decide_True, Hname.
Qed.

(** X13. Without a survey in the asset, or without processing rows, the index
    that a completed edit-id fetch stores is empty, whatever the submissions
    are; the store counts it as loaded all the same; and reading the list of
    the current question gives no list: it gives [undefined], or, for a
    question path that is the name of a member every object inherits, that
    member. *)
Theorem onGetProcessingSubmissionsCompleted_without_rows
    (env : Env.t) (results : list SubmissionResponse) (s : Store.t) :
  Env.surveyFlatPaths env = None \/ Env.processingRows env = None ->
  let s' := (onGetProcessingSubmissionsCompleted env results s).1 in
  Data.submissionsEditIds (Store.data s') = Some ∅ /\
  Store.areEditIdsLoaded s' = true /\
  getCurrentQuestionSubmissionsEditIds env s'
  = if includes (Env.currentQuestionQpath env) objectPrototypeMembers
    then Inherited (Env.currentQuestionQpath env) else NoMember.
Proof.
  intros Hnone.
  assert (Hempty : buildSubmissionsEditIds env results = ∅).
  { unfold buildSubmissionsEditIds.
    destruct Hnone as [-> | ->]; [done|]. by destruct (Env.surveyFlatPaths env). }
  destruct s as [abort pp l1 l2 l3 disp an d].
  unfold onGetProcessingSubmissionsCompleted, getCurrentQuestionSubmissionsEditIds.
  simpl. rewrite Hempty. unfold member. by rewrite lookup_empty.
Qed.

Lemma includes_true (x : string) (l : list string) :
  includes x l = true <-> In x l.
Proof.
  unfold includes. rewrite existsb_exists. split.
  - intros (y & Hin & Heq). apply String.eqb_eq in Heq. by subst.
  - intros Hin. exists x. by rewrite String.eqb_refl.
Qed.

Lemma truthy_member_true (own : gmap string string) (key : string)
    (m : Member string) :
  member own key = m -> truthy_member m = true ->
  (exists p, own !! key = Some p /\ p <> "" /\ m = Own p) \/
  (own !! key = None /\ In key objectPrototypeMembers /\ m = Inherited key).
Proof.
  unfold member. destruct (own !! key) as [p|].
  - intros <- Ht. left. exists p. apply truthy_true in Ht. by repeat split.
  - destruct (includes key objectPrototypeMembers) eqn:Hinc.
    + intros <- _. right. apply includes_true in Hinc. by repeat split.
    + by intros <-.
Qed.

Lemma processingRowsPaths_loop (env : Env.t) (flatPaths : gmap string string)
    (rows : list string) (acc : list (Member string)) (m : Member string) :
  In m (fold_left
          (fun paths qpath =>
             match Env.getRowNameByQpath env qpath with
             | Some rowName =>
                 if truthy rowName && truthy_member (member flatPaths rowName)
                 then paths ++ [member flatPaths rowName]
                 else paths
             | None => paths
             end)
          rows acc) <->
  In m acc \/
  exists qpath name,
    In qpath rows /\
    Env.getRowNameByQpath env qpath = Some name /\ name <> "" /\
    ((exists p, flatPaths !! name = Some p /\ p <> "" /\ m = Own p) \/
     (flatPaths !! name = None /\ In name objectPrototypeMembers /\
      m = Inherited name)).
Proof.
  revert acc. induction rows as [|r rows IH]; intros acc; cbn [fold_left].
  - split; [by left | by intros [? | (? & ? & [] & _)]].
  - rewrite IH. clear IH. split.
    + intros [Hacc | (q & n & Hin & Hq)].
      * destruct (Env.getRowNameByQpath env r) as [name|] eqn:Hname;
          [|by left].
        destruct (truthy name) eqn:Htn; [|by left].
        destruct (truthy_member (member flatPaths name)) eqn:Htm; [|by left].
        simpl in Hacc. apply in_app_iff in Hacc as [Hacc | [<- | []]];
          [by left|].
        right. exists r, name. apply truthy_true in Htn.
        split; [by left|]. split; [done|]. split; [done|].
        by apply (truthy_member_true flatPaths name).
      * right. exists q, n. by split; [right|].
    + intros [Hacc | (q & n & [<- | Hin] & Hn & Hne & Hm)].
      * left. destruct (Env.getRowNameByQpath env r) as [name|]; [|done].
        destruct (truthy name && truthy_member (member flatPaths name));
          [|done].
        apply in_app_iff. by left.
      * left. rewrite Hn. apply truthy_true in Hne. rewrite Hne.
        assert (Hmember : member flatPaths n = m /\ truthy_member m = true).
        { unfold member.
          destruct Hm as [(p & -> & Hp & ->) | (-> & Hin & ->)].
          - apply truthy_true in Hp. by split.
          - apply includes_true in Hin. by rewrite Hin. }
        destruct Hmember as [Hmem Htm]. rewrite Hmem, Htm. simpl.
        apply in_app_iff. right. by left.
      * right. by exists q, n.
Qed.

(** X14. What the edit-id fetch asks for, for each processing row that has a
    non-empty row name: the flat path of that name when the survey has one
    and it is not empty; and, when the survey has no flat path of that name
    but the name is one of the members every object inherits, that inherited
    member.  Nothing else is asked for: never the empty path, and nothing
    without a survey or without processing rows. *)
Theorem processingRowsPaths_spec (env : Env.t) (m : Member string) :
  In m (processingRowsPaths env) <->
  exists flatPaths rows qpath name,
    Env.surveyFlatPaths env = Some flatPaths /\
    Env.processingRows env = Some rows /\
    In qpath rows /\
    Env.getRowNameByQpath env qpath = Some name /\ name <> "" /\
    ((exists p, flatPaths !! name = Some p /\ p <> "" /\ m = Own p) \/
     (flatPaths !! name = None /\ In name objectPrototypeMembers /\
      m = Inherited name)).
Proof.
  unfold processingRowsPaths.
  destruct (Env.surveyFlatPaths env) as [flatPaths|];
    [destruct (Env.processingRows env) as [rows|]|].
  - rewrite processingRowsPaths_loop. split.
    + intros [[] | (q & n & H)]. by exists flatPaths, rows, q, n.
    + intros (f & r & q & n & [= <-] & [= <-] & H). right. by exists q, n.
  - split; [done | by intros (? & ? & ? & ? & _ & ? & _)].
  - split; [done | by intros (? & ? & ? & ? & ? & _)].
Qed.

(** *** Displays and sources *)

Lemma fold_left_push {A B} (f : A -> B) (l : list A) (acc : list B) :
  fold_left (fun acc x => acc ++ [f x]) l acc = acc ++ map f l.
Proof.
  revert acc. induction l as [|x l IH]; intros acc; simpl.
  - by rewrite app_nil_r.
  - by rewrite IH, <- app_assoc.
Qed.

Lemma fold_left_push_if {A B} (c : A -> bool) (f : A -> B) (l : list A)
    (acc : list B) :
  fold_left (fun acc x => if c x then acc ++ [f x] else acc) l acc
  = acc ++ map f (List.filter c l).
Proof.
  revert acc. induction l as [|x l IH]; intros acc; simpl.
  - by rewrite app_nil_r.
  - rewrite IH. destruct (c x); simpl; [by rewrite <- app_assoc | done].
Qed.

Lemma getAvailableDisplays_eq (tab : ProcessingTabName) (s : Store.t) :
  getAvailableDisplays tab s
  = staticDisplaysOf tab ++ map Transx.languageCode (getTranslations s).
Proof.
  unfold getAvailableDisplays. rewrite fold_left_push. by destruct tab.
Qed.

(** X15. A display is available on a tab exactly when it is [Audio] or
    [Data], or [Transcript] on a tab other than the transcript tab, or the
    language code of a persisted translation. *)
Theorem getAvailableDisplays_spec
    (tab : ProcessingTabName) (s : Store.t) (display : string) :
  includes display (getAvailableDisplays tab s) = true <->
  display = "Audio" \/ display = "Data" \/
  (tab <> TabTranscript /\ display = "Transcript") \/
  exists translation,
    In translation (getTranslations s) /\
    Transx.languageCode translation = display.
Proof.
  rewrite includes_true, getAvailableDisplays_eq, in_app_iff, in_map_iff.
  split.
  - intros [Hstatic | (tr & Hcode & Hin)].
    + destruct tab; simpl in Hstatic;
        destruct Hstatic as [<- | [<- | Hrest]]; auto;
        try (destruct Hrest as [<- | []]; right; right; left; by split);
        by destruct Hrest.
    + right. right. right. by exists tr.
  - intros [-> | [-> | [[Htab ->] | (tr & Hin & Hcode)]]].
    + left. destruct tab; simpl; auto.
    + left. destruct tab; simpl; auto.
    + left. destruct tab; simpl; auto.
    + right. by exists tr.
Qed.

(** X16. After the displays of a tab are reset, every active display of that
    tab is available on it, whatever the translations are, and the displays
    of the other tabs are the ones they were. *)
Theorem resetDisplays_available
    (tab tab' : ProcessingTabName) (s : Store.t) (display : string) :
  let s' := (resetDisplays tab s).1 in
  (In display (getDisplays (Some tab) s') ->
   includes display (getAvailableDisplays tab s') = true) /\
  (tab' <> tab -> getDisplays (Some tab') s' = getDisplays (Some tab') s).
Proof.
  split.
  - intros Hin. apply includes_true. rewrite getAvailableDisplays_eq.
    apply in_app_iff. left.
    destruct s as [abort pp l1 l2 l3 [d1 d2 d3] an d].
    destruct tab; exact Hin.
  - intros Hne. destruct s as [abort pp l1 l2 l3 [d1 d2 d3] an d].
    by destruct tab, tab'.
Qed.

(** X17. The displays of a tab are read back as they were set, whether they
    are available or not; setting them leaves the other tabs and the data
    alone; and for no tab the displays are the empty list. *)
Theorem setDisplays_getDisplays
    (tab tab' : ProcessingTabName) (displays : DisplaysList) (s : Store.t) :
  let s' := (setDisplays tab displays s).1 in
  getDisplays (Some tab) s' = displays /\
  (tab' <> tab -> getDisplays (Some tab') s' = getDisplays (Some tab') s) /\
  Store.data s' = Store.data s /\
  getDisplays None s' = [].
Proof.
  destruct s as [abort pp l1 l2 l3 [d1 d2 d3] an d].
  repeat split; try by destruct tab.
  intros Hne. by destruct tab, tab'.
Qed.

(** X18. The sources offered for a translation are the language code of the
    persisted transcript, when it is not empty, and the language codes of the
    persisted translations other than the one of the translation draft; the
    transcript's code is offered even when it is the draft's. *)
Theorem getSources_spec (s : Store.t) (code : string) :
  In code (getSources s) <->
  (exists transcript,
      getTranscript s = Some transcript /\
      Transx.languageCode transcript = code /\ code <> "") \/
  (exists translation,
      In translation (getTranslations s) /\
      Transx.languageCode translation = code /\
      getTranslationDraft s ≫= TransxDraft.languageCode <> Some code).
Proof.
  unfold getSources, getTranscript, getTranslations, getTranslationDraft.
  rewrite (fold_left_push_if
             (fun translation =>
                negb (strict_eq (Some (Transx.languageCode translation))
                        (Data.translationDraft (Store.data s)
                           ≫= TransxDraft.languageCode)))
             Transx.languageCode).
  rewrite in_app_iff, in_map_iff. split.
  - intros [Htr | (tr & Hcode & Hin)].
    + left. destruct (Data.transcript (Store.data s)) as [tr|]; [|done].
      destruct (truthy (Transx.languageCode tr)) eqn:Ht; [|done].
      destruct Htr as [<- | []]. exists tr. apply truthy_true in Ht.
      by repeat split.
    + right. apply filter_In in Hin as [Hin Hc]. exists tr.
      apply negb_true_iff, strict_eq_false in Hc. repeat split; [done..|].
      rewrite <- Hcode. intros Heq. apply Hc. symmetry. exact Heq.
  - intros [(tr & -> & <- & Hne) | (tr & Hin & <- & Hne)].
    + left. apply truthy_true in Hne. rewrite Hne. by left.
    + right. exists tr. split; [done|]. apply filter_In. split; [done|].
      apply negb_true_iff, strict_eq_false. intros Heq. apply Hne.
      symmetry. exact Heq.
Qed.

(** *** The fetch wrapper *)

Lemma prefix_append (a b : string) : String.prefix a (a +:+ b) = true.
Proof.
  induction a as [|c a IH]; simpl.
  - by destruct b.
  - rewrite IH. by destruct (Ascii.ascii_dec c c).
Qed.

Lemma prefix_refl (a : string) : String.prefix a a = true.
Proof.
  induction a as [|c a IH]; simpl; [done|].
  by destruct (Ascii.ascii_dec c c).
Qed.

Lemma isNotifiedStatus_true (status : Z) :
  isNotifiedStatus status = true <-> NotifiedStatus status.
Proof.
  unfold isNotifiedStatus, NotifiedStatus.
  rewrite !orb_true_iff, !Z.eqb_eq, Z.leb_le. split.
  - intros [[[H | H] | H] | H]; [by left | by right; left |
                                 by right; right; left | by right; right; right].
  - intros [H | [H | [H | H]]]; [by left; left; left | by left; left; right |
                                 by left; right | by right].
Qed.

Lemma isAborted_test (response : FailResponse.t) :
  (FailResponse.status response =? 0)%Z &&
  String.eqb (FailResponse.statusText response) "abort" = true
  <-> isAborted response.
Proof.
  unfold isAborted. by rewrite andb_true_iff, Z.eqb_eq, String.eqb_eq.
Qed.

(** X19. [handleApiFail] stays silent exactly for the failure of a request
    aborted on purpose (status 0 with the status text [abort]); for every
    other failure it shows exactly one toast, before anything else, and
    sends one capture to Raven exactly when Raven is there. *)
Theorem handleApiFail_silent_iff_aborted
    (onLine hasRaven : bool) (response : FailResponse.t)
    (toastMessage : option string) :
  let effects := handleApiFail onLine hasRaven response toastMessage in
  (effects = [] <-> isAborted response) /\
  (~ isAborted response ->
   exists message,
     List.filter isUserNotification effects = [NotifyError message] /\
     hd_error effects = Some (NotifyError message) /\
     length (List.filter isRavenCapture effects)
       = if hasRaven then 1%nat else 0%nat).
Proof.
  pose proof (isAborted_test response) as Htest.
  unfold handleApiFail.
  destruct ((FailResponse.status response =? 0)%Z &&
            String.eqb (FailResponse.statusText response) "abort").
  - split; [split; [intros _; by apply Htest | done]|].
    intros Hnot. destruct Hnot. by apply Htest.
  - split.
    + split; [done|]. intros Hab. apply Htest in Hab. discriminate.
    + intros _. eexists. split; [|split]; [|reflexivity|];
        by destruct hasRaven.
Qed.

(** X20. With a non-empty [toastMessage], the one toast of every failure that
    is not an abort starts with that message, whatever the response says,
    online or not and with or without Raven; and when the response has a
    non-empty text that is not an HTML document, what Raven receives, if it
    is there, is that text and not the toast. *)
Theorem handleApiFail_toast_override
    (onLine hasRaven : bool) (response : FailResponse.t) (toast : string) :
  ~ isAborted response ->
  truthy toast = true ->
  let effects := handleApiFail onLine hasRaven response (Some toast) in
  (exists message,
      List.filter isUserNotification effects = [NotifyError (Some message)] /\
      String.prefix toast message = true) /\
  (forall text,
      FailResponse.responseText response = Some text ->
      truthy text = true ->
      isHtml text = false ->
      List.filter isRavenCapture effects
      = if hasRaven then [RavenCapture (Some text)] else []).
Proof.
  intros Hnot Htoast.
  pose proof (isAborted_test response) as Htest.
  unfold handleApiFail.
  destruct ((FailResponse.status response =? 0)%Z &&
            String.eqb (FailResponse.statusText response) "abort");
    [destruct Hnot; by apply Htest|].
  simpl. rewrite Htoast. simpl. split.
  - destruct (negb (FailResponse.status response =? 0)%Z ||
              truthy (FailResponse.statusText response));
      [|destruct (negb onLine)];
      eexists; (split; [by destruct hasRaven|]);
      first [apply prefix_append | apply prefix_refl].
  - intros text Htext Htruthy Hhtml. unfold isHtml in Hhtml.
    rewrite Htext, Hhtml. destruct hasRaven; [|done].
    simpl. unfold or_opt. simpl. by rewrite Htruthy.
Qed.

Lemma handleApiFail_one_toast (onLine hasRaven : bool)
    (response : FailResponse.t) (toastMessage : option string) :
  FailResponse.status response <> 0%Z ->
  length (List.filter isUserNotification
            (handleApiFail onLine hasRaven response toastMessage)) = 1%nat.
Proof.
  intros Hstatus. unfold handleApiFail.
  apply Z.eqb_neq in Hstatus. rewrite Hstatus. simpl. by destruct hasRaven.
Qed.

Lemma NotifiedStatus_nonzero (status : Z) : NotifiedStatus status -> status <> 0%Z.
Proof. unfold NotifiedStatus. lia. Qed.

(** X21. [fetchData] on a response that is not ok always rejects with a
    failure that carries the status and the status text of the response.  It
    shows one toast when the status is 401, 403, 404 or at least 500 and
    [notifyAboutError] is left out of the options, or there are no options,
    or it is [true].  It shows nothing when the status is another one, and
    nothing when [notifyAboutError] is [false] or is written in the options
    with the value [undefined].  On a response that is ok it shows
    nothing. *)
Theorem fetchData_notification_policy
    (page : Page.t) (fetch : Request.t -> HttpResponse.t) (path : string)
    (method : FetchHttpMethod) (data : option Json)
    (options : option FetchDataOptions.t) :
  let response := fetch (requestOf page path method data options) in
  let r := fetchData page fetch path method data options in
  let notifyAboutError := ownOf options FetchDataOptions.notifyAboutError in
  (HttpResponse.ok response = true -> r.2 = []) /\
  (HttpResponse.ok response = false ->
   (exists failResponse,
       r.1 = Rejected failResponse /\
       FailResponse.status failResponse = HttpResponse.status response /\
       FailResponse.statusText failResponse = HttpResponse.statusText response) /\
   (notifyAboutError = Absent \/ notifyAboutError = Passed true ->
    NotifiedStatus (HttpResponse.status response) ->
    length (List.filter isUserNotification r.2) = 1%nat) /\
   (notifyAboutError = PassedUndefined \/ notifyAboutError = Passed false \/
    ~ NotifiedStatus (HttpResponse.status response) ->
    r.2 = [])).
Proof.
  unfold fetchData.
  destruct (HttpResponse.ok (fetch (requestOf page path method data options)));
    simpl.
  - split; [|done]. intros _.
    destruct (isJsonContent _); [|done].
    destruct (parseJSON _); [|done]. by destruct (truthy_bool _).
  - split; [done|]. intros _. split; [|split].
    + destruct (isJsonContent _); by eexists.
    + intros Hnotify Hstatus.
      assert (Hopt : optionOr true options FetchDataOptions.notifyAboutError
                     = true).
      { unfold optionOr. by destruct Hnotify as [-> | ->]. }
      rewrite Hopt. pose proof (NotifiedStatus_nonzero _ Hstatus) as Hnz.
      apply isNotifiedStatus_true in Hstatus. rewrite Hstatus. simpl.
      apply handleApiFail_one_toast. by destruct (isJsonContent _).
    + intros [Hoff | [Hoff | Hstatus]].
      * unfold optionOr. by rewrite Hoff.
      * unfold optionOr. by rewrite Hoff.
      * destruct (isNotifiedStatus _) eqn:Hs;
          [by apply isNotifiedStatus_true in Hs|].
        by rewrite andb_false_r.
Qed.

(** X22. What [fetchData] sends.  The request always accepts JSON.  A request
    without data, or with data that is falsy, has no body; unless it is a
    DELETE it then has no other header.  A request with truthy data has the
    text of the data as body.  A DELETE, with or without data, and a request
    with truthy data have the JSON content type, and the CSRF token exactly
    when the page has one. *)
Theorem requestOf_headers_and_body
    (page : Page.t) (path : string) (method : FetchHttpMethod)
    (data : option Json) (options : option FetchDataOptions.t) :
  let request := requestOf page path method data options in
  Request.method request = method /\
  object_get "Accept" (Request.headers request) = Some JSON_HEADER /\
  (hasData data = false ->
   Request.body request = None /\
   (method <> DELETE -> Request.headers request = [("Accept", JSON_HEADER)])) /\
  (forall d, data = Some d -> isTruthy d = true ->
             Request.body request = Some (stringify d)) /\
  (method = DELETE \/ hasData data = true ->
   object_get "Content-Type" (Request.headers request) = Some JSON_HEADER /\
   object_get "X-CSRFToken" (Request.headers request) = Page.csrfToken page).
Proof.
  unfold requestOf. simpl. split; [done|]. split.
  - destruct (isDelete method || hasData data); [|done].
    by destruct (Page.csrfToken page).
  - split; [|split].
    + intros Hdata. split.
      * destruct data as [d|]; [|done]. simpl in Hdata. by rewrite Hdata.
      * intros Hmethod. rewrite Hdata, orb_false_r.
        by destruct method.
    + intros d -> Hd. by rewrite Hd.
    + intros Hsome.
      assert (Hcond : isDelete method || hasData data = true).
      { destruct Hsome as [-> | ->]; [done | by rewrite orb_true_r]. }
      rewrite Hcond. by destruct (Page.csrfToken page).
Qed.

Lemma withoutRootUrl_url (page : Page.t) (url : string)
    (method : FetchHttpMethod) (data : option Json)
    (options : option FetchDataOptions.t) :
  Request.url (requestOf page url method data (withoutRootUrl options)) = url.
Proof. reflexivity. Qed.

(** X23. [fetchPostUrl] sends its request to the URL it is given, without the
    root URL, even when the options ask for the root URL: its outcome depends
    on the network only through the answer to POST requests to that URL.
    Its other options are kept: a failure is notified as for [fetchPost]. *)
Theorem fetchPostUrl_never_prepends
    (page : Page.t) (fetch fetch' : Request.t -> HttpResponse.t)
    (url : string) (data : Json) (options : option FetchDataOptions.t) :
  (forall request,
      Request.url request = url -> Request.method request = POST ->
      fetch request = fetch' request) ->
  fetchPostUrl page fetch url data options
    = fetchPostUrl page fetch' url data options /\
  optionOr true (withoutRootUrl options) FetchDataOptions.notifyAboutError
    = optionOr true options FetchDataOptions.notifyAboutError /\
  Request.url (requestOf page url POST (Some data) None)
    = Page.ROOT_URL page +:+ url.
Proof.
  intros Hsame. split; [|split].
  - unfold fetchPostUrl, fetchData.
    by rewrite (Hsame (requestOf page url POST (Some data)
                         (withoutRootUrl options))).
  - unfold optionOr. by destruct options.
  - reflexivity.
Qed.

(** X24. [fetchData] on a response that is ok: without a JSON content type
    it resolves to the empty object, without the headers even when they are
    asked for and whatever the body is; with a JSON content type it resolves
    to the parsed body, and is rejected, without a toast, when the body is
    not JSON. *)
Theorem fetchData_ok
    (page : Page.t) (fetch : Request.t -> HttpResponse.t) (path : string)
    (method : FetchHttpMethod) (data : option Json)
    (options : option FetchDataOptions.t) :
  let response := fetch (requestOf page path method data options) in
  let json := isJsonContent
                (object_get "content-type" (HttpResponse.headers response)) in
  HttpResponse.ok response = true ->
  (json = false ->
   fetchData page fetch path method data options = (Resolved None None, [])) /\
  (json = true -> parseJSON (HttpResponse.text response) = None ->
   fetchData page fetch path method data options = (RejectedNotJson, [])) /\
  (json = true ->
   forall body, parseJSON (HttpResponse.text response) = Some body ->
   fetchData page fetch path method data options
   = (Resolved (if truthy_bool
                       (optionOf options FetchDataOptions.includeHeaders)
                then Some (HttpResponse.headers response) else None)
               (Some body), [])).
Proof.
  intros response json Hok. subst response json. unfold fetchData.
  rewrite Hok. simpl. split; [|split].
  - by intros ->.
  - by intros -> ->.
  - intros -> body ->. by destruct (truthy_bool _).
Qed.

(** *** Analysis questions *)

(** X25. Turning the questions of a schema into internal questions and back
    gives the schema again, provided every question has the scope
    [by_question#survey], which is the scope the conversion writes. *)
Theorem convertQuestions_schema_round_trip (questions : list Schema) :
  Forall (fun question =>
            AnalysisQuestionSchema.scope question = "by_question#survey")
         questions ->
  convertQuestionsFromInternalToSchema
    (convertQuestionsFromSchemaToInternal questions) = questions.
Proof.
  unfold convertQuestionsFromInternalToSchema,
    convertQuestionsFromSchemaToInternal.
  induction 1 as [|question questions Hscope _ IH]; [done|].
  cbn [map]. rewrite IH. f_equal.
  destruct question as [uuid type labels options [choices|] scope qpath];
    simpl in *; by subst.
Qed.

(** X26. Turning internal questions into a schema and back keeps their
    number, order, uuids and question paths, and loses every response: all
    the responses are the empty text.  Without a schema there are no
    questions. *)
Theorem convertQuestions_internal_loses_responses (questions : list Internal) :
  let back :=
    convertQuestionsFromSchemaToInternal
      (convertQuestionsFromInternalToSchema questions) in
  map AnalysisQuestionInternal.uuid back
    = map AnalysisQuestionInternal.uuid questions /\
  map AnalysisQuestionInternal.qpath back
    = map AnalysisQuestionInternal.qpath questions /\
  map AnalysisQuestionInternal.response back
    = map (fun _ => RText "") questions /\
  getQuestionsFromSchema None = [].
Proof.
  unfold convertQuestionsFromInternalToSchema,
    convertQuestionsFromSchemaToInternal.
  repeat split; rewrite ?map_map; try done;
    apply map_ext; intros question; simpl;
    by destruct (AnalysisQuestionInternal.additionalFields question
                   ≫= AdditionalFields.choices).
Qed.

(** X27. Updating one question in a list keeps every response and every
    uuid, in order; a question comes out changed only if it has the uuid of
    the updated question, and then it is the updated question with the
    response it had; a list without that uuid comes out as it was. *)
Theorem updateSingleQuestionPreservingResponse_spec
    (questionToUpdate : Internal) (questions : list Internal) :
  let updated :=
    updateSingleQuestionPreservingResponse questionToUpdate questions in
  map AnalysisQuestionInternal.response updated
    = map AnalysisQuestionInternal.response questions /\
  map AnalysisQuestionInternal.uuid updated
    = map AnalysisQuestionInternal.uuid questions /\
  Forall2 (fun question question' =>
             (AnalysisQuestionInternal.uuid question
                <> AnalysisQuestionInternal.uuid questionToUpdate /\
              question' = question) \/
             (AnalysisQuestionInternal.uuid question
                = AnalysisQuestionInternal.uuid questionToUpdate /\
              question' = AnalysisQuestionInternal.set_response
                            (AnalysisQuestionInternal.response question)
                            questionToUpdate))
          questions updated /\
  (Forall (fun question =>
             AnalysisQuestionInternal.uuid question
               <> AnalysisQuestionInternal.uuid questionToUpdate) questions ->
   updated = questions).
Proof.
  unfold updateSingleQuestionPreservingResponse.
  induction questions as [|question questions (IH1 & IH2 & IH3 & IH4)];
    [by repeat split|].
  cbn [map]. rewrite IH1, IH2.
  destruct (String.eqb (AnalysisQuestionInternal.uuid question)
              (AnalysisQuestionInternal.uuid questionToUpdate)) eqn:Heq.
  - apply String.eqb_eq in Heq. repeat split.
    + simpl. by rewrite Heq.
    + constructor; [by right | done].
    + intros [Hne _]%Forall_cons. done.
  - apply String.eqb_neq in Heq. repeat split.
    + constructor; [by left | done].
    + intros [_ Hall]%Forall_cons. by rewrite IH4.
Qed.

(** X28. Applying the response of the endpoint to the internal questions
    changes nothing but responses: every question comes out as it was, or
    with the response stored under its uuid for that question path (the first
    one; a number as the text that [String] makes of it).  Without an entry for the question path in
    the response of the endpoint the questions come out as they were. *)
Theorem applyUpdateResponseToInternalQuestions_spec
    (qpath : string) (updateResp : gmap string (QualData.t JsNumber))
    (questions : list Internal) :
  let applied :=
    applyUpdateResponseToInternalQuestions qpath updateResp questions in
  Forall2 (fun question question' =>
             question' = question \/
             exists found responses,
               updateResp !! qpath ≫= QualData.qual = Some responses /\
               find (fun analResp =>
                       String.eqb (AnalysisQuestionInternal.uuid question)
                                  (QualResponse.uuid analResp)) responses
                 = Some found /\
               question' = AnalysisQuestionInternal.set_response
                             (responseOfVal (QualResponse.val found)) question)
          questions applied /\
  map AnalysisQuestionInternal.uuid applied
    = map AnalysisQuestionInternal.uuid questions /\
  (updateResp !! qpath ≫= QualData.qual = None -> applied = questions).
Proof.
  unfold applyUpdateResponseToInternalQuestions.
  destruct (updateResp !! qpath ≫= QualData.qual) as [responses|].
  - split; [|split; [|done]].
    + induction questions as [|question questions IH]; [constructor|].
      cbn [map]. constructor; [|done].
      destruct (find _ responses) as [found|] eqn:Hfind; [|by left].
      right. by exists found, responses.
    + rewrite map_map. apply map_ext. intros question.
      by destruct (find _ responses).
  - simpl. rewrite map_id. split; [|done].
    induction questions; constructor; auto.
Qed.

Lemma handleApiFail_toast_count (onLine hasRaven : bool)
    (response : FailResponse.t) (toastMessage : option string) :
  length (List.filter isUserNotification
            (handleApiFail onLine hasRaven response toastMessage))
  = if (FailResponse.status response =? 0)%Z &&
       String.eqb (FailResponse.statusText response) "abort"
    then 0%nat else 1%nat.
Proof.
  unfold handleApiFail.
  destruct ((FailResponse.status response =? 0)%Z &&
            String.eqb (FailResponse.statusText response) "abort");
    [done|]. by destruct hasRaven.
Qed.

Lemma analysis_toasts_of_api (l : list Effect) :
  length (List.filter isAnalysisToast (map Api l))
  = length (List.filter isUserNotification l).
Proof.
  induction l as [|e l IH]; [done|]. simpl.
  destruct (isUserNotification e); simpl; by rewrite IH.
Qed.

Lemma handleApiFail_effects (onLine hasRaven : bool)
    (response : FailResponse.t) (toastMessage : option string) :
  Forall (fun e => isUserNotification e = true \/ isRavenCapture e = true)
         (handleApiFail onLine hasRaven response toastMessage).
Proof.
  unfold handleApiFail.
  destruct ((FailResponse.status response =? 0)%Z &&
            String.eqb (FailResponse.statusText response) "abort");
    [constructor|].
  constructor; [by left|].
  destruct hasRaven; [|constructor].
  constructor; [by right | constructor].
Qed.

(** X29. [updateResponseAndReducer] without a processing URL only shows the
    toast of the missing feature: the reducer is told nothing and nothing is
    sent.  With a processing URL it first tells the reducer that the update
    starts and last tells it how it ended, once; in between there are only
    toasts and captures.  It ended completed, for the question path, exactly
    when the endpoint answered the request with a response that is ok and
    either has no JSON content type (then without a body) or has a body that
    is JSON (then with that body), and then there is no toast and no capture;
    in every other case it ended failed. *)
Theorem updateResponseAndReducer_dispatches
    (page : Page.t) (fetch : Request.t -> HttpResponse.t) (env : Env.t)
    (processingUrl : option string) (qpath uuid type : string)
    (response : AnalysisResponse) :
  let effects :=
    updateResponseAndReducer page fetch env processingUrl qpath uuid type
      response in
  (processingUrl = None \/ processingUrl = Some "" ->
   effects = [Notify NO_FEATURE_ERROR "error"]) /\
  (forall url, processingUrl = Some url -> url <> "" ->
   let answer := fetch (updateRequest page env url qpath uuid type response) in
   let json :=
     isJsonContent (object_get "content-type" (HttpResponse.headers answer)) in
   let outcome :=
     if HttpResponse.ok answer then
       if json then
         match parseJSON (HttpResponse.text answer) with
         | Some body => UpdateResponseCompleted (Some body) qpath
         | None => UpdateResponseFailed
         end
       else UpdateResponseCompleted None qpath
     else UpdateResponseFailed in
   exists toasts,
     effects = Dispatch UpdateResponse :: map Api toasts ++ [Dispatch outcome] /\
     Forall (fun e => isUserNotification e = true \/ isRavenCapture e = true)
            toasts /\
     (outcome <> UpdateResponseFailed -> toasts = [])).
Proof.
  split.
  - by intros [-> | ->].
  - intros url -> Hurl answer json outcome. subst outcome json answer.
    apply truthy_true in Hurl.
    unfold updateResponseAndReducer, updateResponse, fetchPostUrl, fetchData,
      updateRequest.
    rewrite Hurl. cbv zeta.
    set (answer := fetch _).
    destruct (HttpResponse.ok answer); cbn [negb].
    + destruct (isJsonContent _).
      * destruct (parseJSON _) as [body|].
        -- exists []. by repeat split.
        -- exists (handleApiFail (Page.onLine page) (Page.hasRaven page)
                     notAFailResponse None).
           split; [reflexivity|]. split; [|done].
           apply handleApiFail_effects.
      * exists []. by repeat split.
    + set (failResponse := if isJsonContent _ then _ else _).
      set (toasts := if _ && _ then _ else _).
      exists (toasts ++ handleApiFail (Page.onLine page) (Page.hasRaven page)
                          failResponse None).
      split; [|split; [|done]].
      * cbn [app]. by rewrite map_app, <- app_assoc.
      * apply Forall_app. split; [|apply handleApiFail_effects].
        subst toasts. destruct (_ && _); [|constructor].
        apply handleApiFail_effects.
Qed.

(** X30. How many toasts a failed update of a response shows.  When the
    endpoint answers with a response that is not ok, the failure is handled
    by [fetchData] and again by [updateResponseAndReducer]: for the statuses
    401, 403, 404 and from 500 on two toasts are shown, for any other status
    one; the reducer is told of the failure in both cases. *)
Theorem updateResponseAndReducer_failure_toasts
    (page : Page.t) (fetch : Request.t -> HttpResponse.t) (env : Env.t)
    (url qpath uuid type : string) (response : AnalysisResponse) :
  let answer := fetch (updateRequest page env url qpath uuid type response) in
  let effects :=
    updateResponseAndReducer page fetch env (Some url) qpath uuid type
      response in
  url <> "" ->
  HttpResponse.ok answer = false ->
  HttpResponse.status answer <> 0%Z ->
  length (List.filter isAnalysisToast effects)
    = (if isNotifiedStatus (HttpResponse.status answer) then 2%nat else 1%nat) /\
  last effects = Some (Dispatch UpdateResponseFailed).
Proof.
  intros answer effects Hurl Hok Hstatus. subst answer effects.
  apply truthy_true in Hurl. apply Z.eqb_neq in Hstatus.
  unfold updateResponseAndReducer, updateResponse, fetchPostUrl, fetchData,
    updateRequest in *.
  rewrite Hurl. cbv zeta.
  set (answer := fetch _) in *. rewrite Hok. cbn [negb].
  set (failResponse := if isJsonContent _ then _ else _).
  assert (Hfs : (FailResponse.status failResponse =? 0)%Z = false).
  { subst failResponse. by destruct (isJsonContent _). }
  split.
  - cbn [app]. cbn [List.filter isAnalysisToast].
    rewrite List.filter_app, length_app, List.filter_app, length_app.
    rewrite !analysis_toasts_of_api, handleApiFail_toast_count, Hfs.
    cbn [andb length List.filter isAnalysisToast].
    destruct (isNotifiedStatus (HttpResponse.status answer)); simpl.
    + by rewrite handleApiFail_toast_count, Hfs.
    + done.
  - rewrite !app_assoc. apply last_snoc.
Qed.

End Coordinator.

(** ** Examples *)





(** C6 as stated fails: a completed deletion of the transcript is a
    successful commit, and right after it the transcript draft still counts
    as unsaved. *)
Lemma unsaved_draft_after_deleted_transcript :
  Data.transcript (Store.data (onDeleteTranscriptCompleted storeOnS1).1)
    = None /\
  hasUnsavedTranscriptDraftValue (onDeleteTranscriptCompleted storeOnS1).1
    = true.
Proof. vm_compute. by split. Qed.

(** C3 as stated fails: the payload has two language code keys, [fr] and
    [pl], and the store keeps one translation. *)
Lemma onFetchProcessingDataCompleted_not_one_entry_per_key :
  payloadWithBlank !! "q1" ≫= QuestionData.translation
    = Some translationsWithBlank /\
  object_keys translationsWithBlank = ["fr"; "pl"] /\
  Data.translations
    (Store.data
       (onFetchProcessingDataCompleted (sampleEnv "a1" "q1" "s1")
          payloadWithBlank initialStore).1)
    = [sampleTransx "bonjour" "fr"] /\
  length
    (Data.translations
       (Store.data
          (onFetchProcessingDataCompleted (sampleEnv "a1" "q1" "s1")
             payloadWithBlank initialStore).1))
    <> length (object_keys translationsWithBlank).
Proof. vm_compute. repeat split; discriminate. Qed.

Lemma onFetchProcessingDataCompleted_merge_witness :
  let r := onFetchProcessingDataCompleted (sampleEnv "a1" "q1" "s1")
             payloadWithBlank initialStore in
  Data.transcript (Store.data r.1) = Some (sampleTransx "hello" "en") /\
  Data.translations (Store.data r.1) = [sampleTransx "bonjour" "fr"] /\
  Store.isProcessingDataLoaded r.1 = true /\
  r.2 = [Trigger TDisplays; Trigger TData].
Proof.
  destruct (onFetchProcessingDataCompleted_merge (sampleEnv "a1" "q1" "s1")
              payloadWithBlank initialStore)
    as (Htr & Htrs & Hloaded & Heff & _).
  - intros obj H. vm_compute in H. injection H as <-.
    apply (bool_decide_unpack _). vm_compute. exact I.
  - split; [|split; [|split]].
    + apply Htr. split; [reflexivity|]. split; vm_compute; discriminate.
    + exact Htrs.
    + exact Hloaded.
    + exact Heff.
Defined.

(** C5 as stated fails: in one session of the processing view a transcript is
    saved for submission [s1], which sets the flag to false, and the
    navigation to submission [s2] sets it back to true. *)
Lemma pristine_reset_within_session :
  let env1 := sampleEnv "a1" "q1" "s1" in
  let env2 := sampleEnv "a1" "q1" "s2" in
  let opened :=
    [(env1, EvRouteChange
              "/forms/a1/data/processing/q1/s1/transcript");
     (env1, EvGetProcessingDataCompleted payloadWithBlank);
     (env1, EvSetTranscriptCompleted savedTranscriptPayload)] in
  let moved :=
    [(env2, EvRouteChange
              "/forms/a1/data/processing/q1/s2/transcript")] in
  Data.isPristine (Store.data (run id samplePathParts opened initialStore).1)
    = false /\
  Data.isPristine
    (Store.data (run id samplePathParts (opened ++ moved) initialStore).1)
    = true.
Proof. vm_compute. by split. Qed.

Lemma pristine_flag_lifecycle_witness :
  Data.isPristine
    (Store.data (run id samplePathParts quietEvents storeOnS1).1) = false.
Proof.
  destruct (pristine_flag_lifecycle id samplePathParts quietEvents storeOnS1)
    as (_ & _ & Hstays & _).
  - repeat constructor; discriminate.
  - vm_compute. reflexivity.
  - apply Hstays. reflexivity.
Defined.

(** The region code of the draft matches the language of the result: the
    result is written and the polling stops. *)
Example onRequestAutoTranscriptionCompleted_region_match :
  let s' := (onRequestAutoTranscriptionCompleted (sampleEnv "a1" "q1" "s1")
               spanishTranscription storePollingSpanish).1 in
  Data.transcriptDraft (Store.data s')
    = Some (TransxDraft.mk (Some "hola") (Some "es-MX") (Defined "es")) /\
  Data.isPollingForTranscript (Store.data s') = false.
Proof. vm_compute. by split. Qed.

(** The same result after the user went to submission [s2]: nothing is
    written. *)
Example onRequestAutoTranscriptionCompleted_other_submission :
  let s' := (onRequestAutoTranscriptionCompleted (sampleEnv "a1" "q1" "s2")
               spanishTranscription storePollingSpanish).1 in
  Data.transcriptDraft (Store.data s')
    = Data.transcriptDraft (Store.data storePollingSpanish).
Proof. vm_compute. reflexivity. Qed.

(** C4 fails on the code. On the transcript tab of [storeOnS1] the display
    [pl] is active while no Polish translation is persisted, so it is not
    available; after [cleanupDisplays] it is still active. *)
Theorem cleanupDisplays_keeps_unavailable_display :
  includes "pl" (getAvailableDisplays TabTranscript storeOnS1) = false /\
  includes "pl"
    (getDisplays (Some TabTranscript) (cleanupDisplays storeOnS1).1) = true.
Proof. vm_compute. by split. Qed.

(** C8 fails on the code. For a failure without a body and with an empty
    status text the store shows the empty text, not the generic message it
    starts from; the flags are cleared and the persisted data kept. *)
Theorem onAnyCallFailed_shows_status_text (t : string -> string) :
  (onAnyCallFailed t (inl bareFailure) storeOnS1).2
    = [AlertifyNotify "" "error"; Trigger TData] /\
  errorTextOf t (inl bareFailure) = "" /\
  Data.isFetchingData
    (Store.data (onAnyCallFailed t (inl bareFailure) storeOnS1).1) = false /\
  Data.transcript
    (Store.data (onAnyCallFailed t (inl bareFailure) storeOnS1).1)
    = Data.transcript (Store.data storeOnS1).
Proof. repeat split. Qed.

(** C9 fails on the code. For the failure of a request aborted on purpose
    [handleApiFail] shows nothing, while [onAnyCallFailed], which receives the
    failures of the payload fetch, shows the toast [abort]. *)
Theorem onAnyCallFailed_notifies_abort
    (t : string -> string) (pluckErrormsg : string -> option string)
    (onLine hasRaven : bool) (toast : option string) (s : Store.t) :
  handleApiFail t pluckErrormsg onLine hasRaven abortedResponse toast = [] /\
  List.filter isUserNotification (onAnyCallFailed t (inl abortedResponse) s).2
    = [AlertifyNotify "abort" "error"].
Proof.
  split; [apply handleApiFail_aborted|].
  by rewrite onAnyCallFailed_aborted.
Qed.

(** ** Examples for the further properties *)

Lemma onRouteChange_keeps_index_and_displays_witness :
  let r := onRouteChange samplePathParts (sampleEnv "a1" "q1" "s2")
             "/forms/a1/data/processing/q1/s2/transcript" storeOnS1 in
  forallb isContextFetch r.2 = true /\
  Store.displays r.1 = Store.displays storeOnS1.
Proof.
  destruct (onRouteChange_keeps_index_and_displays samplePathParts
              (sampleEnv "a1" "q1" "s2")
              "/forms/a1/data/processing/q1/s2/transcript"
              "/forms/a1/data/processing/q1/s1/transcript" storeOnS1)
    as (Hcalls & Hdisplays & _).
  - reflexivity.
  - reflexivity.
  - exact (conj Hcalls Hdisplays).
Defined.

Lemma onRouteChange_view_entry_witness :
  let r := onRouteChange samplePathParts (sampleEnv "a1" "q1" "s1")
             "/forms/a1/data/processing/q1/s1/transcript" initialStore in
  List.filter isNetworkCall r.2 =
    [CallGetSubmissionByUuid "a1" "s1";
     CallGetProcessingSubmissions "a1" [];
     CallGetProcessingData "a1" "s1"] /\
  Store.displays r.1 = getInitialDisplays.
Proof.
  destruct (onRouteChange_view_entry samplePathParts
              (sampleEnv "a1" "q1" "s1")
              "/forms/a1/data/processing/q1/s1/transcript" initialStore)
    as (Hcalls & Hdisplays & _).
  - reflexivity.
  - discriminate.
  - reflexivity.
  - reflexivity.
  - reflexivity.
  - exact (conj Hcalls Hdisplays).
Defined.

Lemma startup_before_activation_witness :
  (handle id samplePathParts inactiveEnv EvActivateAssetCompleted storeOnS1).2
  = [CallActivateAsset "a1"].
Proof.
  destruct (startup_before_activation id samplePathParts inactiveEnv
              EvActivateAssetCompleted storeOnS1) as [_ Hagain].
  - reflexivity.
  - reflexivity.
  - apply Hagain. reflexivity.
Defined.

Lemma context_change_not_ready_until_loaded_witness :
  let s1 := (onRouteChange samplePathParts (sampleEnv "a1" "q1" "s2")
               "/forms/a1/data/processing/q1/s2/transcript" storeOnS1).1 in
  isReady (sampleEnv "a1" "q1" "s2") s1 = false /\
  isReady (sampleEnv "a1" "q1" "s2")
    (onFetchProcessingDataCompleted (sampleEnv "a1" "q1" "s2") payloadWithBlank
       (onGetSubmissionByUuidCompleted ∅ s1).1).1 = true.
Proof.
  destruct (context_change_not_ready_until_loaded samplePathParts
              (sampleEnv "a1" "q1" "s2") (sampleEnv "a1" "q1" "s2")
              (sampleEnv "a1" "q1" "s2")
              "/forms/a1/data/processing/q1/s2/transcript"
              "/forms/a1/data/processing/q1/s1/transcript" storeOnS1
              ∅ payloadWithBlank)
    as (Hnot & _ & _ & Hready & _).
  - reflexivity.
  - reflexivity.
  - vm_compute. reflexivity.
  - right. vm_compute. discriminate.
  - exact (conj Hnot Hready).
Defined.

Lemma onSetTranscriptCompleted_without_transcript_witness :
  let s' := (onSetTranscriptCompleted (sampleEnv "a1" "q1" "s1") ∅
               storeOnS1).1 in
  Data.transcript (Store.data s') = Some (sampleTransx "hello" "en") /\
  Data.transcriptDraft (Store.data s') = None.
Proof.
  destruct (onSetTranscriptCompleted_without_transcript
              (sampleEnv "a1" "q1" "s1") ∅ storeOnS1)
    as (Htranscript & Hdraft & _).
  - reflexivity.
  - exact (conj Htranscript Hdraft).
Defined.

Lemma buildSubmissionsEditIds_lookup_witness :
  buildSubmissionsEditIds surveyEnv sampleSubmissions !! "q1"
  = Some [EditId.mk (Some "r1") true; EditId.mk (Some "u2") false].
Proof.
  destruct (buildSubmissionsEditIds_lookup surveyEnv sampleSubmissions
              {[ "Q1" := "group/Q1" ]} ["q1"; "q2"] "q1")
    as (_ & _ & Hnamed).
  - reflexivity.
  - reflexivity.
  - apply (bool_decide_unpack _). vm_compute. exact I.
  - rewrite Hnamed.
    + vm_compute. reflexivity.
    + apply (bool_decide_unpack _). vm_compute. exact I.
    + reflexivity.
Defined.

Lemma onGetProcessingSubmissionsCompleted_without_rows_witness :
  let s1 := (onGetProcessingSubmissionsCompleted inactiveEnv sampleSubmissions
               initialStore).1 in
  let s2 := (onGetProcessingSubmissionsCompleted inheritedNameEnv
               sampleSubmissions initialStore).1 in
  Data.submissionsEditIds (Store.data s1) = Some ∅ /\
  getCurrentQuestionSubmissionsEditIds inactiveEnv s1 = NoMember /\
  getCurrentQuestionSubmissionsEditIds inheritedNameEnv s2
  = Inherited "constructor".
Proof.
  destruct (onGetProcessingSubmissionsCompleted_without_rows inactiveEnv
              sampleSubmissions initialStore) as (Hempty & _ & Hnone).
  - left. reflexivity.
  - destruct (onGetProcessingSubmissionsCompleted_without_rows
                inheritedNameEnv sampleSubmissions initialStore)
      as (_ & _ & Hinherited).
    + right. reflexivity.
    + exact (conj Hempty (conj Hnone Hinherited)).
Defined.

(** A processing row named [constructor] has no flat path in the survey, and
    the edit-id fetch asks for the member of that name that the object of
    the flat paths inherits. *)
Lemma processingRowsPaths_inherited_row :
  processingRowsPaths inheritedRowEnv
  = [Own "group/Q1"; Inherited "constructor"].
Proof. vm_compute. reflexivity. Qed.

Lemma handleApiFail_toast_override_witness :
  (exists message,
      List.filter isUserNotification
        (handleApiFail id (fun _ => None) false true bareFailure
           (Some "Not saved"))
      = [NotifyError (Some message)] /\
      String.prefix "Not saved" message = true) /\
  List.filter isRavenCapture
    (handleApiFail id (fun _ => None) true true badRequest (Some "Not saved"))
  = [RavenCapture (Some "Invalid value")].
Proof.
  split.
  - destruct (handleApiFail_toast_override id (fun _ => None) false true
                bareFailure "Not saved") as (Htoast & _).
    + intros [Hstatus _]. discriminate.
    + reflexivity.
    + exact Htoast.
  - destruct (handleApiFail_toast_override id (fun _ => None) true true
                badRequest "Not saved") as (_ & Hraven).
    + intros [Hstatus _]. discriminate.
    + reflexivity.
    + apply (Hraven "Invalid value"); reflexivity.
Defined.

Lemma fetchPostUrl_never_prepends_witness :
  fetchPostUrl id (fun _ => None) string truthy id parseBraces noDetail
    samplePage serverError "https://other.example.org/x" "{}" None
  = fetchPostUrl id (fun _ => None) string truthy id parseBraces noDetail
      samplePage
      (fun request =>
         if String.eqb (Request.url request) "https://other.example.org/x"
         then serverError request else htmlPage request)
      "https://other.example.org/x" "{}" None.
Proof.
  destruct (fetchPostUrl_never_prepends id (fun _ => None) string truthy id
              parseBraces noDetail samplePage serverError
              (fun request =>
                 if String.eqb (Request.url request)
                               "https://other.example.org/x"
                 then serverError request else htmlPage request)
              "https://other.example.org/x" "{}" None) as (Hsame & _).
  - intros request Hurl _. rewrite Hurl. reflexivity.
  - exact Hsame.
Defined.

Lemma fetchData_ok_witness :
  fetchData id (fun _ => None) string truthy id parseBraces noDetail
    samplePage htmlPage "/api/v2/assets/" GET None
    (Some (FetchDataOptions.mk Absent Absent Absent (Passed true)))
  = (Resolved string None None, []).
Proof.
  destruct (fetchData_ok id (fun _ => None) string truthy id parseBraces
              noDetail samplePage htmlPage "/api/v2/assets/" GET None
              (Some (FetchDataOptions.mk Absent Absent Absent (Passed true))))
    as (Hplain & _).
  - reflexivity.
  - apply Hplain. reflexivity.
Defined.

Lemma convertQuestions_schema_round_trip_witness :
  convertQuestionsFromInternalToSchema string unit (list string)
    (convertQuestionsFromSchemaToInternal string unit (list string)
       sampleSchema)
  = sampleSchema.
Proof.
  apply (convertQuestions_schema_round_trip string unit (list string)
           sampleSchema).
  repeat constructor.
Defined.

Lemma updateResponseAndReducer_failure_toasts_witness :
  length
    (List.filter (isAnalysisToast string)
       (updateResponseAndReducer id (fun _ => None) string truthy id
          parseBraces noDetail "No feature" payloadText samplePage serverError
          (sampleEnv "a1" "q1" "s1") (Some "https://kf.example.org/p")
          "q1" "u1" "qual_text" (RText "fine")))
  = 2%nat.
Proof.
  destruct (updateResponseAndReducer_failure_toasts id (fun _ => None) string
              truthy id parseBraces noDetail "No feature" payloadText
              samplePage serverError (sampleEnv "a1" "q1" "s1")
              "https://kf.example.org/p" "q1" "u1" "qual_text" (RText "fine"))
    as (Hcount & _).
  - discriminate.
  - reflexivity.
  - discriminate.
  - exact Hcount.
Defined.

Lemma onAutoTranscriptionTimeout_requests_iff_applicable_witness :
  Data.isPollingForTranscript
    (Store.data
       (onAutoTranscriptionTimeout (sampleEnv "a1" "q1" "s1")
          spanishTranscription storePollingSpanish).1) = true.
Proof.
  destruct (onAutoTranscriptionTimeout_requests_iff_applicable
              (sampleEnv "a1" "q1" "s1") spanishTranscription
              storePollingSpanish) as (Happlies & _).
  apply Happlies. split; [reflexivity|].
  exists (GoogleResponse.mk "hola" "es"),
    (TransxDraft.mk None (Some "es-MX") (Defined "es")).
  split; [vm_compute; reflexivity|]. split; [reflexivity|].
  right. reflexivity.
Defined.

Lemma resetDisplays_available_witness :
  includes "Audio"
    (getAvailableDisplays TabTranscript
       (resetDisplays TabTranscript storeOnS1).1) = true.
Proof.
  destruct (resetDisplays_available TabTranscript TabAnalysis storeOnS1
              "Audio") as (Havailable & _).
  apply Havailable. left. reflexivity.
Defined.

Lemma handleApiFail_silent_iff_aborted_witness :
  exists message,
    List.filter isUserNotification
      (handleApiFail id (fun _ => None) true false badRequest None)
    = [NotifyError message].
Proof.
  destruct (handleApiFail_silent_iff_aborted id (fun _ => None) true false
              badRequest None) as (_ & Hnotifies).
  destruct Hnotifies as (message & Htoast & _).
  - intros [Hstatus _]. discriminate.
  - exists message. exact Htoast.
Defined.

Lemma fetchData_notification_policy_witness :
  length
    (List.filter isUserNotification
       (fetchData id (fun _ => None) string truthy id parseBraces noDetail
          samplePage serverError "/api/v2/assets/" GET None None).2) = 1%nat /\
  (fetchData id (fun _ => None) string truthy id parseBraces noDetail
     samplePage serverError "/api/v2/assets/" GET None
     (Some (FetchDataOptions.mk PassedUndefined Absent Absent Absent))).2 = [].
Proof.
  split.
  - destruct (fetchData_notification_policy id (fun _ => None) string truthy
                id parseBraces noDetail samplePage serverError
                "/api/v2/assets/" GET None None) as (_ & Hfailed).
    destruct Hfailed as (_ & Hnotified & _).
    + reflexivity.
    + apply Hnotified.
      * left. reflexivity.
      * right. right. right. vm_compute. discriminate.
  - destruct (fetchData_notification_policy id (fun _ => None) string truthy
                id parseBraces noDetail samplePage serverError
                "/api/v2/assets/" GET None
                (Some (FetchDataOptions.mk PassedUndefined Absent Absent
                         Absent))) as (_ & Hfailed).
    destruct Hfailed as (_ & _ & Hquiet).
    + reflexivity.
    + apply Hquiet. left. reflexivity.
Defined.

Lemma requestOf_headers_and_body_witness :
  Request.headers
    (requestOf string truthy id samplePage "/api/v2/assets/" POST (Some "")
       None)
  = [("Accept", JSON_HEADER)].
Proof.
  destruct (requestOf_headers_and_body string truthy id samplePage
              "/api/v2/assets/" POST (Some "") None)
    as (_ & _ & Hfalsy & _).
  destruct Hfalsy as (_ & Hheaders).
  - reflexivity.
  - apply Hheaders. discriminate.
Defined.

Lemma updateSingleQuestionPreservingResponse_spec_witness :
  updateSingleQuestionPreservingResponse string unit (list string)
    otherQuestion sampleInternal = sampleInternal.
Proof.
  destruct (updateSingleQuestionPreservingResponse_spec string unit
              (list string) otherQuestion sampleInternal)
    as (_ & _ & _ & Hsame).
  apply Hsame. repeat constructor; discriminate.
Defined.

Lemma applyUpdateResponseToInternalQuestions_spec_witness :
  applyUpdateResponseToInternalQuestions string unit (list string) Z
    number_to_string "q1" ∅ sampleInternal = sampleInternal.
Proof.
  destruct (applyUpdateResponseToInternalQuestions_spec string unit
              (list string) Z number_to_string "q1" ∅ sampleInternal)
    as (_ & _ & Hsame).
  apply Hsame. reflexivity.
Defined.

Lemma updateResponseAndReducer_dispatches_witness :
  updateResponseAndReducer id (fun _ => None) string truthy id parseBraces
    noDetail "No feature" payloadText samplePage serverError
    (sampleEnv "a1" "q1" "s1") None "q1" "u1" "qual_text" (RText "fine")
  = [Notify "No feature" "error"] /\
  updateResponseAndReducer id (fun _ => None) string truthy id parseBraces
    noDetail "No feature" payloadText samplePage htmlPage
    (sampleEnv "a1" "q1" "s1") (Some "https://kf.example.org/p")
    "q1" "u1" "qual_text" (RText "fine")
  = [Dispatch UpdateResponse; Dispatch (UpdateResponseCompleted None "q1")].
Proof.
  split.
  - destruct (updateResponseAndReducer_dispatches id (fun _ => None) string
                truthy id parseBraces noDetail "No feature" payloadText
                samplePage serverError (sampleEnv "a1" "q1" "s1") None
                "q1" "u1" "qual_text" (RText "fine")) as (Hnone & _).
    apply Hnone. left. reflexivity.
  - destruct (updateResponseAndReducer_dispatches id (fun _ => None) string
                truthy id parseBraces noDetail "No feature" payloadText
                samplePage htmlPage (sampleEnv "a1" "q1" "s1")
                (Some "https://kf.example.org/p")
                "q1" "u1" "qual_text" (RText "fine")) as (_ & Hsome).
    destruct (Hsome "https://kf.example.org/p") as (toasts & Heffects & _ & Hnone).
    + reflexivity.
    + discriminate.
    + rewrite Heffects, Hnone; [reflexivity | discriminate].
Defined.
